(** * node-e-trade: a shallow embedding of [src/e-trade-api.ts]

    The development follows the layout of the TypeScript source:

    - JavaScript values and the handful of language operations the client
      relies on (truthiness, string coercion, property access);
    - the [deepmerge] package, which the constructor, [getBasicRequest] and
      [signRequest] call;
    - the [oauth-1.0a] signer, with its string crunching (percent encoding,
      base string, HMAC) taken as parameters of the platform;
    - the [ETrade] class itself: a store of mutable objects, the request
      dispatcher and every endpoint wrapper;
    - the properties of the client, one theorem per claim. *)

From Stdlib Require Import String Ascii ZArith List Bool Lia DecimalString.
From stdpp Require Import base list strings.
Import ListNotations.
Local Open Scope string_scope.
Set Warnings "-register-all".

(* ================================================================== *)
(** * JavaScript values *)
(* ================================================================== *)

(** Plain data as the client sees it: JSON-like trees.  Numbers are the
    integers the client handles (identifiers, limits, HTTP and API codes),
    meant within the range a JavaScript number holds exactly (magnitude at
    most 2^53 - 1).  An object is its list of own enumerable properties in
    insertion order. *)
Inductive value : Type :=
| VUndefined
| VNull
| VBool (b : bool)
| VNum (n : Z)
| VStr (s : string)
| VArr (elems : list value)
| VObj (props : list (string * value)).

Abbreviation obj := (list (string * value)).

Module Js.

(** [o[k]] as an optional own property (first binding). *)
Fixpoint lookup (k : string) (o : obj) : option value :=
  match o with
  | [] => None
  | (k', v) :: o' => if String.eqb k k' then Some v else lookup k o'
  end.

(** [o[k]], [undefined] when the property is missing. *)
Definition get (k : string) (o : obj) : value :=
  match lookup k o with Some v => v | None => VUndefined end.

(** [k in o] restricted to own properties. *)
Definition has (k : string) (o : obj) : bool :=
  match lookup k o with Some _ => true | None => false end.

(** [o[k] = v]: overwrite in place, or append a new property. *)
Fixpoint set (k : string) (v : value) (o : obj) : obj :=
  match o with
  | [] => [(k, v)]
  | (k', v') :: o' =>
      if String.eqb k k' then (k', v) :: o' else (k', v') :: set k v o'
  end.

(** [delete o[k]]. *)
Fixpoint delete (k : string) (o : obj) : obj :=
  match o with
  | [] => []
  | (k', v') :: o' =>
      if String.eqb k k' then delete k o' else (k', v') :: delete k o'
  end.

(** [Object.keys(o)]. *)
Definition keys (o : obj) : list string := map fst o.

(** Truthiness, as tested by [if(x)], [!x] and [x || y]. *)
Definition truthy (v : value) : bool :=
  match v with
  | VUndefined | VNull => false
  | VBool b => b
  | VNum n => negb (Z.eqb n 0)
  | VStr s => negb (String.eqb s "")
  | VArr _ | VObj _ => true
  end.

(** [a || b]. *)
Definition or (a b : value) : value := if truthy a then a else b.

(** Decimal rendering of an integer ([String(n)]).  This is what JavaScript
    prints for an integer of magnitude at most 2^53 - 1; beyond that a
    number is rounded, and from 1e21 printed with an exponent, which is
    outside this model. *)
Definition string_of_Z (n : Z) : string := NilZero.string_of_int (Z.to_int n).

(** String coercion, as performed by template literals, [''+x] and
    [Array.prototype.join].  Inside [join] the elements [undefined] and
    [null] render as the empty string. *)
Fixpoint toString (v : value) : string :=
  match v with
  | VUndefined => "undefined"
  | VNull => "null"
  | VBool true => "true"
  | VBool false => "false"
  | VNum n => string_of_Z n
  | VStr s => s
  | VArr l =>
      String.concat ","
        (map (fun e => match e with
                       | VUndefined | VNull => ""
                       | _ => toString e
                       end) l)
  | VObj _ => "[object Object]"
  end.

(** [arr.join(sep)]. *)
Definition join (sep : string) (l : list value) : string :=
  String.concat sep
    (map (fun e => match e with
                   | VUndefined | VNull => ""
                   | _ => toString e
                   end) l).

(** [v === 's'] for a string literal. *)
Definition is_string (v : value) (s : string) : bool :=
  match v with VStr s' => String.eqb s' s | _ => false end.

(** [v === undefined]. *)
Definition is_undefined (v : value) : bool :=
  match v with VUndefined => true | _ => false end.

(** [v == null]: the test behind the [?.] operator. *)
Definition nullish (v : value) : bool :=
  match v with VUndefined | VNull => true | _ => false end.

End Js.

(* ================================================================== *)
(** * The [deepmerge] package *)
(* ================================================================== *)

(** [merge(target, source)] with the package's default options: it never
    mutates its arguments and returns a fresh tree ([clone] is on), arrays
    are concatenated, objects are merged key by key, everything else is
    taken from [source]. *)
Module Deepmerge.

(** Names that [key in {}] finds on [Object.prototype]. *)
Definition prototypeKeys : list string :=
  [ "constructor"; "__defineGetter__"; "__defineSetter__"; "hasOwnProperty";
    "__lookupGetter__"; "__lookupSetter__"; "isPrototypeOf";
    "propertyIsEnumerable"; "toString"; "valueOf"; "__proto__";
    "toLocaleString" ].

Definition isPrototypeKey (k : string) : bool :=
  existsb (String.eqb k) prototypeKeys.

(** [isMergeableObject]: non-null objects (arrays included). *)
Definition isMergeableObject (v : value) : bool :=
  match v with VArr _ | VObj _ => true | _ => false end.

(** [propertyIsOnObject(target, key)]: [key in target], [false] when the
    [in] operator throws (primitive targets). *)
Definition propertyIsOnObject (target : value) (k : string) : bool :=
  match target with
  | VObj t => Js.has k t || isPrototypeKey k
  | _ => false
  end.

(** [propertyIsUnsafe(target, key)]: present on the prototype chain but
    not as an own enumerable property. *)
Definition propertyIsUnsafe (target : value) (k : string) : bool :=
  match target with
  | VObj t => isPrototypeKey k && negb (Js.has k t)
  | _ => false
  end.

(** [target[key]] on a merge target. *)
Definition targetProp (target : value) (k : string) : value :=
  match target with VObj t => Js.get k t | _ => VUndefined end.

(** [cloneUnlessOtherwiseSpecified(value)]: [deepmerge(emptyTarget(value),
    value)] for mergeable values, the value itself otherwise. *)
Fixpoint clone (v : value) : value :=
  match v with
  | VArr l => VArr (map clone l)
  | VObj s =>
      VObj (fold_left
              (fun dest kv =>
                 if isPrototypeKey (fst kv) then dest
                 else Js.set (fst kv) (clone (snd kv)) dest)
              s [])
  | _ => v
  end.

(** First loop of [mergeObject]: copy the target's own properties. *)
Definition cloneProps (target : value) : obj :=
  match target with
  | VObj t => fold_left (fun dest kv => Js.set (fst kv) (clone (snd kv)) dest) t []
  | _ => []
  end.

(** [deepmerge(target, source)].  Inside the package it is only entered
    with a mergeable [source]; a primitive [source] stands for itself. *)
Fixpoint deepmerge (target source : value) {struct source} : value :=
  match source with
  | VArr s =>
      match target with
      | VArr t => VArr (map clone t ++ map clone s)
      | _ => VArr (map clone s)
      end
  | VObj s =>
      match target with
      | VArr _ => clone source
      | _ =>
          VObj (fold_left
                  (fun dest kv =>
                     let k := fst kv in
                     if propertyIsUnsafe target k then dest
                     else if propertyIsOnObject target k
                             && isMergeableObject (snd kv)
                          then Js.set k (deepmerge (targetProp target k) (snd kv)) dest
                          else Js.set k (clone (snd kv)) dest)
                  s (cloneProps target))
      end
  | _ => source
  end.

(** One round of the second loop of [mergeObject]. *)
Definition mergeEntry (target : value) (dest : obj) (kv : string * value) : obj :=
  let k := fst kv in
  if propertyIsUnsafe target k then dest
  else if propertyIsOnObject target k && isMergeableObject (snd kv)
       then Js.set k (deepmerge (targetProp target k) (snd kv)) dest
       else Js.set k (clone (snd kv)) dest.

(** Plain data: every object has each property name once and none that
    [Object.prototype] also has.  (Parsed JSON without such names is
    plain.) *)
Fixpoint distinct (ks : list string) : bool :=
  match ks with
  | [] => true
  | k :: ks' => negb (existsb (String.eqb k) ks') && distinct ks'
  end.

Fixpoint plain (v : value) : bool :=
  match v with
  | VArr l => forallb plain l
  | VObj s =>
      distinct (map fst s)
      && forallb (fun kv => negb (isPrototypeKey (fst kv)) && plain (snd kv)) s
  | _ => true
  end.

(** The package entry point on two object arguments. *)
Definition merge (target source : obj) : obj :=
  match deepmerge (VObj target) (VObj source) with
  | VObj o => o
  | _ => []
  end.

End Deepmerge.

(* ================================================================== *)
(** * Errors, results and the store *)
(* ================================================================== *)

(** The part of axios the dispatcher reads: a response, and the error a
    failed call rejects with ([response] is absent on network failures). *)
Module Axios.

Record Response : Type := {
  status : Z;
  statusText : string;
  data : value
}.

Record Error : Type := {
  message : string;
  response : option Response
}.

(** What [axios.request] settles to. *)
Inductive outcome : Type :=
| Resolved (r : Response)
| Rejected (e : Error).

End Axios.

(** What a method of the client can throw (reject with). *)
Inductive exn : Type :=
| ETradeError (message code raw : value)   (* [nErr], the normalized error *)
| TransportError (e : Axios.Error)         (* the axios error, as received *)
| TypeError (what : string)                (* property access on null/undefined, ... *)
| ThrottleError.                           (* refused by the throttle *)

Inductive result (A : Type) : Type :=
| Ok (a : A)
| Throw (e : exn).
Arguments Ok {A} a.
Arguments Throw {A} e.

(** Mutable objects live in a store; an address is an index into it.  The
    store keeps the request descriptors, the signer's working copies and the
    settings object.  [_id] is the client's call counter and [wire] the
    descriptors handed to [axios.request], oldest first. *)
Record state : Type := {
  heap : list obj;
  _id : Z;
  wire : list obj
}.

Module Import Store.

Definition M (A : Type) : Type := state -> result A * state.

(** The state with another store. *)
Definition withHeap (st : state) (h : list obj) : state :=
  {| heap := h; _id := _id st; wire := wire st |}.

Definition ret {A} (a : A) : M A := fun st => (Ok a, st).

Definition throw {A} (e : exn) : M A := fun st => (Throw e, st).

Definition bind {A B} (m : M A) (k : A -> M B) : M B :=
  fun st => match m st with
            | (Ok a, st') => k a st'
            | (Throw e, st') => (Throw e, st')
            end.

Definition lift {A} (r : result A) : M A := fun st => (r, st).

(** A new object. *)
Definition alloc (o : obj) : M nat :=
  fun st => (Ok (length (heap st)),
             {| heap := heap st ++ [o]; _id := _id st; wire := wire st |}).

(** The current contents of an object. *)
Definition read (l : nat) : M obj :=
  fun st => (Ok (default [] (heap st !! l)), st).

(** Replace the contents of an object. *)
Definition write (l : nat) (o : obj) : M unit :=
  fun st => (Ok tt, {| heap := <[l := o]> (heap st); _id := _id st; wire := wire st |}).

(** [o.k = v] and [delete o.k] on a stored object. *)
Definition setProp (l : nat) (k : string) (v : value) : M unit :=
  bind (read l) (fun o => write l (Js.set k v o)).

Definition deleteProp (l : nat) (k : string) : M unit :=
  bind (read l) (fun o => write l (Js.delete k o)).

Definition when (b : bool) (m : M unit) : M unit := if b then m else ret tt.

(** [++this._id]. *)
Definition nextId : M Z :=
  fun st => (Ok (_id st + 1)%Z,
             {| heap := heap st; _id := (_id st + 1)%Z; wire := wire st |}).

(** Hand a descriptor to the transport. *)
Definition send (o : obj) : M unit :=
  fun st => (Ok tt, {| heap := heap st; _id := _id st; wire := wire st ++ [o] |}).

(** [l.forEach(f)]. *)
Fixpoint forEach {A} (f : A -> M unit) (l : list A) : M unit :=
  match l with
  | [] => ret tt
  | x :: l' => bind (f x) (fun _ => forEach f l')
  end.

End Store.

Notation "x <- m ;; k" := (bind m (fun x => k))
  (at level 100, m at next level, right associativity).
Notation "m ;;; k" := (bind m (fun _ => k))
  (at level 100, right associativity).

(** [v.k] on an arbitrary value: a [TypeError] on [null] and [undefined],
    [undefined] on the other primitives. *)
Definition prop (v : value) (k : string) : result value :=
  match v with
  | VObj o => Ok (Js.get k o)
  | VUndefined | VNull => Throw (TypeError ("Cannot read properties of " ++ Js.toString v))
  | _ => Ok VUndefined
  end.

(** [v[0]]. *)
Definition first (v : value) : result value :=
  match v with
  | VArr l => Ok (hd VUndefined l)
  | VObj o => Ok (Js.get "0" o)
  | VStr (String c _) => Ok (VStr (String c ""))
  | VUndefined | VNull => Throw (TypeError ("Cannot read properties of " ++ Js.toString v))
  | _ => Ok VUndefined
  end.

Definition andThen {A B} (r : result A) (k : A -> result B) : result B :=
  match r with Ok a => k a | Throw e => Throw e end.

(* ================================================================== *)
(** * The platform *)
(* ================================================================== *)

(** What the client takes from its runtime and from the insides of its
    libraries: the version strings of the User-Agent header, the HMAC of
    [hash_function], the string functions of the [oauth-1.0a] signer and
    Node's [querystring.parse]. *)
Class Platform : Type := {
  VERSION : string;
  process_version : string;
  (** [crypto.createHmac('sha1', key).update(base_string).digest('base64')] *)
  hmacSha1Base64 : string -> string -> string;
  (** [OAuth.prototype.percentEncode] *)
  percentEncode : string -> string;
  (** [OAuth.prototype.getBaseString]: method, url, and the parameters that
      enter the signature *)
  getBaseString : value -> value -> obj -> string;
  (** [OAuth.prototype.deParamUrl]: the query parameters found in the url *)
  deParamUrl : value -> obj;
  (** [querystring.parse] *)
  parseQueryString : value -> obj
}.

(** Per-call inputs from the environment: the signer's nonce and timestamp,
    whether the throttle is at its limit when the call is submitted, and what
    the transport settles to. *)
Record Env : Type := {
  nonce : string;
  timestamp : Z;
  atLimit : bool;
  transport : Axios.outcome
}.

(* ================================================================== *)
(** * The [oauth-1.0a] signer *)
(* ================================================================== *)

Module OAuth.
Section Signer.
Context `{Platform}.

(** The [consumer] option of [new OAuth(...)]. *)
Record t : Type := {
  consumer_key : value;
  consumer_secret : value
}.

(** [mergeObject(obj1, obj2)]: copies every property of [obj2] into
    [obj1] (which it returns). *)
Definition mergeObject (obj1 obj2 : obj) : obj :=
  fold_left (fun o kv => Js.set (fst kv) (snd kv) o) obj2 obj1.

(** [getSigningKey(token_secret)]. *)
Definition getSigningKey (o : t) (token_secret : value) : string :=
  percentEncode (Js.toString (consumer_secret o)) ++ "&"
  ++ percentEncode (Js.toString (Js.or token_secret (VStr ""))).

(** The oauth parameters [authorize] starts from; [oauth_token] is added
    when the token has a key. *)
Definition oauthData (o : t) (token : option (value * value)) (env : Env) : obj :=
  let oauth_data :=
    [ ("oauth_consumer_key", consumer_key o);
      ("oauth_nonce", VStr (nonce env));
      ("oauth_signature_method", VStr "HMAC-SHA1");
      ("oauth_timestamp", VNum (timestamp env));
      ("oauth_version", VStr "1.0") ] in
  let token_key := match token with Some (k, _) => k | None => VUndefined end in
  if Js.is_undefined token_key then oauth_data
  else Js.set "oauth_token" token_key oauth_data.

(** [token.secret] of [token || {}]. *)
Definition tokenSecret (token : option (value * value)) : value :=
  match token with Some (_, s) => s | None => VUndefined end.

(** [getSignature]: the hash of the base string over the request's method
    and url and the given parameters, keyed with the signing key. *)
Definition getSignature (o : t) (method url : value) (token_secret : value)
    (parameters : obj) : string :=
  hmacSha1Base64 (getBaseString method url parameters)
                 (getSigningKey o token_secret).

(** [authorize(request, token)] on a stored request.  The signer fills in
    a missing [data], folds the url's query parameters into it, folds the
    result into the oauth parameters, signs, and returns the lot.  (The
    client only ever passes an object literal, or nothing, as [data].) *)
Definition authorize (o : t) (request : nat) (token : option (value * value))
    (env : Env) : M obj :=
  let oauth_data := oauthData o token env in
  r <- read request ;;
  when (negb (Js.truthy (Js.get "data" r))) (setProp request "data" (VObj [])) ;;;
  r <- read request ;;
  data <- match Js.get "data" r with
          | VObj d =>
              let d' := mergeObject d (deParamUrl (Js.get "url" r)) in
              setProp request "data" (VObj d') ;;; ret d'
          | _ => ret []
          end ;;
  let oauth_data := mergeObject oauth_data data in
  ret (Js.set "oauth_signature"
         (VStr (getSignature o (Js.get "method" r) (Js.get "url" r)
                  (tokenSecret token) oauth_data))
         oauth_data).

End Signer.
End OAuth.

(* ================================================================== *)
(** * The [ETrade] class *)
(* ================================================================== *)

(** The [token] argument of [signRequest]:
    [boolean | { key: string; secret: string; }], or left out. *)
Inductive tokenArg : Type :=
| TokenUndefined
| TokenBool (b : bool)
| TokenPair (key secret : value).

(** An instance: the address of its [settings] object, the limits its
    throttle was created with and its signer.  ([_id] is in the [state].) *)
Record ETrade : Type := {
  settings : nat;
  throttle : value * value * value;
  oauth : OAuth.t
}.

Section Client.
Context `{Platform}.

(** [ETrade.defaults]. *)
Definition defaults : obj :=
  [ ("mode", VStr "dev");
    ("key", VStr "");
    ("secret", VStr "");
    ("accessToken", VStr "");
    ("accessSecret", VStr "");
    ("urls", VObj [ ("oauth", VStr "https://api.etrade.com/oauth/");
                    ("prod", VStr "https://api.etrade.com/v1/");
                    ("dev", VStr "https://apisb.etrade.com/v1/") ]);
    ("connectionLimit", VNum 10);
    ("connectionLimitPeriod", VNum 1000);
    ("errorOnConnectionLimit", VBool false);
    ("proxy", VBool false) ].

(** [options || {}] for an optional object argument. *)
Definition orEmpty (options : option obj) : obj :=
  match options with Some o => o | None => [] end.

(** [new ETrade(options)]. *)
Definition constructor (options : option obj) : M ETrade :=
  this_settings <- alloc (Deepmerge.merge defaults (orEmpty options)) ;;
  s <- read this_settings ;;
  ret {| settings := this_settings;
         throttle := (Js.get "connectionLimit" s,
                      Js.get "connectionLimitPeriod" s,
                      Js.get "errorOnConnectionLimit" s);
         oauth := {| OAuth.consumer_key := Js.get "key" s;
                     OAuth.consumer_secret := Js.get "secret" s |} |}.

(** The User-Agent header value. *)
Definition userAgent : string :=
  "node-e-trade/v" ++ VERSION ++ " nodejs/" ++ process_version.

(** [getBasicRequest(requestOptions)]: a new descriptor. *)
Definition getBasicRequest (this : ETrade) (requestOptions : option obj) : M nat :=
  s <- read (settings this) ;;
  baseURL <- lift (if Js.is_string (Js.get "mode" s) "prod"
                   then prop (Js.get "urls" s) "prod"
                   else prop (Js.get "urls" s) "dev") ;;
  alloc (Deepmerge.merge
           [ ("method", VStr "GET");
             ("baseURL", baseURL);
             ("headers", VObj [("User-Agent", VStr userAgent)]);
             ("proxy", Js.get "proxy" s) ]
           (orEmpty requestOptions)).

(** [request.params[key] = v].  Assigning a property on a primitive is a
    [TypeError] in strict mode (no caller supplies [params], so it is an
    object whenever this runs). *)
Definition setParam (request : nat) (k : string) (v : value) : M unit :=
  r <- read request ;;
  match Js.get "params" r with
  | VObj ps => write request (Js.set "params" (VObj (Js.set k v ps)) r)
  | _ => throw (TypeError "Cannot create property on params")
  end.

(** [signRequest(request, token, omit)]. *)
Definition signRequest (this : ETrade) (request : nat) (token : tokenArg)
    (omit : bool) (env : Env) : M unit :=
  r <- read request ;;
  options <- alloc (Deepmerge.merge [] r) ;;
  o <- read options ;;
  setProp options "url"
    (VStr (Js.join "" [ Js.or (Js.get "baseURL" o) (VStr "");
                        Js.or (Js.get "url" o) (VStr "") ])) ;;;
  deleteProp options "baseURL" ;;;
  s <- read (settings this) ;;
  let token :=
    match token with
    | TokenUndefined | TokenBool true =>
        TokenPair (Js.get "accessToken" s) (Js.get "accessSecret" s)
    | _ => token
    end in
  when omit (deleteProp options "data") ;;;
  authorization <- OAuth.authorize (oauth this) options
                     (match token with
                      | TokenPair k sec => Some (k, sec)
                      | _ => None
                      end) env ;;
  r <- read request ;;
  when (negb (Js.truthy (Js.get "params" r))) (setProp request "params" (VObj [])) ;;;
  forEach (fun key => setParam request key (Js.get key authorization))
    (List.filter (fun key => negb omit || String.prefix "oauth" key)
            (Js.keys authorization)).

(** The error built in the [catch] of [request] when [err.response] is
    there. *)
Definition normalize (r : Axios.Response) : result exn :=
  let message := VStr (Axios.statusText r) in
  let code := VNum (Axios.status r) in
  andThen (prop (Axios.data r) "Error") (fun e =>
  if Js.truthy e then
    andThen (prop e "code") (fun c =>
    let code := if Js.truthy c then c else code in
    andThen (prop e "message") (fun m =>
    Ok (ETradeError m code (Axios.data r))))
  else Ok (ETradeError message code (Axios.data r))).

(** [request(options)]: through the throttle, then the transport.  The
    throttle is a library ([generic-throttle]); of it the model takes one
    decision per submission, from the environment: the unit is run (always
    so unless the throttle was created with [errorOnConnectionLimit] set), or
    the submission is rejected at the limit.  The closure body below is the
    client's own.  What the throttle does afterwards with its queue, and how
    it counts [connectionLimit] over [connectionLimitPeriod], is not
    modelled: the results about calls are about dispatched calls. *)
Definition request (this : ETrade) (options : nat) (env : Env) : M value :=
  if atLimit env && Js.truthy (snd (throttle this)) then throw ThrottleError
  else
    id <- nextId ;;
    o <- read options ;;
    send o ;;;
    match transport env with
    | Axios.Resolved r => ret (Axios.data r)
    | Axios.Rejected err =>
        match Axios.response err with
        | Some r =>
            match normalize r with
            | Ok nErr => throw nErr
            | Throw typeError => throw typeError
            end
        | None => throw (TransportError err)
        end
    end.

(** Destructuring with a default: [{ k = d }]. *)
Definition argOr (args : obj) (k : string) (d : value) : value :=
  if Js.is_undefined (Js.get k args) then d else Js.get k args.

(** [if(v){ data.k = v; }]. *)
Definition setIfTruthy (k : string) (v : value) (data : obj) : obj :=
  if Js.truthy v then Js.set k v data else data.

(** [if(v !== undefined){ data.k = v; }]. *)
Definition setIfDefined (k : string) (v : value) (data : obj) : obj :=
  if Js.is_undefined v then data else Js.set k v data.

(** [x?.k]. *)
Definition optProp (v : value) (k : string) : value :=
  match v with VObj o => Js.get k o | _ => VUndefined end.

(** ** OAuth related methods *)

Definition getAccessToken (this : ETrade) (options : obj) (env : Env) : M value :=
  requestOptions <- getBasicRequest this None ;;
  deleteProp requestOptions "baseURL" ;;;
  s <- read (settings this) ;;
  oauthURL <- lift (prop (Js.get "urls" s) "oauth") ;;
  setProp requestOptions "url" (VStr (Js.join "" [oauthURL; VStr "access_token"])) ;;;
  setProp requestOptions "data" (VObj [("oauth_verifier", Js.get "code" options)]) ;;;
  signRequest this requestOptions
    (TokenPair (Js.get "key" options) (Js.get "secret" options)) false env ;;;
  response <- request this requestOptions env ;;
  let results := parseQueryString response in
  ret (VObj [ ("oauth_token", VStr ("" ++ Js.toString (Js.get "oauth_token" results)));
              ("oauth_token_secret",
               VStr ("" ++ Js.toString (Js.get "oauth_token_secret" results))) ]).

Definition renewAccessToken (this : ETrade) (options : obj) (env : Env) : M value :=
  requestOptions <- getBasicRequest this None ;;
  deleteProp requestOptions "baseURL" ;;;
  s <- read (settings this) ;;
  oauthURL <- lift (prop (Js.get "urls" s) "oauth") ;;
  setProp requestOptions "url" (VStr (Js.join "" [oauthURL; VStr "renew_access_token"])) ;;;
  signRequest this requestOptions
    (TokenPair (Js.get "key" options) (Js.get "secret" options)) false env ;;;
  request this requestOptions env.

Definition requestToken (this : ETrade) (env : Env) : M value :=
  requestOptions <- getBasicRequest this None ;;
  deleteProp requestOptions "baseURL" ;;;
  s <- read (settings this) ;;
  oauthURL <- lift (prop (Js.get "urls" s) "oauth") ;;
  setProp requestOptions "url" (VStr (Js.join "" [oauthURL; VStr "request_token"])) ;;;
  setProp requestOptions "data" (VObj [("oauth_callback", VStr "oob")]) ;;;
  signRequest this requestOptions (TokenBool false) false env ;;;
  response <- request this requestOptions env ;;
  let results := parseQueryString response in
  s <- read (settings this) ;;
  ret (VObj [ ("oauth_token", VStr ("" ++ Js.toString (Js.get "oauth_token" results)));
              ("oauth_token_secret",
               VStr ("" ++ Js.toString (Js.get "oauth_token_secret" results)));
              ("oauth_callback_confirmed",
               VBool (Js.is_string (Js.get "oauth_callback_confirmed" results) "true"));
              ("url",
               VStr ("https://us.etrade.com/e/t/etws/authorize?key="
                     ++ Js.toString (Js.get "key" s) ++ "&token="
                     ++ Js.toString (Js.get "oauth_token" results))) ]).

Definition revokeAccessToken (this : ETrade) (options : obj) (env : Env) : M value :=
  requestOptions <- getBasicRequest this None ;;
  deleteProp requestOptions "baseURL" ;;;
  s <- read (settings this) ;;
  oauthURL <- lift (prop (Js.get "urls" s) "oauth") ;;
  setProp requestOptions "url" (VStr (Js.join "" [oauthURL; VStr "revoke_access_token"])) ;;;
  signRequest this requestOptions
    (TokenPair (Js.get "key" options) (Js.get "secret" options)) false env ;;;
  request this requestOptions env.

(** ** E-Trade API *)

Definition cancelOrder (this : ETrade) (args : obj) (env : Env) : M value :=
  requestOptions <- getBasicRequest this (Some
    [ ("method", VStr "PUT");
      ("url", VStr ("accounts/" ++ Js.toString (Js.get "accountIdKey" args)
                    ++ "/orders/cancel.json"));
      ("data", VObj [("CancelOrderRequest",
                      VObj [("orderId", Js.get "orderId" args)])]) ]) ;;
  signRequest this requestOptions TokenUndefined true env ;;;
  response <- request this requestOptions env ;;
  lift (prop response "CancelOrderResponse").

Definition changePreviewedOrder (this : ETrade) (args : obj) (env : Env) : M value :=
  requestOptions <- getBasicRequest this (Some
    [ ("method", VStr "PUT");
      ("url", VStr ("accounts/" ++ Js.toString (Js.get "accountIdKey" args)
                    ++ "/orders/" ++ Js.toString (Js.get "orderId" args)
                    ++ "/change/preview.json"));
      ("data", VObj [("PreviewOrderRequest",
                      VObj [ ("orderType", Js.get "orderType" args);
                             ("clientOrderId", Js.get "clientOrderId" args);
                             ("Order", Js.get "order" args) ])]) ]) ;;
  signRequest this requestOptions TokenUndefined true env ;;;
  response <- request this requestOptions env ;;
  lift (prop response "PreviewOrderResponse").

(** [typeof alertId === 'number' ? alertId : alertId.join(',')] and its
    twin in [getQuotes]. *)
Definition numberOrJoined (alertId : value) : result string :=
  match alertId with
  | VNum n => Ok (Js.string_of_Z n)
  | VArr l => Ok (Js.join "," l)
  | VUndefined | VNull =>
      Throw (TypeError ("Cannot read properties of " ++ Js.toString alertId))
  | _ => Throw (TypeError "alertId.join is not a function")
  end.

Definition stringOrJoined (symbols : value) : result string :=
  match symbols with
  | VStr s => Ok s
  | VArr l => Ok (Js.join "," l)
  | VUndefined | VNull =>
      Throw (TypeError ("Cannot read properties of " ++ Js.toString symbols))
  | _ => Throw (TypeError "symbols.join is not a function")
  end.

Definition deleteAlert (this : ETrade) (alertId : value) (env : Env) : M value :=
  ids <- lift (numberOrJoined alertId) ;;
  requestOptions <- getBasicRequest this (Some
    [ ("method", VStr "DELETE");
      ("url", VStr ("user/alerts/" ++ ids ++ ".json")) ]) ;;
  signRequest this requestOptions TokenUndefined false env ;;;
  response <- request this requestOptions env ;;
  lift (prop response "AlertsResponse").

Definition getAccountBalances (this : ETrade) (args : obj) (env : Env) : M value :=
  let data :=
    [ ("instType", argOr args "instType" (VStr "BROKERAGE"));
      ("realTimeNAV", argOr args "realTimeNAV" (VBool true)) ] in
  let data := setIfTruthy "accountType" (Js.get "accountType" args) data in
  requestOptions <- getBasicRequest this (Some
    [ ("url", VStr ("accounts/" ++ Js.toString (Js.get "accountIdKey" args)
                    ++ "/balance.json"));
      ("data", VObj data) ]) ;;
  signRequest this requestOptions TokenUndefined false env ;;;
  response <- request this requestOptions env ;;
  lift (prop response "BalanceResponse").

Definition getOptionChains (this : ETrade) (args : obj) (env : Env) : M value :=
  let data :=
    [ ("symbol", Js.get "symbol" args);
      ("includeWeekly", argOr args "includeWeekly" (VBool false));
      ("skipAdjusted", argOr args "skipAdjusted" (VBool true));
      ("optionCategory", argOr args "optionCategory" (VStr "STANDARD"));
      ("chainType", argOr args "chainType" (VStr "CALLPUT"));
      ("priceType", argOr args "priceType" (VStr "ATNM")) ] in
  let data := setIfTruthy "expiryYear" (Js.get "expiryYear" args) data in
  let data := setIfTruthy "expiryMonth" (Js.get "expiryMonth" args) data in
  let data := setIfTruthy "expiryDay" (Js.get "expiryDay" args) data in
  let data := setIfDefined "strikePriceNear" (Js.get "strikePriceNear" args) data in
  let data := setIfDefined "noOfStrikes" (Js.get "noOfStrikes" args) data in
  requestOptions <- getBasicRequest this (Some
    [ ("url", VStr "market/optionchains.json");
      ("data", VObj data) ]) ;;
  signRequest this requestOptions TokenUndefined false env ;;;
  response <- request this requestOptions env ;;
  lift (prop response "OptionChainResponse").

Definition getOptionExpireDates (this : ETrade) (args : obj) (env : Env) : M value :=
  let data := [ ("symbol", Js.get "symbol" args) ] in
  let data := setIfTruthy "expiryType" (Js.get "expiryType" args) data in
  requestOptions <- getBasicRequest this (Some
    [ ("url", VStr "market/optionexpiredate.json");
      ("data", VObj data) ]) ;;
  signRequest this requestOptions TokenUndefined false env ;;;
  response <- request this requestOptions env ;;
  lift (andThen (prop response "OptionExpireDateResponse") (fun r =>
        prop r "ExpirationDate")).

Definition getQuotes (this : ETrade) (args : obj) (env : Env) : M value :=
  let data :=
    [ ("requireEarningsDate", argOr args "requireEarningsDate" (VBool false));
      ("overrideSymbolCount", argOr args "overrideSymbolCount" (VBool false));
      ("skipMiniOptionsCheck", argOr args "skipMiniOptionsCheck" (VBool false)) ] in
  let data := setIfTruthy "detailFlag" (Js.get "detailFlag" args) data in
  symbols <- lift (stringOrJoined (Js.get "symbols" args)) ;;
  requestOptions <- getBasicRequest this (Some
    [ ("url", VStr ("market/quote/" ++ symbols ++ ".json"));
      ("data", VObj data) ]) ;;
  signRequest this requestOptions TokenUndefined false env ;;;
  response <- request this requestOptions env ;;
  lift (andThen (prop response "QuoteResponse") (fun r =>
        andThen (prop r "QuoteData") first)).

Definition listAccounts (this : ETrade) (env : Env) : M value :=
  requestOptions <- getBasicRequest this (Some
    [ ("url", VStr "accounts/list.json") ]) ;;
  signRequest this requestOptions TokenUndefined false env ;;;
  response <- request this requestOptions env ;;
  lift (andThen (prop response "AccountListResponse") (fun r =>
        andThen (prop r "Accounts") (fun a =>
        prop a "Account"))).

Definition listAlertDetails (this : ETrade) (args : obj) (env : Env) : M value :=
  requestOptions <- getBasicRequest this (Some
    [ ("url", VStr ("user/alerts/" ++ Js.toString (Js.get "alertId" args) ++ ".json"));
      ("data", VObj [("htmlTags", argOr args "htmlTags" (VBool false))]) ]) ;;
  signRequest this requestOptions TokenUndefined false env ;;;
  response <- request this requestOptions env ;;
  lift (prop response "AlertDetailsResponse").

Definition listAlerts (this : ETrade) (options : option obj) (env : Env) : M value :=
  let data :=
    match options with
    | Some o =>
        setIfTruthy "search" (Js.get "search" o)
          (setIfTruthy "direction" (Js.get "direction" o)
             (setIfTruthy "status" (Js.get "status" o)
                (setIfTruthy "category" (Js.get "category" o)
                   (setIfTruthy "count" (Js.get "count" o) []))))
    | None => []
    end in
  requestOptions <- getBasicRequest this (Some
    [ ("url", VStr "user/alerts.json");
      ("data", VObj data) ]) ;;
  signRequest this requestOptions TokenUndefined false env ;;;
  response <- request this requestOptions env ;;
  lift (prop response "AlertsResponse").

Definition listOrders (this : ETrade) (args : obj) (env : Env) : M value :=
  let data := setIfTruthy "marker" (Js.get "marker" args) [] in
  let data := setIfTruthy "count" (Js.get "count" args) data in
  let data := setIfTruthy "status" (Js.get "status" args) data in
  let data := setIfTruthy "fromDate" (Js.get "fromDate" args) data in
  let data := setIfTruthy "toDate" (Js.get "toDate" args) data in
  let data := setIfTruthy "symbol" (Js.get "symbol" args) data in
  let data := setIfTruthy "securityType" (Js.get "securityType" args) data in
  let data := setIfTruthy "transactionType" (Js.get "transactionType" args) data in
  let data := setIfTruthy "marketSession" (Js.get "marketSession" args) data in
  requestOptions <- getBasicRequest this (Some
    [ ("url", VStr ("accounts/" ++ Js.toString (Js.get "accountIdKey" args)
                    ++ "/orders.json"));
      ("data", VObj data) ]) ;;
  signRequest this requestOptions TokenUndefined false env ;;;
  response <- request this requestOptions env ;;
  lift (prop response "OrdersResponse").

Definition listOrderDetails (this : ETrade) (args : obj) (env : Env) : M value :=
  requestOptions <- getBasicRequest this (Some
    [ ("url", VStr ("accounts/" ++ Js.toString (Js.get "accountIdKey" args)
                    ++ "/orders/" ++ Js.toString (Js.get "orderId" args) ++ ".json")) ]) ;;
  signRequest this requestOptions TokenUndefined false env ;;;
  response <- request this requestOptions env ;;
  lift (andThen (prop response "OrdersResponse") (fun r =>
        andThen (prop r "Order") first)).

Definition listTransactionDetails (this : ETrade) (args : obj) (env : Env) : M value :=
  let data := setIfTruthy "storeId" (Js.get "storeId" args) [] in
  requestOptions <- getBasicRequest this (Some
    [ ("url", VStr ("accounts/" ++ Js.toString (Js.get "accountIdKey" args)
                    ++ "/transactions/" ++ Js.toString (Js.get "transactionId" args)
                    ++ ".json"));
      ("data", VObj data) ]) ;;
  signRequest this requestOptions TokenUndefined false env ;;;
  response <- request this requestOptions env ;;
  lift (prop response "TransactionDetailsResponse").

Definition listTransactions (this : ETrade) (args : obj) (env : Env) : M value :=
  let data := setIfTruthy "startDate" (Js.get "startDate" args) [] in
  let data := setIfTruthy "endDate" (Js.get "endDate" args) data in
  let data := setIfTruthy "sortOrder" (Js.get "sortOrder" args) data in
  let data := setIfTruthy "marker" (Js.get "marker" args) data in
  let data := setIfTruthy "count" (Js.get "count" args) data in
  requestOptions <- getBasicRequest this (Some
    [ ("url", VStr ("accounts/" ++ Js.toString (Js.get "accountIdKey" args)
                    ++ "/transactions.json"));
      ("data", VObj data) ]) ;;
  signRequest this requestOptions TokenUndefined false env ;;;
  response <- request this requestOptions env ;;
  lift (prop response "TransactionListResponse").

Definition lookupProduct (this : ETrade) (search : value) (env : Env) : M value :=
  requestOptions <- getBasicRequest this (Some
    [ ("url", VStr ("market/lookup/" ++ Js.toString search ++ ".json")) ]) ;;
  signRequest this requestOptions TokenUndefined false env ;;;
  response <- request this requestOptions env ;;
  lift (andThen (prop response "LookupResponse") (fun r => prop r "Data")).

Definition placeChangedOrder (this : ETrade) (args : obj) (env : Env) : M value :=
  requestOptions <- getBasicRequest this (Some
    [ ("method", VStr "PUT");
      ("url", VStr ("accounts/" ++ Js.toString (Js.get "accountIdKey" args)
                    ++ "/orders/" ++ Js.toString (Js.get "orderId" args)
                    ++ "/change/place.json"));
      ("data", VObj [("PlaceOrderRequest",
                      VObj [ ("orderType", Js.get "orderType" args);
                             ("clientOrderId", Js.get "clientOrderId" args);
                             ("Order", Js.get "order" args);
                             ("PreviewIds", Js.get "previewIds" args) ])]) ]) ;;
  signRequest this requestOptions TokenUndefined true env ;;;
  response <- request this requestOptions env ;;
  lift (prop response "PlaceOrderResponse").

Definition placeOrder (this : ETrade) (args : obj) (env : Env) : M value :=
  requestOptions <- getBasicRequest this (Some
    [ ("method", VStr "POST");
      ("url", VStr ("accounts/" ++ Js.toString (Js.get "accountIdKey" args)
                    ++ "/orders/place.json"));
      ("data", VObj [("PlaceOrderRequest",
                      VObj [ ("orderType", Js.get "orderType" args);
                             ("clientOrderId", Js.get "clientOrderId" args);
                             ("Order", Js.get "order" args);
                             ("PreviewIds", Js.get "previewIds" args) ])]) ]) ;;
  signRequest this requestOptions TokenUndefined true env ;;;
  response <- request this requestOptions env ;;
  lift (prop response "PlaceOrderResponse").

Definition previewOrder (this : ETrade) (args : obj) (env : Env) : M value :=
  requestOptions <- getBasicRequest this (Some
    [ ("method", VStr "POST");
      ("url", VStr ("accounts/" ++ Js.toString (Js.get "accountIdKey" args)
                    ++ "/orders/preview.json"));
      ("data", VObj [("PreviewOrderRequest",
                      VObj [ ("orderType", Js.get "orderType" args);
                             ("clientOrderId", Js.get "clientOrderId" args);
                             ("Order", Js.get "order" args) ])]) ]) ;;
  signRequest this requestOptions TokenUndefined true env ;;;
  response <- request this requestOptions env ;;
  lift (prop response "PreviewOrderResponse").

Definition viewLotsDetails (this : ETrade) (args : obj) (env : Env) : M value :=
  requestOptions <- getBasicRequest this (Some
    [ ("url", VStr ("accounts/" ++ Js.toString (Js.get "accountIdKey" args)
                    ++ "/portfolio/" ++ Js.toString (Js.get "positionId" args)
                    ++ ".json")) ]) ;;
  signRequest this requestOptions TokenUndefined false env ;;;
  response <- request this requestOptions env ;;
  lift (prop response "PositionLotsResponse").

Definition viewPortfolio (this : ETrade) (args : obj) (env : Env) : M value :=
  let data :=
    [ ("sortOrder", argOr args "sortOrder" (VStr "DESC"));
      ("marketSession", argOr args "marketSession" (VStr "REGULAR"));
      ("totalsRequired", argOr args "totalsRequired" (VBool false));
      ("lotsRequired", argOr args "lotsRequired" (VBool false));
      ("view", argOr args "view" (VStr "QUICK")) ] in
  let data := setIfTruthy "count" (Js.get "count" args) data in
  let data := setIfTruthy "sortBy" (Js.get "sortBy" args) data in
  requestOptions <- getBasicRequest this (Some
    [ ("url", VStr ("accounts/" ++ Js.toString (Js.get "accountIdKey" args)
                    ++ "/portfolio.json"));
      ("data", VObj data) ]) ;;
  signRequest this requestOptions TokenUndefined false env ;;;
  response <- request this requestOptions env ;;
  ret (Js.or (optProp (optProp response "PortfolioResponse") "AccountPortfolio")
             (VObj [])).

(** ** The API methods as one entry point *)

Inductive apiCall : Type :=
| CancelOrder (args : obj)
| ChangePreviewedOrder (args : obj)
| DeleteAlert (alertId : value)
| GetAccountBalances (args : obj)
| GetOptionChains (args : obj)
| GetOptionExpireDates (args : obj)
| GetQuotes (args : obj)
| ListAccounts
| ListAlertDetails (args : obj)
| ListAlerts (options : option obj)
| ListOrders (args : obj)
| ListOrderDetails (args : obj)
| ListTransactionDetails (args : obj)
| ListTransactions (args : obj)
| LookupProduct (search : value)
| PlaceChangedOrder (args : obj)
| PlaceOrder (args : obj)
| PreviewOrder (args : obj)
| ViewLotsDetails (args : obj)
| ViewPortfolio (args : obj).

Definition invoke (this : ETrade) (c : apiCall) (env : Env) : M value :=
  match c with
  | CancelOrder args => cancelOrder this args env
  | ChangePreviewedOrder args => changePreviewedOrder this args env
  | DeleteAlert alertId => deleteAlert this alertId env
  | GetAccountBalances args => getAccountBalances this args env
  | GetOptionChains args => getOptionChains this args env
  | GetOptionExpireDates args => getOptionExpireDates this args env
  | GetQuotes args => getQuotes this args env
  | ListAccounts => listAccounts this env
  | ListAlertDetails args => listAlertDetails this args env
  | ListAlerts options => listAlerts this options env
  | ListOrders args => listOrders this args env
  | ListOrderDetails args => listOrderDetails this args env
  | ListTransactionDetails args => listTransactionDetails this args env
  | ListTransactions args => listTransactions this args env
  | LookupProduct search => lookupProduct this search env
  | PlaceChangedOrder args => placeChangedOrder this args env
  | PlaceOrder args => placeOrder this args env
  | PreviewOrder args => previewOrder this args env
  | ViewLotsDetails args => viewLotsDetails this args env
  | ViewPortfolio args => viewPortfolio this args env
  end.

(** The write endpoints: the five methods that sign with [omit]. *)
Definition isWrite (c : apiCall) : bool :=
  match c with
  | CancelOrder _ | ChangePreviewedOrder _ | PlaceChangedOrder _
  | PlaceOrder _ | PreviewOrder _ => true
  | _ => false
  end.

End Client.

(* ================================================================== *)
(** * Closed forms *)
(* ================================================================== *)

(** What the stateful methods compute, as functions of the objects they
    read.  The run lemmas further down tie each of them to the method. *)
Section ClosedForms.
Context `{Platform}.

(** [request] after [authorize(request, token)]: [data] filled in. *)
Definition authorizeLeaves (r : obj) : obj :=
  let r1 := if Js.truthy (Js.get "data" r) then r else Js.set "data" (VObj []) r in
  match Js.get "data" r1 with
  | VObj d => Js.set "data" (VObj (OAuth.mergeObject d (deParamUrl (Js.get "url" r1)))) r1
  | _ => r1
  end.

(** The parameters [authorize] signs besides the oauth ones. *)
Definition authorizeData (r : obj) : obj :=
  let r1 := if Js.truthy (Js.get "data" r) then r else Js.set "data" (VObj []) r in
  match Js.get "data" r1 with
  | VObj d => OAuth.mergeObject d (deParamUrl (Js.get "url" r1))
  | _ => []
  end.

(** What [authorize(request, token)] returns. *)
Definition authorizeResult (o : OAuth.t) (r : obj) (token : option (value * value))
    (env : Env) : obj :=
  let oauth_data := OAuth.mergeObject (OAuth.oauthData o token env) (authorizeData r) in
  Js.set "oauth_signature"
    (VStr (OAuth.getSignature o (Js.get "method" r) (Js.get "url" r)
             (OAuth.tokenSecret token) oauth_data))
    oauth_data.

(** The working copy [signRequest] hands to the signer. *)
Definition signerCopy (r : obj) (omit : bool) : obj :=
  let o := Deepmerge.merge [] r in
  let o := Js.set "url"
             (VStr (Js.join "" [ Js.or (Js.get "baseURL" o) (VStr "");
                                 Js.or (Js.get "url" o) (VStr "") ])) o in
  let o := Js.delete "baseURL" o in
  if omit then Js.delete "data" o else o.

(** The token [signRequest] signs with. *)
Definition resolveToken (s : obj) (token : tokenArg) : option (value * value) :=
  match token with
  | TokenUndefined | TokenBool true =>
      Some (Js.get "accessToken" s, Js.get "accessSecret" s)
  | TokenBool false => None
  | TokenPair k sec => Some (k, sec)
  end.

(** The [forEach] of [signRequest]: the assignments into [params], up to
    the first one that throws. *)
Fixpoint assignParams (authorization : obj) (ks : list string) (r : obj)
    : result unit * obj :=
  match ks with
  | [] => (Ok tt, r)
  | k :: ks' =>
      match Js.get "params" r with
      | VObj ps =>
          assignParams authorization ks'
            (Js.set "params" (VObj (Js.set k (Js.get k authorization) ps)) r)
      | _ => (Throw (TypeError "Cannot create property on params"), r)
      end
  end.

(** The keys [signRequest] copies into [params]. *)
Definition signedKeys (authorization : obj) (omit : bool) : list string :=
  List.filter (fun key => negb omit || String.prefix "oauth" key)
    (Js.keys authorization).

(** [request] after [signRequest(request, token, omit)], and whether the
    call returned. *)
Definition signRequestLeaves (this : ETrade) (s r : obj) (token : tokenArg)
    (omit : bool) (env : Env) : result unit * obj :=
  let authorization :=
    authorizeResult (oauth this) (signerCopy r omit) (resolveToken s token) env in
  let r1 := if Js.truthy (Js.get "params" r) then r else Js.set "params" (VObj []) r in
  assignParams authorization (signedKeys authorization omit) r1.

(** The descriptor [getBasicRequest(requestOptions)] builds. *)
Definition basicRequest (s : obj) (baseURL : value) (requestOptions : option obj) : obj :=
  Deepmerge.merge
    [ ("method", VStr "GET");
      ("baseURL", baseURL);
      ("headers", VObj [("User-Agent", VStr userAgent)]);
      ("proxy", Js.get "proxy" s) ]
    (orEmpty requestOptions).

(** The oauth parameters every authorization carries. *)
Definition oauthKeys : list string :=
  [ "oauth_consumer_key"; "oauth_nonce"; "oauth_signature_method";
    "oauth_timestamp"; "oauth_version"; "oauth_signature" ].

(** The parameters after copying the keys [ks] of [authorization]. *)
Definition copied (authorization : obj) (ks : list string) (ps : obj) : obj :=
  fold_left (fun ps k => Js.set k (Js.get k authorization) ps) ks ps.

(** [r] signed, for a descriptor [r] without [params]. *)
Definition signed (this : ETrade) (s r : obj) (token : tokenArg) (omit : bool)
    (env : Env) : obj :=
  let authorization :=
    authorizeResult (oauth this) (signerCopy r omit) (resolveToken s token) env in
  Js.set "params" (VObj (copied authorization (signedKeys authorization omit) [])) r.

(** The base url [getBasicRequest] selects. *)
Definition selectedURL (s : obj) : result value :=
  if Js.is_string (Js.get "mode" s) "prod"
  then prop (Js.get "urls" s) "prod"
  else prop (Js.get "urls" s) "dev".

(** What the throttle and the transport make of a call. *)
Definition admitted (this : ETrade) (env : Env) : bool :=
  negb (atLimit env && Js.truthy (snd (throttle this))).

Definition settle (env : Env) : result value :=
  match transport env with
  | Axios.Resolved r => Ok (Axios.data r)
  | Axios.Rejected err =>
      match Axios.response err with
      | Some r =>
          match normalize r with
          | Ok nErr => Throw nErr
          | Throw typeError => Throw typeError
          end
      | None => Throw (TransportError err)
      end
  end.

(** The descriptor an OAuth method prepares before signing. *)
Definition oauthDescriptor (s : obj) (b oauthURL : value) (name : string)
    (data : option value) : obj :=
  let r := Js.set "url" (VStr (Js.join "" [oauthURL; VStr name]))
             (Js.delete "baseURL" (basicRequest s b None)) in
  match data with Some d => Js.set "data" d r | None => r end.

(** What an OAuth method does to a state whose settings object is [s] and
    has the url table [u]; [k] is what the method makes of the response. *)
Definition oauthInvoked (this : ETrade) (s u : obj) (name : string)
    (data : option value) (token : tokenArg) (env : Env)
    (k : value -> result value) (st : state) : result value * state :=
  let b := if Js.is_string (Js.get "mode" s) "prod" then Js.get "prod" u
           else Js.get "dev" u in
  let r := oauthDescriptor s b (Js.get "oauth" u) name data in
  let sent := signed this s r token false env in
  let h' := (heap st ++ [sent; authorizeLeaves (signerCopy r false)])%list in
  if admitted this env then
    (andThen (settle env) k,
     {| heap := h'; _id := (_id st + 1)%Z; wire := (wire st ++ [sent])%list |})
  else (Throw ThrottleError, withHeap st h').

(** What [requestToken] makes of the response body. *)
Definition requestTokenResult (s : obj) (response : value) : value :=
  let results := parseQueryString response in
  VObj [ ("oauth_token", VStr (Js.toString (Js.get "oauth_token" results)));
         ("oauth_token_secret",
          VStr (Js.toString (Js.get "oauth_token_secret" results)));
         ("oauth_callback_confirmed",
          VBool (Js.is_string (Js.get "oauth_callback_confirmed" results) "true"));
         ("url",
          VStr ("https://us.etrade.com/e/t/etws/authorize?key="
                ++ Js.toString (Js.get "key" s) ++ "&token="
                ++ Js.toString (Js.get "oauth_token" results))) ].

(** What [getAccessToken] makes of the response body. *)
Definition accessTokenResult (response : value) : value :=
  let results := parseQueryString response in
  VObj [ ("oauth_token", VStr (Js.toString (Js.get "oauth_token" results)));
         ("oauth_token_secret",
          VStr (Js.toString (Js.get "oauth_token_secret" results))) ].

(** The literal each API method passes to [getBasicRequest] (the two
    methods that join their argument can throw first). *)
Definition requestLiteral (c : apiCall) : result obj :=
  let account args := "accounts/" ++ Js.toString (Js.get "accountIdKey" args) in
  match c with
  | CancelOrder args =>
      Ok [ ("method", VStr "PUT");
           ("url", VStr (account args ++ "/orders/cancel.json"));
           ("data", VObj [("CancelOrderRequest",
                           VObj [("orderId", Js.get "orderId" args)])]) ]
  | ChangePreviewedOrder args =>
      Ok [ ("method", VStr "PUT");
           ("url", VStr (account args ++ "/orders/"
                         ++ Js.toString (Js.get "orderId" args)
                         ++ "/change/preview.json"));
           ("data", VObj [("PreviewOrderRequest",
                           VObj [ ("orderType", Js.get "orderType" args);
                                  ("clientOrderId", Js.get "clientOrderId" args);
                                  ("Order", Js.get "order" args) ])]) ]
  | DeleteAlert alertId =>
      andThen (numberOrJoined alertId) (fun ids =>
      Ok [ ("method", VStr "DELETE");
           ("url", VStr ("user/alerts/" ++ ids ++ ".json")) ])
  | GetAccountBalances args =>
      Ok [ ("url", VStr (account args ++ "/balance.json"));
           ("data", VObj
              (setIfTruthy "accountType" (Js.get "accountType" args)
                 [ ("instType", argOr args "instType" (VStr "BROKERAGE"));
                   ("realTimeNAV", argOr args "realTimeNAV" (VBool true)) ])) ]
  | GetOptionChains args =>
      Ok [ ("url", VStr "market/optionchains.json");
           ("data", VObj
              (setIfDefined "noOfStrikes" (Js.get "noOfStrikes" args)
              (setIfDefined "strikePriceNear" (Js.get "strikePriceNear" args)
              (setIfTruthy "expiryDay" (Js.get "expiryDay" args)
              (setIfTruthy "expiryMonth" (Js.get "expiryMonth" args)
              (setIfTruthy "expiryYear" (Js.get "expiryYear" args)
                 [ ("symbol", Js.get "symbol" args);
                   ("includeWeekly", argOr args "includeWeekly" (VBool false));
                   ("skipAdjusted", argOr args "skipAdjusted" (VBool true));
                   ("optionCategory", argOr args "optionCategory" (VStr "STANDARD"));
                   ("chainType", argOr args "chainType" (VStr "CALLPUT"));
                   ("priceType", argOr args "priceType" (VStr "ATNM")) ])))))) ]
  | GetOptionExpireDates args =>
      Ok [ ("url", VStr "market/optionexpiredate.json");
           ("data", VObj
              (setIfTruthy "expiryType" (Js.get "expiryType" args)
                 [ ("symbol", Js.get "symbol" args) ])) ]
  | GetQuotes args =>
      andThen (stringOrJoined (Js.get "symbols" args)) (fun symbols =>
      Ok [ ("url", VStr ("market/quote/" ++ symbols ++ ".json"));
           ("data", VObj
              (setIfTruthy "detailFlag" (Js.get "detailFlag" args)
                 [ ("requireEarningsDate",
                    argOr args "requireEarningsDate" (VBool false));
                   ("overrideSymbolCount",
                    argOr args "overrideSymbolCount" (VBool false));
                   ("skipMiniOptionsCheck",
                    argOr args "skipMiniOptionsCheck" (VBool false)) ])) ])
  | ListAccounts =>
      Ok [ ("url", VStr "accounts/list.json") ]
  | ListAlertDetails args =>
      Ok [ ("url", VStr ("user/alerts/" ++ Js.toString (Js.get "alertId" args)
                         ++ ".json"));
           ("data", VObj [("htmlTags", argOr args "htmlTags" (VBool false))]) ]
  | ListAlerts options =>
      Ok [ ("url", VStr "user/alerts.json");
           ("data", VObj
              match options with
              | Some o =>
                  setIfTruthy "search" (Js.get "search" o)
                    (setIfTruthy "direction" (Js.get "direction" o)
                       (setIfTruthy "status" (Js.get "status" o)
                          (setIfTruthy "category" (Js.get "category" o)
                             (setIfTruthy "count" (Js.get "count" o) []))))
              | None => []
              end) ]
  | ListOrders args =>
      Ok [ ("url", VStr (account args ++ "/orders.json"));
           ("data", VObj
              (setIfTruthy "marketSession" (Js.get "marketSession" args)
              (setIfTruthy "transactionType" (Js.get "transactionType" args)
              (setIfTruthy "securityType" (Js.get "securityType" args)
              (setIfTruthy "symbol" (Js.get "symbol" args)
              (setIfTruthy "toDate" (Js.get "toDate" args)
              (setIfTruthy "fromDate" (Js.get "fromDate" args)
              (setIfTruthy "status" (Js.get "status" args)
              (setIfTruthy "count" (Js.get "count" args)
              (setIfTruthy "marker" (Js.get "marker" args) [])))))))))) ]
  | ListOrderDetails args =>
      Ok [ ("url", VStr (account args ++ "/orders/"
                         ++ Js.toString (Js.get "orderId" args) ++ ".json")) ]
  | ListTransactionDetails args =>
      Ok [ ("url", VStr (account args ++ "/transactions/"
                         ++ Js.toString (Js.get "transactionId" args) ++ ".json"));
           ("data", VObj (setIfTruthy "storeId" (Js.get "storeId" args) [])) ]
  | ListTransactions args =>
      Ok [ ("url", VStr (account args ++ "/transactions.json"));
           ("data", VObj
              (setIfTruthy "count" (Js.get "count" args)
              (setIfTruthy "marker" (Js.get "marker" args)
              (setIfTruthy "sortOrder" (Js.get "sortOrder" args)
              (setIfTruthy "endDate" (Js.get "endDate" args)
              (setIfTruthy "startDate" (Js.get "startDate" args) [])))))) ]
  | LookupProduct search =>
      Ok [ ("url", VStr ("market/lookup/" ++ Js.toString search ++ ".json")) ]
  | PlaceChangedOrder args =>
      Ok [ ("method", VStr "PUT");
           ("url", VStr (account args ++ "/orders/"
                         ++ Js.toString (Js.get "orderId" args)
                         ++ "/change/place.json"));
           ("data", VObj [("PlaceOrderRequest",
                           VObj [ ("orderType", Js.get "orderType" args);
                                  ("clientOrderId", Js.get "clientOrderId" args);
                                  ("Order", Js.get "order" args);
                                  ("PreviewIds", Js.get "previewIds" args) ])]) ]
  | PlaceOrder args =>
      Ok [ ("method", VStr "POST");
           ("url", VStr (account args ++ "/orders/place.json"));
           ("data", VObj [("PlaceOrderRequest",
                           VObj [ ("orderType", Js.get "orderType" args);
                                  ("clientOrderId", Js.get "clientOrderId" args);
                                  ("Order", Js.get "order" args);
                                  ("PreviewIds", Js.get "previewIds" args) ])]) ]
  | PreviewOrder args =>
      Ok [ ("method", VStr "POST");
           ("url", VStr (account args ++ "/orders/preview.json"));
           ("data", VObj [("PreviewOrderRequest",
                           VObj [ ("orderType", Js.get "orderType" args);
                                  ("clientOrderId", Js.get "clientOrderId" args);
                                  ("Order", Js.get "order" args) ])]) ]
  | ViewLotsDetails args =>
      Ok [ ("url", VStr (account args ++ "/portfolio/"
                         ++ Js.toString (Js.get "positionId" args) ++ ".json")) ]
  | ViewPortfolio args =>
      Ok [ ("url", VStr (account args ++ "/portfolio.json"));
           ("data", VObj
              (setIfTruthy "sortBy" (Js.get "sortBy" args)
              (setIfTruthy "count" (Js.get "count" args)
                 [ ("sortOrder", argOr args "sortOrder" (VStr "DESC"));
                   ("marketSession", argOr args "marketSession" (VStr "REGULAR"));
                   ("totalsRequired", argOr args "totalsRequired" (VBool false));
                   ("lotsRequired", argOr args "lotsRequired" (VBool false));
                   ("view", argOr args "view" (VStr "QUICK")) ]))) ]
  end.

(** What each API method returns from the response body. *)
Definition unwrap (c : apiCall) (response : value) : result value :=
  match c with
  | CancelOrder _ => prop response "CancelOrderResponse"
  | ChangePreviewedOrder _ => prop response "PreviewOrderResponse"
  | DeleteAlert _ => prop response "AlertsResponse"
  | GetAccountBalances _ => prop response "BalanceResponse"
  | GetOptionChains _ => prop response "OptionChainResponse"
  | GetOptionExpireDates _ =>
      andThen (prop response "OptionExpireDateResponse") (fun r =>
      prop r "ExpirationDate")
  | GetQuotes _ =>
      andThen (prop response "QuoteResponse") (fun r =>
      andThen (prop r "QuoteData") first)
  | ListAccounts =>
      andThen (prop response "AccountListResponse") (fun r =>
      andThen (prop r "Accounts") (fun a => prop a "Account"))
  | ListAlertDetails _ => prop response "AlertDetailsResponse"
  | ListAlerts _ => prop response "AlertsResponse"
  | ListOrders _ => prop response "OrdersResponse"
  | ListOrderDetails _ =>
      andThen (prop response "OrdersResponse") (fun r =>
      andThen (prop r "Order") first)
  | ListTransactionDetails _ => prop response "TransactionDetailsResponse"
  | ListTransactions _ => prop response "TransactionListResponse"
  | LookupProduct _ =>
      andThen (prop response "LookupResponse") (fun r => prop r "Data")
  | PlaceChangedOrder _ => prop response "PlaceOrderResponse"
  | PlaceOrder _ => prop response "PlaceOrderResponse"
  | PreviewOrder _ => prop response "PreviewOrderResponse"
  | ViewLotsDetails _ => prop response "PositionLotsResponse"
  | ViewPortfolio _ =>
      Ok (Js.or (optProp (optProp response "PortfolioResponse") "AccountPortfolio")
                (VObj []))
  end.

(** What [invoke this c env] does to a state whose settings object is [s]:
    its result and the state it leaves. *)
Definition invoked (this : ETrade) (s : obj) (c : apiCall) (env : Env) (st : state)
    : result value * state :=
  match requestLiteral c with
  | Throw e => (Throw e, st)
  | Ok lit =>
      match selectedURL s with
      | Throw e => (Throw e, st)
      | Ok b =>
          let r := basicRequest s b (Some lit) in
          let sent := signed this s r TokenUndefined (isWrite c) env in
          let h' := (heap st ++ [sent; authorizeLeaves (signerCopy r (isWrite c))])%list in
          if admitted this env then
            (andThen (settle env) (unwrap c),
             {| heap := h'; _id := (_id st + 1)%Z; wire := (wire st ++ [sent])%list |})
          else (Throw ThrottleError, withHeap st h')
      end
  end.

End ClosedForms.

(* ================================================================== *)
(** * A platform to run the client on *)
(* ================================================================== *)

(** Stand-ins for the platform, used to run the client on concrete inputs:
    no percent-encoding, urls without a query, a base string that lists the
    method, the url and the parameters, a tagged concatenation in place of
    the HMAC, and a query-string parser that splits on [&] and [=]. *)
Module Sample.

Definition baseString (method url : value) (parameters : obj) : string :=
  Js.toString method ++ "&" ++ Js.toString url ++ "&"
  ++ String.concat "&"
       (map (fun kv => fst kv ++ "=" ++ Js.toString (snd kv)) parameters).

Definition hmac (base_string key : string) : string :=
  "HMAC[" ++ key ++ "](" ++ base_string ++ ")".

(** [s.split(c)]. *)
Fixpoint split (c : ascii) (s : string) : list string :=
  match s with
  | EmptyString => [""]
  | String a s' =>
      if Ascii.eqb a c then "" :: split c s'
      else match split c s' with
           | [] => [String a ""]
           | x :: xs => String a x :: xs
           end
  end.

(** The text before and after the first [c]. *)
Fixpoint cut (c : ascii) (s : string) : string * string :=
  match s with
  | EmptyString => ("", "")
  | String a s' =>
      if Ascii.eqb a c then ("", s')
      else let (k, v) := cut c s' in (String a k, v)
  end.

Definition addPair (o : obj) (segment : string) : obj :=
  if String.eqb segment "" then o
  else
    let (k, v) := cut "=" segment in
    match Js.lookup k o with
    | None => Js.set k (VStr v) o
    | Some (VArr l) => Js.set k (VArr (l ++ [VStr v])) o
    | Some x => Js.set k (VArr [x; VStr v]) o
    end.

Definition parse (v : value) : obj :=
  match v with
  | VStr s => fold_left addPair (split "&" s) []
  | _ => []
  end.

#[global] Instance platform : Platform := {|
  VERSION := "2.0.0";
  process_version := "v18.0.0";
  hmacSha1Base64 := hmac;
  percentEncode := fun s => s;
  getBaseString := baseString;
  deParamUrl := fun _ => [];
  parseQueryString := parse
|}.

(** The store before any client exists. *)
Definition boot : state := {| heap := []; _id := 0; wire := [] |}.

Definition respond (status : Z) (statusText : string) (body : value) : Axios.Response :=
  {| Axios.status := status; Axios.statusText := statusText; Axios.data := body |}.

(** An environment in which the call is admitted and the transport settles
    to [outcome]. *)
Definition env (outcome : Axios.outcome) : Env :=
  {| nonce := "kllo9940pd9333jh"; timestamp := 1191242096; atLimit := false;
     transport := outcome |}.

(** [new ETrade({ mode: 'dev', key: 'ck', secret: 'cs' })] on the empty
    store. *)
Definition options : obj :=
  [("mode", VStr "dev"); ("key", VStr "ck"); ("secret", VStr "cs")].

Definition this : ETrade :=
  {| settings := 0;
     throttle := (VNum 10, VNum 1000, VBool false);
     oauth := {| OAuth.consumer_key := VStr "ck"; OAuth.consumer_secret := VStr "cs" |} |}.

Definition store : state :=
  {| heap := [Deepmerge.merge defaults options]; _id := 0; wire := [] |}.

End Sample.

(* ================================================================== *)
(** * Properties of the object operations *)
(* ================================================================== *)

Section JsFacts.

Lemma lookup_set_eq k v o : Js.lookup k (Js.set k v o) = Some v.
Proof.
  induction o as [|[k' v'] o IH]; simpl.
  - now rewrite String.eqb_refl.
  - destruct (String.eqb k k') eqn:E; simpl; rewrite E; auto.
Qed.

Lemma lookup_set_ne k k' v o : k <> k' -> Js.lookup k' (Js.set k v o) = Js.lookup k' o.
Proof.
  intros Hne. induction o as [|[k0 v0] o IH]; simpl.
  - destruct (String.eqb k' k) eqn:E; auto.
    apply String.eqb_eq in E. congruence.
  - destruct (String.eqb k k0) eqn:E; simpl.
    + apply String.eqb_eq in E. subst k0.
      destruct (String.eqb k' k) eqn:E'; auto.
      apply String.eqb_eq in E'. congruence.
    + destruct (String.eqb k' k0); auto.
Qed.

Lemma get_set_eq k v o : Js.get k (Js.set k v o) = v.
Proof. unfold Js.get. now rewrite lookup_set_eq. Qed.

Lemma get_set_ne k k' v o : k <> k' -> Js.get k' (Js.set k v o) = Js.get k' o.
Proof. intros. unfold Js.get. now rewrite lookup_set_ne. Qed.

Lemma lookup_deleted k o : Js.lookup k (Js.delete k o) = None.
Proof.
  induction o as [|[k' v'] o IH]; simpl; auto.
  destruct (String.eqb k k') eqn:E; simpl; auto. now rewrite E.
Qed.

Lemma lookup_delete_other k k' o : k <> k' -> Js.lookup k' (Js.delete k o) = Js.lookup k' o.
Proof.
  intros Hne. induction o as [|[k0 v0] o IH]; simpl; auto.
  destruct (String.eqb k k0) eqn:E; simpl.
  - apply String.eqb_eq in E. subst k0.
    destruct (String.eqb k' k) eqn:E'; auto.
    apply String.eqb_eq in E'. congruence.
  - destruct (String.eqb k' k0); auto.
Qed.

Lemma get_delete_eq k o : Js.get k (Js.delete k o) = VUndefined.
Proof. unfold Js.get. now rewrite lookup_deleted. Qed.

Lemma get_delete_ne k k' o : k <> k' -> Js.get k' (Js.delete k o) = Js.get k' o.
Proof. intros. unfold Js.get. now rewrite lookup_delete_other. Qed.

(** Assigning one property keeps the other properties, in place. *)
Lemma delete_set_same k v o : Js.delete k (Js.set k v o) = Js.delete k o.
Proof.
  induction o as [|[k' v'] o IH]; simpl.
  - now rewrite String.eqb_refl.
  - destruct (String.eqb k k') eqn:E; simpl; rewrite E; auto. now rewrite IH.
Qed.

Lemma keys_set k v o :
  forall x, In x (Js.keys (Js.set k v o)) -> x = k \/ In x (Js.keys o).
Proof.
  induction o as [|[k' v'] o IH]; simpl; intros x Hx.
  - destruct Hx as [<-|[]]. now left.
  - destruct (String.eqb k k'); simpl in Hx.
    + destruct Hx as [<-|Hx]; auto.
    + destruct Hx as [<-|Hx]; auto.
      destruct (IH _ Hx); auto.
Qed.

Lemma set_lookup_id k v o : Js.lookup k o = Some v -> Js.set k v o = o.
Proof.
  induction o as [|[k' v'] o IH]; cbn [Js.lookup Js.set]; [discriminate|].
  destruct (String.eqb k k') eqn:E.
  - now intros [= ->].
  - intros Hl. now rewrite IH.
Qed.

Lemma set_set_same k v v' o : Js.set k v (Js.set k v' o) = Js.set k v o.
Proof.
  induction o as [|[k0 v0] o IH]; cbn [Js.set].
  - now rewrite String.eqb_refl.
  - destruct (String.eqb k k0) eqn:E; cbn [Js.set]; rewrite E; auto.
    now rewrite IH.
Qed.

Lemma get_VObj_lookup k o ps : Js.get k o = VObj ps -> Js.lookup k o = Some (VObj ps).
Proof. unfold Js.get. destruct (Js.lookup k o); [now intros ->|discriminate]. Qed.

Lemma lookup_None_get k o : Js.lookup k o = None -> Js.get k o = VUndefined.
Proof. unfold Js.get. now intros ->. Qed.

Lemma lookup_in_keys k o : In k (Js.keys o) -> Js.lookup k o <> None.
Proof.
  induction o as [|[k' v'] o IH]; simpl; [tauto|].
  intros [->|Hin].
  - now rewrite String.eqb_refl.
  - destruct (String.eqb k k'); [discriminate | auto].
Qed.

End JsFacts.

(* ================================================================== *)
(** * Running the stateful methods *)
(* ================================================================== *)

Section StoreFacts.

Lemma withHeap_id st : withHeap st (heap st) = st.
Proof. now destruct st. Qed.

Lemma read_run l o st :
  heap st !! l = Some o -> read l st = (Ok o, st).
Proof. unfold read. now intros ->. Qed.

Lemma setProp_run l k v o st :
  heap st !! l = Some o ->
  setProp l k v st = (Ok tt, withHeap st (<[l := Js.set k v o]> (heap st))).
Proof. intros Hl. unfold setProp, bind. now rewrite (read_run _ _ _ Hl). Qed.

Lemma deleteProp_run l k o st :
  heap st !! l = Some o ->
  deleteProp l k st = (Ok tt, withHeap st (<[l := Js.delete k o]> (heap st))).
Proof. intros Hl. unfold deleteProp, bind. now rewrite (read_run _ _ _ Hl). Qed.

Lemma lookup_withHeap_insert st (h : list obj) l o :
  l < length h -> heap (withHeap st (<[l := o]> h)) !! l = Some o.
Proof. intros. simpl. now apply list_lookup_insert_eq. Qed.

Lemma withHeap_withHeap st h h' : withHeap (withHeap st h) h' = withHeap st h'.
Proof. reflexivity. Qed.

End StoreFacts.

Section SignerFacts.
Context `{Platform}.

(** [authorize] returns [authorizeResult] and leaves [authorizeLeaves] in
    the request it was given; nothing else changes. *)
Lemma authorize_run (o : OAuth.t) request token env st r :
  heap st !! request = Some r ->
  OAuth.authorize o request token env st
  = (Ok (authorizeResult o r token env),
     withHeap st (<[request := authorizeLeaves r]> (heap st))).
Proof.
  intros Hr.
  assert (Hlt : request < length (heap st)) by (eapply lookup_lt_Some; eauto).
  unfold OAuth.authorize, authorizeResult, authorizeData, authorizeLeaves.
  unfold bind at 1. rewrite (read_run _ _ _ Hr).
  destruct (Js.truthy (Js.get "data" r)) eqn:Ht; simpl negb; unfold when.
  - unfold bind at 1. unfold ret at 1.
    unfold bind at 1. rewrite (read_run _ _ _ Hr).
    destruct (Js.get "data" r) eqn:Hd.
    all: try (unfold bind, ret; simpl; rewrite list_insert_id by exact Hr;
              now rewrite withHeap_id).
    unfold bind at 1. unfold bind at 1.
    rewrite (setProp_run _ _ _ _ _ Hr). unfold ret. reflexivity.
  - unfold bind at 1. rewrite (setProp_run _ _ _ _ _ Hr).
    unfold bind at 1. unfold read at 1.
    rewrite lookup_withHeap_insert by exact Hlt. simpl default.
    rewrite get_set_eq.
    unfold bind at 1. unfold bind at 1.
    erewrite setProp_run by (apply lookup_withHeap_insert; exact Hlt).
    unfold ret. simpl heap. rewrite withHeap_withHeap.
    rewrite list_insert_insert_eq.
    rewrite !(get_set_ne "data") by discriminate.
    reflexivity.
Qed.

End SignerFacts.

Section SignRequestFacts.
Context `{Platform}.

Lemma lookup_last (h : list obj) o : (h ++ [o])%list !! length h = Some o.
Proof. now apply list_lookup_middle. Qed.

Lemma insert_last (h : list obj) o o' :
  <[length h := o']> (h ++ [o])%list = (h ++ [o'])%list.
Proof.
  rewrite insert_app_r_alt by lia. now rewrite Nat.sub_diag.
Qed.

Lemma forEach_setParam_run authorization request ks : forall st r,
  heap st !! request = Some r ->
  forEach (fun key => setParam request key (Js.get key authorization)) ks st
  = (fst (assignParams authorization ks r),
     withHeap st (<[request := snd (assignParams authorization ks r)]> (heap st))).
Proof.
  induction ks as [|k ks IH]; intros st r Hr; simpl.
  - unfold ret. rewrite list_insert_id by exact Hr. now rewrite withHeap_id.
  - assert (Hlt : request < length (heap st)) by (eapply lookup_lt_Some; eauto).
    unfold bind at 1. unfold setParam. unfold bind at 1.
    rewrite (read_run _ _ _ Hr).
    destruct (Js.get "params" r) eqn:Hp;
      try (unfold throw; simpl; rewrite list_insert_id by exact Hr;
           now rewrite withHeap_id).
    unfold write at 1.
    erewrite IH by (simpl; apply list_lookup_insert_eq; exact Hlt).
    simpl. unfold withHeap. simpl. now rewrite list_insert_insert_eq.
Qed.

(** [signRequest] leaves [signRequestLeaves] in the request, appends the
    signer's working copy to the store, and touches nothing else. *)
Lemma signRequest_run this request token omit env st r s :
  heap st !! request = Some r ->
  heap st !! settings this = Some s ->
  signRequest this request token omit env st
  = (fst (signRequestLeaves this s r token omit env),
     withHeap st
       (<[request := snd (signRequestLeaves this s r token omit env)]> (heap st)
        ++ [authorizeLeaves (signerCopy r omit)])%list).
Proof.
  intros Hr Hs.
  assert (Hlt : request < length (heap st)) by (eapply lookup_lt_Some; eauto).
  assert (Hlts : settings this < length (heap st)) by (eapply lookup_lt_Some; eauto).
  unfold signRequest.
  unfold bind at 1. rewrite (read_run _ _ _ Hr).
  unfold bind at 1. unfold alloc at 1.
  set (o0 := Deepmerge.merge [] r).
  unfold bind at 1. unfold read at 1. simpl heap. rewrite lookup_last. simpl default.
  unfold bind at 1.
  erewrite setProp_run by (simpl; apply lookup_last).
  simpl heap. rewrite insert_last.
  unfold bind at 1.
  erewrite deleteProp_run by (simpl; apply lookup_last).
  simpl heap. rewrite insert_last.
  unfold bind at 1. unfold read at 1. simpl heap.
  rewrite lookup_app_l by exact Hlts. rewrite Hs. simpl default.
  set (o2 := Js.delete "baseURL" _).
  assert (Hcopy : forall st0 : state,
    when omit (deleteProp (length (heap st)) "data")
         (withHeap st0 (heap st ++ [o2])%list)
    = (Ok tt, withHeap st0 (heap st ++ [signerCopy r omit])%list)).
  { intros st0. unfold when, signerCopy. fold o0. fold o2. destruct omit.
    - erewrite deleteProp_run by (simpl; apply lookup_last).
      simpl heap. now rewrite insert_last.
    - reflexivity. }
  unfold bind at 1.
  change {| heap := (heap st ++ [o2])%list; _id := _id st; wire := wire st |}
    with (withHeap st (heap st ++ [o2])%list).
  rewrite Hcopy.
  unfold bind at 1.
  erewrite authorize_run by (simpl; apply lookup_last).
  simpl heap. rewrite insert_last.
  assert (Htok :
    match match token with
          | TokenUndefined | TokenBool true =>
              TokenPair (Js.get "accessToken" s) (Js.get "accessSecret" s)
          | _ => token
          end with
    | TokenPair k sec => Some (k, sec)
    | _ => None
    end = resolveToken s token).
  { destruct token as [|[]|]; reflexivity. }
  rewrite Htok.
  set (authorization := authorizeResult _ _ _ _).
  unfold bind at 1. unfold read at 1. simpl heap.
  rewrite lookup_app_l by exact Hlt. rewrite Hr. simpl default.
  unfold signRequestLeaves. fold authorization.
  set (copy := authorizeLeaves _).
  destruct (Js.truthy (Js.get "params" r)) eqn:Hp; unfold when; simpl negb.
  - unfold bind at 1. unfold ret at 1.
    erewrite forEach_setParam_run
      by (simpl; rewrite lookup_app_l by exact Hlt; exact Hr).
    unfold signedKeys. simpl heap. unfold withHeap. simpl.
    now rewrite insert_app_l by exact Hlt.
  - unfold bind at 1.
    erewrite setProp_run by (simpl; rewrite lookup_app_l by exact Hlt; exact Hr).
    erewrite forEach_setParam_run
      by (simpl; apply list_lookup_insert_eq; rewrite length_app; lia).
    unfold signedKeys. simpl heap. unfold withHeap. simpl.
    rewrite list_insert_insert_eq.
    now rewrite insert_app_l by exact Hlt.
Qed.

End SignRequestFacts.

Section AssignFacts.

Lemma assignParams_object authorization ks : forall r ps,
  Js.get "params" r = VObj ps ->
  assignParams authorization ks r
  = (Ok tt, Js.set "params" (VObj (copied authorization ks ps)) r).
Proof.
  induction ks as [|k ks IH]; intros r ps Hp; cbn [assignParams copied fold_left].
  - now rewrite set_lookup_id by (apply get_VObj_lookup; exact Hp).
  - rewrite Hp. erewrite IH by apply get_set_eq.
    now rewrite set_set_same.
Qed.

Lemma assignParams_frame authorization ks : forall r k,
  k <> "params" ->
  Js.get k (snd (assignParams authorization ks r)) = Js.get k r.
Proof.
  induction ks as [|k0 ks IH]; intros r k Hk; simpl; auto.
  destruct (Js.get "params" r); simpl; auto.
  rewrite IH by exact Hk. apply get_set_ne. congruence.
Qed.

Lemma assignParams_others authorization ks : forall r,
  Js.delete "params" (snd (assignParams authorization ks r)) = Js.delete "params" r.
Proof.
  induction ks as [|k0 ks IH]; intros r; simpl; auto.
  destruct (Js.get "params" r); simpl; auto.
  rewrite IH. apply delete_set_same.
Qed.


Lemma copied_get_notin authorization ks : forall ps k,
  ~ In k ks -> Js.get k (copied authorization ks ps) = Js.get k ps.
Proof.
  induction ks as [|k0 ks IH]; intros ps k Hk; simpl in *; auto.
  rewrite IH by tauto. apply get_set_ne. tauto.
Qed.

Lemma copied_get_in authorization ks : forall ps k,
  In k ks -> Js.get k (copied authorization ks ps) = Js.get k authorization.
Proof.
  induction ks as [|k0 ks IH]; intros ps k Hk; simpl in *; [tauto|].
  destruct (in_dec string_dec k ks) as [Hin|Hnin].
  - now apply IH.
  - destruct Hk as [->|Hk]; [|tauto].
    rewrite copied_get_notin by exact Hnin. apply get_set_eq.
Qed.

End AssignFacts.

Section MergeFacts.

Lemma merge_unfold target source :
  Deepmerge.merge target source
  = fold_left (Deepmerge.mergeEntry (VObj target)) source
      (Deepmerge.cloneProps (VObj target)).
Proof. reflexivity. Qed.

Lemma get_mergeEntry_ne k target dest kv :
  fst kv <> k ->
  Js.get k (Deepmerge.mergeEntry target dest kv) = Js.get k dest.
Proof.
  intros Hne. unfold Deepmerge.mergeEntry. cbv zeta.
  destruct (Deepmerge.propertyIsUnsafe target (fst kv)); auto.
  destruct (_ && _); now rewrite get_set_ne.
Qed.

(** A key the source does not have keeps the target's (cloned) value. *)
Lemma get_merge_notin k target source :
  Js.lookup k source = None ->
  Js.get k (Deepmerge.merge target source)
  = Js.get k (Deepmerge.cloneProps (VObj target)).
Proof.
  rewrite merge_unfold.
  generalize (Deepmerge.cloneProps (VObj target)) as dest.
  induction source as [|[k' v'] source IH]; intros dest Hk;
    cbn [fold_left Js.lookup] in *; auto.
  destruct (String.eqb k k') eqn:E; [discriminate|].
  rewrite IH by exact Hk.
  apply get_mergeEntry_ne. cbn [fst].
  intros ->. now rewrite String.eqb_refl in E.
Qed.

End MergeFacts.

Section DispatchFacts.
Context `{Platform}.

Lemma getBasicRequest_run this requestOptions st s :
  heap st !! settings this = Some s ->
  getBasicRequest this requestOptions st
  = match selectedURL s with
    | Ok b => (Ok (length (heap st)),
               withHeap st (heap st ++ [basicRequest s b requestOptions])%list)
    | Throw e => (Throw e, st)
    end.
Proof.
  intros Hs. unfold getBasicRequest.
  unfold bind at 1. rewrite (read_run _ _ _ Hs).
  unfold selectedURL, bind, lift.
  destruct (if Js.is_string (Js.get "mode" s) "prod"
            then prop (Js.get "urls" s) "prod"
            else prop (Js.get "urls" s) "dev"); reflexivity.
Qed.

Lemma request_run this options env st o :
  heap st !! options = Some o ->
  request this options env st
  = if admitted this env
    then (settle env,
          {| heap := heap st; _id := (_id st + 1)%Z; wire := (wire st ++ [o])%list |})
    else (Throw ThrottleError, st).
Proof.
  intros Ho. unfold request, admitted.
  destruct (atLimit env && Js.truthy (snd (throttle this))); simpl negb; cbv iota.
  - reflexivity.
  - unfold bind at 1. unfold nextId at 1.
    unfold bind at 1. unfold read at 1. simpl heap. rewrite Ho. simpl default.
    unfold bind at 1. unfold send at 1. simpl.
    unfold settle.
    destruct (transport env) as [r|err]; [reflexivity|].
    destruct (Axios.response err) as [r|]; [|reflexivity].
    destruct (normalize r); reflexivity.
Qed.

End DispatchFacts.

Section PipelineFacts.
Context `{Platform}.

(** Signing a stored descriptor and submitting it: the shared tail of
    every method. *)
Lemma signAndSend_run this ro token omit env (k : value -> M value) st r s :
  heap st !! ro = Some r ->
  heap st !! settings this = Some s ->
  (signRequest this ro token omit env ;;; response <- request this ro env ;; k response) st
  = let leaves := signRequestLeaves this s r token omit env in
    let h' := (<[ro := snd leaves]> (heap st) ++ [authorizeLeaves (signerCopy r omit)])%list in
    match fst leaves with
    | Throw e => (Throw e, withHeap st h')
    | Ok _ =>
        if admitted this env then
          let st' := {| heap := h'; _id := (_id st + 1)%Z;
                        wire := (wire st ++ [snd leaves])%list |} in
          match settle env with
          | Ok v => k v st'
          | Throw e => (Throw e, st')
          end
        else (Throw ThrottleError, withHeap st h')
    end.
Proof.
  intros Hr Hs.
  assert (Hlt : ro < length (heap st)) by (eapply lookup_lt_Some; eauto).
  unfold bind at 1. rewrite (signRequest_run _ _ _ _ _ _ _ _ Hr Hs).
  cbv zeta.
  destruct (fst (signRequestLeaves this s r token omit env)); [|reflexivity].
  unfold bind at 1.
  erewrite request_run.
  2:{ simpl heap. rewrite lookup_app_l by (rewrite length_insert; exact Hlt).
      apply list_lookup_insert_eq. exact Hlt. }
  destruct (admitted this env); [|reflexivity].
  simpl. destruct (settle env); reflexivity.
Qed.

(** A descriptor built by [getBasicRequest] from a literal without
    [params] has no [params]. *)
Lemma basicRequest_params s b lit :
  Js.lookup "params" lit = None ->
  Js.get "params" (basicRequest s b (Some lit)) = VUndefined.
Proof. intros Hl. unfold basicRequest. now rewrite get_merge_notin. Qed.

Lemma basicRequest_baseURL s b lit :
  Js.lookup "baseURL" lit = None ->
  Js.get "baseURL" (basicRequest s b (Some lit)) = Deepmerge.clone b.
Proof. intros Hl. unfold basicRequest. now rewrite get_merge_notin. Qed.

(** Signing a descriptor that has no [params] creates them and copies the
    selected keys of the authorization. *)
Lemma signRequestLeaves_fresh this s r token omit env :
  Js.get "params" r = VUndefined ->
  signRequestLeaves this s r token omit env = (Ok tt, signed this s r token omit env).
Proof.
  intros Hp. unfold signRequestLeaves, signed. rewrite Hp. simpl Js.truthy. cbv iota zeta.
  erewrite assignParams_object by apply get_set_eq.
  now rewrite set_set_same.
Qed.

(** Signing and submitting a stored descriptor without [params]. *)
Lemma signAndSend_fresh this ro token omit env (k : value -> M value) st r s :
  heap st !! ro = Some r ->
  heap st !! settings this = Some s ->
  Js.get "params" r = VUndefined ->
  (signRequest this ro token omit env ;;; response <- request this ro env ;; k response) st
  = let sent := signed this s r token omit env in
    let h' := (<[ro := sent]> (heap st) ++ [authorizeLeaves (signerCopy r omit)])%list in
    if admitted this env then
      let st' := {| heap := h'; _id := (_id st + 1)%Z; wire := (wire st ++ [sent])%list |} in
      match settle env with
      | Ok v => k v st'
      | Throw e => (Throw e, st')
      end
    else (Throw ThrottleError, withHeap st h').
Proof.
  intros Hr Hs Hp.
  rewrite (signAndSend_run _ _ _ _ _ _ _ _ _ Hr Hs).
  rewrite signRequestLeaves_fresh by exact Hp. reflexivity.
Qed.

(** The three steps every API method takes. *)
Lemma apiCall_run this lit token omit env (k : value -> M value) st s :
  heap st !! settings this = Some s ->
  Js.lookup "params" lit = None ->
  (requestOptions <- getBasicRequest this (Some lit) ;;
   signRequest this requestOptions token omit env ;;;
   response <- request this requestOptions env ;;
   k response) st
  = match selectedURL s with
    | Throw e => (Throw e, st)
    | Ok b =>
        let r := basicRequest s b (Some lit) in
        let sent := signed this s r token omit env in
        let h' := (heap st ++ [sent; authorizeLeaves (signerCopy r omit)])%list in
        if admitted this env then
          let st' := {| heap := h'; _id := (_id st + 1)%Z;
                        wire := (wire st ++ [sent])%list |} in
          match settle env with
          | Ok v => k v st'
          | Throw e => (Throw e, st')
          end
        else (Throw ThrottleError, withHeap st h')
    end.
Proof.
  intros Hs Hl.
  assert (Hlt : settings this < length (heap st)) by (eapply lookup_lt_Some; eauto).
  unfold bind at 1. rewrite (getBasicRequest_run _ _ _ _ Hs).
  destruct (selectedURL s) as [b|e]; [|reflexivity].
  erewrite signAndSend_fresh.
  2:{ simpl heap. apply lookup_last. }
  2:{ simpl heap. rewrite lookup_app_l by exact Hlt. exact Hs. }
  2:{ apply basicRequest_params. exact Hl. }
  cbv zeta. simpl heap. rewrite insert_last.
  rewrite <- !app_assoc. reflexivity.
Qed.

End PipelineFacts.

Section InvokeFacts.
Context `{Platform}.

Lemma lookup_params_literal c lit :
  requestLiteral c = Ok lit ->
  Js.lookup "params" lit = None /\ Js.lookup "baseURL" lit = None.
Proof.
  destruct c; cbn [requestLiteral];
    try (intros [= <-]; split; reflexivity).
  - destruct (numberOrJoined alertId); cbn [andThen]; [|discriminate].
    intros [= <-]; split; reflexivity.
  - destruct (stringOrJoined _); cbn [andThen]; [|discriminate].
    intros [= <-]; split; reflexivity.
Qed.

(** Every API method builds its literal, goes through the three shared
    steps and unwraps the response. *)
Lemma invoke_run this c env st s :
  heap st !! settings this = Some s ->
  invoke this c env st = invoked this s c env st.
Proof.
  intros Hs. unfold invoked.
  destruct c; cbn [invoke requestLiteral isWrite];
    lazymatch goal with
    | |- deleteAlert _ _ _ _ = _ =>
        unfold deleteAlert; unfold bind at 1; unfold lift at 1;
        (destruct (numberOrJoined _); cbn [andThen]; [|reflexivity])
    | |- getQuotes _ _ _ _ = _ =>
        unfold getQuotes; cbv zeta; unfold bind at 1; unfold lift at 1;
        (destruct (stringOrJoined _); cbn [andThen]; [|reflexivity])
    | |- _ => idtac
    end;
    unfold cancelOrder, changePreviewedOrder, getAccountBalances, getOptionChains,
      getOptionExpireDates, listAccounts, listAlertDetails, listAlerts, listOrders,
      listOrderDetails, listTransactionDetails, listTransactions, lookupProduct,
      placeChangedOrder, placeOrder, previewOrder, viewLotsDetails, viewPortfolio;
    cbv zeta;
    (erewrite apiCall_run by first [exact Hs | reflexivity]);
    (destruct (selectedURL s); [|reflexivity]);
    cbv zeta; (destruct (admitted this env); [|reflexivity]);
    destruct (settle env); reflexivity.
Qed.

End InvokeFacts.

Section OAuthCallFacts.
Context `{Platform}.

Lemma selectedURL_object s u :
  Js.get "urls" s = VObj u ->
  selectedURL s
  = Ok (if Js.is_string (Js.get "mode" s) "prod" then Js.get "prod" u
        else Js.get "dev" u).
Proof.
  intros Hu. unfold selectedURL. rewrite Hu.
  now destruct (Js.is_string (Js.get "mode" s) "prod").
Qed.

(** The steps the four OAuth methods share before they sign. *)
Lemma oauthPrefix_run this name (k : nat -> M value) st s u :
  heap st !! settings this = Some s ->
  Js.get "urls" s = VObj u ->
  (requestOptions <- getBasicRequest this None ;;
   deleteProp requestOptions "baseURL" ;;;
   s' <- read (settings this) ;;
   oauthURL <- lift (prop (Js.get "urls" s') "oauth") ;;
   setProp requestOptions "url" (VStr (Js.join "" [oauthURL; VStr name])) ;;;
   k requestOptions) st
  = let b := if Js.is_string (Js.get "mode" s) "prod" then Js.get "prod" u
             else Js.get "dev" u in
    k (length (heap st))
      (withHeap st (heap st ++ [oauthDescriptor s b (Js.get "oauth" u) name None])%list).
Proof.
  intros Hs Hu.
  assert (Hlt : settings this < length (heap st)) by (eapply lookup_lt_Some; eauto).
  unfold bind at 1. rewrite (getBasicRequest_run _ _ _ _ Hs).
  rewrite (selectedURL_object _ _ Hu).
  unfold bind at 1.
  erewrite deleteProp_run by (simpl heap; apply lookup_last).
  simpl heap. rewrite insert_last.
  unfold bind at 1. unfold read at 1. simpl heap.
  rewrite lookup_app_l by exact Hlt. rewrite Hs. simpl default.
  rewrite Hu. unfold bind at 1. unfold lift at 1. cbn [prop].
  unfold bind at 1.
  erewrite setProp_run by (simpl heap; apply lookup_last).
  simpl heap. rewrite insert_last. reflexivity.
Qed.

(** An OAuth method that sets [data] before signing. *)
Lemma oauthCall_data_run this name d token env (k : value -> M value)
    (k' : value -> result value) st s u :
  heap st !! settings this = Some s ->
  Js.get "urls" s = VObj u ->
  (forall v st', heap st' !! settings this = Some s -> k v st' = (k' v, st')) ->
  (requestOptions <- getBasicRequest this None ;;
   deleteProp requestOptions "baseURL" ;;;
   s' <- read (settings this) ;;
   oauthURL <- lift (prop (Js.get "urls" s') "oauth") ;;
   setProp requestOptions "url" (VStr (Js.join "" [oauthURL; VStr name])) ;;;
   setProp requestOptions "data" d ;;;
   signRequest this requestOptions token false env ;;;
   response <- request this requestOptions env ;;
   k response) st
  = oauthInvoked this s u name (Some d) token env k' st.
Proof.
  intros Hs Hu Hk.
  assert (Hlt : settings this < length (heap st)) by (eapply lookup_lt_Some; eauto).
  rewrite (oauthPrefix_run this name
             (fun requestOptions =>
                setProp requestOptions "data" d ;;;
                signRequest this requestOptions token false env ;;;
                response <- request this requestOptions env ;; k response)
             st s u Hs Hu).
  cbv zeta. unfold bind at 1.
  erewrite setProp_run by (simpl heap; apply lookup_last).
  simpl heap. rewrite insert_last.
  erewrite signAndSend_fresh.
  2:{ simpl heap. apply lookup_last. }
  2:{ simpl heap. rewrite lookup_app_l by exact Hlt. exact Hs. }
  2:{ reflexivity. }
  unfold oauthInvoked. cbv zeta. simpl heap. rewrite insert_last.
  rewrite <- !app_assoc. cbn [app oauthDescriptor].
  destruct (admitted this env); [|reflexivity].
  destruct (settle env); [|reflexivity].
  apply Hk. simpl heap. rewrite lookup_app_l by exact Hlt. exact Hs.
Qed.

(** An OAuth method that signs the bare descriptor. *)
Lemma oauthCall_bare_run this name token env st s u :
  heap st !! settings this = Some s ->
  Js.get "urls" s = VObj u ->
  (requestOptions <- getBasicRequest this None ;;
   deleteProp requestOptions "baseURL" ;;;
   s' <- read (settings this) ;;
   oauthURL <- lift (prop (Js.get "urls" s') "oauth") ;;
   setProp requestOptions "url" (VStr (Js.join "" [oauthURL; VStr name])) ;;;
   signRequest this requestOptions token false env ;;;
   request this requestOptions env) st
  = oauthInvoked this s u name None token env Ok st.
Proof.
  intros Hs Hu.
  assert (Hlt : settings this < length (heap st)) by (eapply lookup_lt_Some; eauto).
  rewrite (oauthPrefix_run this name
             (fun requestOptions =>
                signRequest this requestOptions token false env ;;;
                request this requestOptions env)
             st s u Hs Hu).
  cbv zeta. unfold bind at 1.
  erewrite signRequest_run.
  2:{ simpl heap. apply lookup_last. }
  2:{ simpl heap. rewrite lookup_app_l by exact Hlt. exact Hs. }
  rewrite signRequestLeaves_fresh by reflexivity.
  cbn [fst snd]. simpl heap. rewrite insert_last.
  erewrite request_run.
  2:{ simpl heap. rewrite <- app_assoc. apply (list_lookup_middle _ _ _ _ eq_refl). }
  unfold oauthInvoked. cbv zeta. rewrite <- !app_assoc. cbn [app].
  destruct (admitted this env); [|reflexivity].
  simpl. destruct (settle env); reflexivity.
Qed.

End OAuthCallFacts.

Section OAuthMethodFacts.
Context `{Platform}.

Lemma requestToken_run this env st s u :
  heap st !! settings this = Some s ->
  Js.get "urls" s = VObj u ->
  requestToken this env st
  = oauthInvoked this s u "request_token" (Some (VObj [("oauth_callback", VStr "oob")]))
      (TokenBool false) env (fun v => Ok (requestTokenResult s v)) st.
Proof.
  intros Hs Hu. unfold requestToken.
  apply (oauthCall_data_run this "request_token" _ (TokenBool false) env _
           (fun v => Ok (requestTokenResult s v)) st s u Hs Hu).
  intros v st' Hs'. cbv zeta. unfold bind at 1.
  rewrite (read_run _ _ _ Hs'). reflexivity.
Qed.

Lemma getAccessToken_run this options env st s u :
  heap st !! settings this = Some s ->
  Js.get "urls" s = VObj u ->
  getAccessToken this options env st
  = oauthInvoked this s u "access_token"
      (Some (VObj [("oauth_verifier", Js.get "code" options)]))
      (TokenPair (Js.get "key" options) (Js.get "secret" options)) env
      (fun v => Ok (accessTokenResult v)) st.
Proof.
  intros Hs Hu. unfold getAccessToken.
  apply (oauthCall_data_run this "access_token" _ _ env _
           (fun v => Ok (accessTokenResult v)) st s u Hs Hu).
  intros v st' Hs'. reflexivity.
Qed.

Lemma renewAccessToken_run this options env st s u :
  heap st !! settings this = Some s ->
  Js.get "urls" s = VObj u ->
  renewAccessToken this options env st
  = oauthInvoked this s u "renew_access_token" None
      (TokenPair (Js.get "key" options) (Js.get "secret" options)) env Ok st.
Proof. intros Hs Hu. unfold renewAccessToken. now apply oauthCall_bare_run. Qed.

Lemma revokeAccessToken_run this options env st s u :
  heap st !! settings this = Some s ->
  Js.get "urls" s = VObj u ->
  revokeAccessToken this options env st
  = oauthInvoked this s u "revoke_access_token" None
      (TokenPair (Js.get "key" options) (Js.get "secret" options)) env Ok st.
Proof. intros Hs Hu. unfold revokeAccessToken. now apply oauthCall_bare_run. Qed.

End OAuthMethodFacts.

(* ================================================================== *)
(** * The sample client *)
(* ================================================================== *)

Example sample_constructor :
  constructor (Some Sample.options) Sample.boot = (Ok Sample.this, Sample.store).
Proof. reflexivity. Qed.

Example sample_parse :
  Sample.parse (VStr "oauth_token=abc&oauth_token_secret=def&oauth_callback_confirmed=true")
  = [ ("oauth_token", VStr "abc"); ("oauth_token_secret", VStr "def");
      ("oauth_callback_confirmed", VStr "true") ].
Proof. reflexivity. Qed.

(* ================================================================== *)
(** * Merging options over defaults *)
(* ================================================================== *)

Section MergeValues.

Lemma get_fold_mergeEntry_notin k target source : forall dest,
  Js.lookup k source = None ->
  Js.get k (fold_left (Deepmerge.mergeEntry target) source dest) = Js.get k dest.
Proof.
  induction source as [|[k' v'] source IH]; intros dest Hk;
    cbn [fold_left Js.lookup] in *; auto.
  destruct (String.eqb k k') eqn:E; [discriminate|].
  rewrite IH by exact Hk.
  apply get_mergeEntry_ne. cbn [fst].
  intros ->. now rewrite String.eqb_refl in E.
Qed.

Lemma lookup_notin_keys k (o : obj) : ~ In k (Js.keys o) -> Js.lookup k o = None.
Proof.
  induction o as [|[k' v'] o IH]; cbn [Js.keys map fst In Js.lookup]; auto.
  intros Hn. destruct (String.eqb k k') eqn:E.
  - apply String.eqb_eq in E. subst. tauto.
  - apply IH. tauto.
Qed.

(** A key the source has takes the source's value: merged into the
    target's when both are there and the source's is an object or array,
    cloned otherwise. *)
Lemma get_merge_in k v target source :
  List.NoDup (Js.keys source) ->
  Js.lookup k source = Some v ->
  Deepmerge.propertyIsUnsafe (VObj target) k = false ->
  Js.get k (Deepmerge.merge target source)
  = if Deepmerge.propertyIsOnObject (VObj target) k && Deepmerge.isMergeableObject v
    then Deepmerge.deepmerge (Js.get k target) v
    else Deepmerge.clone v.
Proof.
  intros Hnd Hl Hsafe. rewrite merge_unfold.
  generalize (Deepmerge.cloneProps (VObj target)) as dest.
  induction source as [|[k' v'] source IH]; intros dest;
    cbn [fold_left Js.lookup Js.keys map fst] in *; [discriminate|].
  apply List.NoDup_cons_iff in Hnd as [Hnotin Hnd].
  destruct (String.eqb k k') eqn:E.
  - apply String.eqb_eq in E. subst k'. injection Hl as ->.
    rewrite get_fold_mergeEntry_notin by (apply lookup_notin_keys; exact Hnotin).
    unfold Deepmerge.mergeEntry. cbn [fst snd]. cbv zeta. rewrite Hsafe.
    cbn [Deepmerge.targetProp].
    destruct (_ && _); apply get_set_eq.
  - now apply IH.
Qed.

End MergeValues.

(* ================================================================== *)
(** * The constructor *)
(* ================================================================== *)

Section ConstructorFacts.

Lemma constructor_run options st :
  constructor options st
  = (Ok {| settings := length (heap st);
           throttle :=
             (Js.get "connectionLimit" (Deepmerge.merge defaults (orEmpty options)),
              Js.get "connectionLimitPeriod" (Deepmerge.merge defaults (orEmpty options)),
              Js.get "errorOnConnectionLimit" (Deepmerge.merge defaults (orEmpty options)));
           oauth :=
             {| OAuth.consumer_key :=
                  Js.get "key" (Deepmerge.merge defaults (orEmpty options));
                OAuth.consumer_secret :=
                  Js.get "secret" (Deepmerge.merge defaults (orEmpty options)) |} |},
     withHeap st (heap st ++ [Deepmerge.merge defaults (orEmpty options)])%list).
Proof.
  unfold constructor, bind, alloc, read, ret. cbn [heap].
  rewrite lookup_last. reflexivity.
Qed.

(** Every default, looked up in the merged settings. *)
Lemma merged_default options k d :
  List.NoDup (Js.keys options) ->
  In (k, d) defaults ->
  Js.get k (Deepmerge.merge defaults options)
  = match Js.lookup k options with
    | None => d
    | Some v =>
        if Deepmerge.isMergeableObject v then Deepmerge.deepmerge d v else v
    end.
Proof.
  intros Hnd Hin.
  destruct (Js.lookup k options) as [v|] eqn:Hl.
  - rewrite (get_merge_in k v) by
      first [ exact Hnd | exact Hl
            | unfold defaults in Hin; cbn [In] in Hin;
              repeat (destruct Hin as [[= <- <-]|Hin]; [reflexivity|]);
              destruct Hin ].
    unfold defaults in Hin; cbn [In] in Hin.
    repeat (destruct Hin as [[= <- <-]|Hin];
            [destruct v; reflexivity|]).
    destruct Hin.
  - rewrite get_merge_notin by exact Hl.
    unfold defaults in Hin; cbn [In] in Hin.
    repeat (destruct Hin as [[= <- <-]|Hin]; [reflexivity|]).
    destruct Hin.
Qed.

End ConstructorFacts.

(** C5. For every options object (possibly absent, empty or partial) the
    constructor stores as settings the deep merge of [ETrade.defaults] with
    the options.  Every default survives where the caller gave no value, and
    a value the caller gave wins (merged key by key when it is itself an
    object).  In particular: [mode] defaults to ['dev'] (the sandbox),
    [accessToken] and [accessSecret] to the empty string, [connectionLimit]
    to 10, [connectionLimitPeriod] to 1000, [errorOnConnectionLimit] to
    [false] and [proxy] to [false] (disabled). *)
Theorem constructor_merges_defaults (options : option obj) (st : state) :
  List.NoDup (Js.keys (orEmpty options)) ->
  exists this s,
    constructor options st = (Ok this, withHeap st (heap st ++ [s])%list) /\
    settings this = length (heap st) /\
    s = Deepmerge.merge defaults (orEmpty options) /\
    (forall k d, In (k, d) defaults ->
       Js.get k s = match Js.lookup k (orEmpty options) with
                    | None => d
                    | Some v =>
                        if Deepmerge.isMergeableObject v
                        then Deepmerge.deepmerge d v else v
                    end) /\
    (Js.lookup "mode" (orEmpty options) = None -> Js.get "mode" s = VStr "dev") /\
    (Js.lookup "accessToken" (orEmpty options) = None ->
       Js.get "accessToken" s = VStr "") /\
    (Js.lookup "accessSecret" (orEmpty options) = None ->
       Js.get "accessSecret" s = VStr "") /\
    (Js.lookup "connectionLimit" (orEmpty options) = None ->
       Js.get "connectionLimit" s = VNum 10) /\
    (Js.lookup "connectionLimitPeriod" (orEmpty options) = None ->
       Js.get "connectionLimitPeriod" s = VNum 1000) /\
    (Js.lookup "errorOnConnectionLimit" (orEmpty options) = None ->
       Js.get "errorOnConnectionLimit" s = VBool false) /\
    (Js.lookup "proxy" (orEmpty options) = None -> Js.get "proxy" s = VBool false).
Proof.
  intros Hnd.
  eexists _, (Deepmerge.merge defaults (orEmpty options)).
  split; [apply constructor_run|].
  split; [reflexivity|]. split; [reflexivity|].
  split; [intros k d Hin; now apply merged_default|].
  repeat split; intros Hl; now rewrite get_merge_notin by exact Hl.
Qed.

Lemma constructor_merges_defaults_witness :
  List.NoDup (Js.keys (orEmpty (Some [("mode", VStr "prod"); ("key", VStr "ck")]))) /\
  exists this s,
    constructor (Some [("mode", VStr "prod"); ("key", VStr "ck")]) Sample.boot
    = (Ok this, withHeap Sample.boot (heap Sample.boot ++ [s])%list) /\
    Js.get "mode" s = VStr "prod" /\
    Js.get "connectionLimit" s = VNum 10.
Proof.
  assert (Hnd : List.NoDup
                  (Js.keys (orEmpty (Some [("mode", VStr "prod"); ("key", VStr "ck")])))).
  { repeat constructor; cbn; intuition discriminate. }
  split; [exact Hnd|].
  destruct (constructor_merges_defaults
              (Some [("mode", VStr "prod"); ("key", VStr "ck")]) Sample.boot Hnd)
    as (this & s & Hrun & _ & Hs & _).
  exists this, s. split; [exact Hrun|]. subst s. split; reflexivity.
Defined.

(* ================================================================== *)
(** * The dispatcher's errors *)
(* ================================================================== *)

(** C4. A dispatched request that fails without an HTTP response rejects
    with the transport's own error, exactly as received: it is not turned
    into the normalized error, so nothing ([code], [raw]) is added to it. *)
Theorem network_failure_propagates_unmodified
    (this : ETrade) (options : nat) (env : Env) (st : state) (err : Axios.Error) :
  admitted this env = true ->
  transport env = Axios.Rejected err ->
  Axios.response err = None ->
  fst (request this options env st) = Throw (TransportError err).
Proof.
  intros Hadm Htr Hnone. unfold request. unfold admitted in Hadm.
  destruct (atLimit env && Js.truthy (snd (throttle this))); [discriminate|].
  unfold bind, nextId, read, send. cbn [fst snd heap].
  now rewrite Htr, Hnone.
Qed.

Lemma network_failure_propagates_unmodified_witness :
  let err := {| Axios.message := "connect ECONNREFUSED"; Axios.response := None |} in
  admitted Sample.this (Sample.env (Axios.Rejected err)) = true /\
  transport (Sample.env (Axios.Rejected err)) = Axios.Rejected err /\
  Axios.response err = None /\
  fst (request Sample.this 0 (Sample.env (Axios.Rejected err)) Sample.store)
  = Throw (TransportError err).
Proof.
  intros err.
  split; [reflexivity|]. split; [reflexivity|]. split; [reflexivity|].
  apply (network_failure_propagates_unmodified Sample.this 0
           (Sample.env (Axios.Rejected err)) Sample.store err); reflexivity.
Defined.

(** C2, as the code has it.  A dispatched request that fails with an HTTP
    response whose body is neither [null] nor [undefined] rejects with the
    normalized error: [raw] is the response body; when the body has no
    truthy [Error], [message] is the status text and [code] the HTTP status;
    when it has one, [message] is [Error.message] and [code] is [Error.code]
    if that is truthy, the HTTP status otherwise. *)
Theorem http_failure_is_normalized
    (this : ETrade) (options : nat) (env : Env) (st : state)
    (err : Axios.Error) (r : Axios.Response) :
  admitted this env = true ->
  transport env = Axios.Rejected err ->
  Axios.response err = Some r ->
  Js.nullish (Axios.data r) = false ->
  let e := optProp (Axios.data r) "Error" in
  fst (request this options env st)
  = Throw (ETradeError
             (if Js.truthy e then optProp e "message" else VStr (Axios.statusText r))
             (if Js.truthy e && Js.truthy (optProp e "code")
              then optProp e "code" else VNum (Axios.status r))
             (Axios.data r)).
Proof.
  intros Hadm Htr Hsome Hnn e. unfold request. unfold admitted in Hadm.
  destruct (atLimit env && Js.truthy (snd (throttle this))); [discriminate|].
  unfold bind, nextId, read, send. cbn [fst snd heap].
  rewrite Htr, Hsome. unfold normalize.
  assert (Hp : prop (Axios.data r) "Error" = Ok e).
  { subst e. destruct (Axios.data r); try discriminate; reflexivity. }
  rewrite Hp. cbn [andThen].
  destruct (Js.truthy e) eqn:Ht; [|reflexivity].
  assert (Hq : forall k, prop e k = Ok (optProp e k)).
  { intros k. destruct e; try discriminate; reflexivity. }
  rewrite !Hq. cbn [andThen andb].
  now destruct (Js.truthy (optProp e "code")).
Qed.

(** Status 400 with body [{Error: {code: 1032, message: "Invalid symbol"}}]
    yields code 1032 and message "Invalid symbol". *)
Lemma http_failure_is_normalized_witness :
  let body := VObj [("Error", VObj [("code", VNum 1032);
                                    ("message", VStr "Invalid symbol")])] in
  let err := {| Axios.message := "Request failed with status code 400";
                Axios.response := Some (Sample.respond 400 "Bad Request" body) |} in
  Js.nullish body = false /\
  fst (request Sample.this 0 (Sample.env (Axios.Rejected err)) Sample.store)
  = Throw (ETradeError (VStr "Invalid symbol") (VNum 1032) body).
Proof.
  intros body err. split; [reflexivity|].
  apply (http_failure_is_normalized Sample.this 0 (Sample.env (Axios.Rejected err))
           Sample.store err (Sample.respond 400 "Bad Request" body)); reflexivity.
Defined.

(** Status 500 with status text "Internal Server Error" and body [{}]
    yields code 500 and message "Internal Server Error". *)
Example http_failure_without_Error :
  let err := {| Axios.message := "Request failed with status code 500";
                Axios.response :=
                  Some (Sample.respond 500 "Internal Server Error" (VObj [])) |} in
  fst (request Sample.this 0 (Sample.env (Axios.Rejected err)) Sample.store)
  = Throw (ETradeError (VStr "Internal Server Error") (VNum 500) (VObj [])).
Proof. reflexivity. Qed.

(** C2 as stated fails on two inputs.  With a [null] body the [catch] block
    itself throws, so the caller gets a [TypeError], not the normalized
    error; and an [Error.code] that is present but falsy (here 0) does not
    replace the HTTP status. *)
Lemma http_failure_null_body_or_zero_code :
  (let err := {| Axios.message := "Request failed with status code 400";
                 Axios.response := Some (Sample.respond 400 "Bad Request" VNull) |} in
   fst (request Sample.this 0 (Sample.env (Axios.Rejected err)) Sample.store)
   = Throw (TypeError "Cannot read properties of null")
   /\ forall message code raw,
        fst (request Sample.this 0 (Sample.env (Axios.Rejected err)) Sample.store)
        <> Throw (ETradeError message code raw))
  /\
  (let body := VObj [("Error", VObj [("code", VNum 0); ("message", VStr "Zero")])] in
   let err := {| Axios.message := "Request failed with status code 400";
                 Axios.response := Some (Sample.respond 400 "Bad Request" body) |} in
   fst (request Sample.this 0 (Sample.env (Axios.Rejected err)) Sample.store)
   = Throw (ETradeError (VStr "Zero") (VNum 400) body)).
Proof.
  split; [split; [reflexivity | discriminate] | reflexivity].
Qed.

(* ================================================================== *)
(** * Unwrapping responses *)
(* ================================================================== *)

Section UnwrapFacts.
Context `{Platform}.

(** An admitted API call whose transport resolves returns the unwrapped
    body. *)
Lemma invoke_resolved this c env st s u lit resp :
  heap st !! settings this = Some s ->
  Js.get "urls" s = VObj u ->
  requestLiteral c = Ok lit ->
  admitted this env = true ->
  transport env = Axios.Resolved resp ->
  fst (invoke this c env st) = unwrap c (Axios.data resp).
Proof.
  intros Hs Hu Hlit Hadm Htr.
  rewrite (invoke_run _ _ _ _ _ Hs). unfold invoked.
  rewrite Hlit, (selectedURL_object _ _ Hu). cbv zeta. rewrite Hadm.
  unfold settle. rewrite Htr. reflexivity.
Qed.

End UnwrapFacts.

(** C9. [viewPortfolio] does not throw on a missing unwrap path: when the
    response body, its [PortfolioResponse] or its [AccountPortfolio] is
    [null] or [undefined], the call resolves with the empty object.
    [listAccounts] has no such guard: when the body, its
    [AccountListResponse] or its [Accounts] is [null] or [undefined], the
    call rejects with a [TypeError]. *)
Theorem viewPortfolio_tolerates_missing_path `{Platform}
    (this : ETrade) (args : obj) (env : Env) (st : state) (s u : obj)
    (resp : Axios.Response) :
  heap st !! settings this = Some s ->
  Js.get "urls" s = VObj u ->
  admitted this env = true ->
  transport env = Axios.Resolved resp ->
  let body := Axios.data resp in
  (Js.nullish body = true
   \/ Js.nullish (optProp body "PortfolioResponse") = true
   \/ Js.nullish (optProp (optProp body "PortfolioResponse") "AccountPortfolio") = true ->
   fst (viewPortfolio this args env st) = Ok (VObj []))
  /\
  (Js.nullish body = true
   \/ Js.nullish (optProp body "AccountListResponse") = true
   \/ Js.nullish (optProp (optProp body "AccountListResponse") "Accounts") = true ->
   exists what, fst (listAccounts this env st) = Throw (TypeError what)).
Proof.
  intros Hs Hu Hadm Htr body. split; intros Hmiss.
  - change (viewPortfolio this args env st) with (invoke this (ViewPortfolio args) env st).
    erewrite invoke_resolved by first [eassumption | reflexivity].
    cbn [unwrap]. fold body. f_equal. unfold Js.or.
    destruct Hmiss as [Hn|[Hn|Hn]].
    + destruct body; try discriminate; reflexivity.
    + destruct (optProp body "PortfolioResponse"); try discriminate; reflexivity.
    + destruct (optProp (optProp body "PortfolioResponse") "AccountPortfolio");
        try discriminate; reflexivity.
  - change (listAccounts this env st) with (invoke this ListAccounts env st).
    erewrite invoke_resolved by first [eassumption | reflexivity].
    cbn [unwrap]. fold body.
    destruct Hmiss as [Hn|[Hn|Hn]].
    + destruct body; try discriminate; cbn [prop andThen]; eauto.
    + destruct body as [| | | | | |o]; cbn [prop andThen optProp] in *; eauto.
      destruct (Js.get "AccountListResponse" o); try discriminate;
        cbn [prop andThen]; eauto.
    + destruct body as [| | | | | |o]; cbn [prop andThen optProp] in *; eauto.
      destruct (Js.get "AccountListResponse" o) as [| | | | | |a];
        cbn [prop andThen optProp] in *; eauto.
      destruct (Js.get "Accounts" a); try discriminate; cbn [prop andThen]; eauto.
Qed.

Lemma viewPortfolio_tolerates_missing_path_witness :
  let resp := Sample.respond 200 "OK" (VObj [("PortfolioResponse", VNull)]) in
  let env := Sample.env (Axios.Resolved resp) in
  heap Sample.store !! settings Sample.this = Some (Deepmerge.merge defaults Sample.options) /\
  fst (viewPortfolio Sample.this [("accountIdKey", VStr "abc")] env Sample.store)
  = Ok (VObj []) /\
  exists what, fst (listAccounts Sample.this env Sample.store) = Throw (TypeError what).
Proof.
  intros resp env. split; [reflexivity|].
  destruct (viewPortfolio_tolerates_missing_path Sample.this
              [("accountIdKey", VStr "abc")] env Sample.store
              (Deepmerge.merge defaults Sample.options)
              [ ("oauth", VStr "https://api.etrade.com/oauth/");
                ("prod", VStr "https://api.etrade.com/v1/");
                ("dev", VStr "https://apisb.etrade.com/v1/") ]
              resp eq_refl eq_refl eq_refl eq_refl) as [Hview Hlist].
  split.
  - apply Hview. right. left. reflexivity.
  - apply Hlist. right. left. reflexivity.
Defined.

(** C10. Whenever the call is admitted and the transport resolves,
    [getAccessToken] resolves to an object with exactly the two fields
    [oauth_token] and [oauth_token_secret], each the string coercion of the
    field of the same name in the parsed response; a field the response
    lacks comes out as the string "undefined". *)
Theorem getAccessToken_coerces_to_strings `{Platform}
    (this : ETrade) (options : obj) (env : Env) (st : state) (s u : obj)
    (resp : Axios.Response) :
  heap st !! settings this = Some s ->
  Js.get "urls" s = VObj u ->
  admitted this env = true ->
  transport env = Axios.Resolved resp ->
  let results := parseQueryString (Axios.data resp) in
  fst (getAccessToken this options env st)
  = Ok (VObj [ ("oauth_token", VStr (Js.toString (Js.get "oauth_token" results)));
               ("oauth_token_secret",
                VStr (Js.toString (Js.get "oauth_token_secret" results))) ])
  /\ (Js.lookup "oauth_token" results = None ->
      Js.toString (Js.get "oauth_token" results) = "undefined")
  /\ (Js.lookup "oauth_token_secret" results = None ->
      Js.toString (Js.get "oauth_token_secret" results) = "undefined").
Proof.
  intros Hs Hu Hadm Htr results.
  split; [|split; intros Hl; unfold Js.get; now rewrite Hl].
  rewrite (getAccessToken_run _ _ _ _ _ _ Hs Hu). unfold oauthInvoked.
  cbv zeta. rewrite Hadm. unfold settle. rewrite Htr. reflexivity.
Qed.

Lemma getAccessToken_coerces_to_strings_witness :
  let resp := Sample.respond 200 "OK" (VStr "oauth_token=abc") in
  let env := Sample.env (Axios.Resolved resp) in
  heap Sample.store !! settings Sample.this = Some (Deepmerge.merge defaults Sample.options) /\
  fst (getAccessToken Sample.this
         [("key", VStr "rk"); ("secret", VStr "rs"); ("code", VStr "12345")]
         env Sample.store)
  = Ok (VObj [ ("oauth_token", VStr "abc"); ("oauth_token_secret", VStr "undefined") ]).
Proof.
  intros resp env. split; [reflexivity|].
  refine (proj1 (getAccessToken_coerces_to_strings Sample.this
           [("key", VStr "rk"); ("secret", VStr "rs"); ("code", VStr "12345")]
           env Sample.store (Deepmerge.merge defaults Sample.options)
           [ ("oauth", VStr "https://api.etrade.com/oauth/");
             ("prod", VStr "https://api.etrade.com/v1/");
             ("dev", VStr "https://apisb.etrade.com/v1/") ]
           resp eq_refl eq_refl eq_refl eq_refl)).
Defined.

(* ================================================================== *)
(** * The signer's working copy *)
(* ================================================================== *)

Section CopyFacts.

Lemma in_keys_set k v o : In k (Js.keys (Js.set k v o)).
Proof.
  induction o as [|[k' v'] o IH]; cbn [Js.set Js.keys map fst In]; auto.
  destruct (String.eqb k k') eqn:E; cbn [map fst In].
  - apply String.eqb_eq in E. auto.
  - right. exact IH.
Qed.

Lemma keys_set_mono k v o x : In x (Js.keys o) -> In x (Js.keys (Js.set k v o)).
Proof.
  induction o as [|[k' v'] o IH]; cbn [Js.set Js.keys map fst In]; [tauto|].
  destruct (String.eqb k k'); cbn [map fst In]; intuition.
Qed.

Lemma NoDup_keys_set k v o :
  List.NoDup (Js.keys o) -> List.NoDup (Js.keys (Js.set k v o)).
Proof.
  induction o as [|[k' v'] o IH]; cbn [Js.set Js.keys map fst]; intros Hnd.
  - repeat constructor. intros [].
  - apply List.NoDup_cons_iff in Hnd as [Hnotin Hnd].
    destruct (String.eqb k k') eqn:E; cbn [map fst].
    + constructor; assumption.
    + constructor; [|now apply IH].
      intros Hin. destruct (keys_set _ _ _ _ Hin) as [->|Hin']; [|tauto].
      now rewrite String.eqb_refl in E.
Qed.

Lemma keys_delete k o x : In x (Js.keys (Js.delete k o)) -> In x (Js.keys o).
Proof.
  induction o as [|[k' v'] o IH]; cbn [Js.delete Js.keys map fst In]; [tauto|].
  destruct (String.eqb k k'); cbn [map fst In]; intuition.
Qed.

Lemma NoDup_keys_delete k o :
  List.NoDup (Js.keys o) -> List.NoDup (Js.keys (Js.delete k o)).
Proof.
  induction o as [|[k' v'] o IH]; cbn [Js.delete Js.keys map fst]; intros Hnd; auto.
  apply List.NoDup_cons_iff in Hnd as [Hnotin Hnd].
  destruct (String.eqb k k'); cbn [map fst]; auto.
  constructor; auto. intros Hin. apply Hnotin. eapply keys_delete; eauto.
Qed.

Lemma NoDup_keys_mergeEntry target dest kv :
  List.NoDup (Js.keys dest) ->
  List.NoDup (Js.keys (Deepmerge.mergeEntry target dest kv)).
Proof.
  intros Hnd. unfold Deepmerge.mergeEntry. cbv zeta.
  destruct (Deepmerge.propertyIsUnsafe _ _); auto.
  destruct (_ && _); now apply NoDup_keys_set.
Qed.

Lemma NoDup_keys_cloneProps target :
  List.NoDup (Js.keys (Deepmerge.cloneProps target)).
Proof.
  destruct target as [| | | | | |t]; try constructor.
  unfold Deepmerge.cloneProps.
  assert (Hgen : forall dest,
    List.NoDup (Js.keys dest) ->
    List.NoDup (Js.keys (fold_left
      (fun dest kv => Js.set (fst kv) (Deepmerge.clone (snd kv)) dest) t dest))).
  { induction t as [|kv t IH]; intros dest Hnd; cbn [fold_left]; auto.
    apply IH. now apply NoDup_keys_set. }
  apply Hgen. constructor.
Qed.

(** A merged object has each key once. *)
Lemma NoDup_keys_merge target source :
  List.NoDup (Js.keys (Deepmerge.merge target source)).
Proof.
  rewrite merge_unfold.
  generalize (NoDup_keys_cloneProps (VObj target)).
  generalize (Deepmerge.cloneProps (VObj target)) as dest.
  induction source as [|kv source IH]; intros dest Hnd; cbn [fold_left]; auto.
  apply IH. now apply NoDup_keys_mergeEntry.
Qed.

(** The copy [merge({}, r)] holds a clone of every property of [r]. *)
Lemma get_merge_empty k r :
  List.NoDup (Js.keys r) ->
  Deepmerge.isPrototypeKey k = false ->
  Js.get k (Deepmerge.merge [] r) = Deepmerge.clone (Js.get k r).
Proof.
  intros Hnd Hk.
  destruct (Js.lookup k r) as [v|] eqn:Hl.
  - rewrite (get_merge_in k v) by
      first [exact Hnd | exact Hl | cbn [Deepmerge.propertyIsUnsafe]; now rewrite Hk].
    cbn [Deepmerge.propertyIsOnObject Js.has Js.lookup]. rewrite Hk.
    cbn [orb andb]. unfold Js.get. now rewrite Hl.
  - rewrite get_merge_notin by exact Hl.
    unfold Js.get. now rewrite Hl.
Qed.

End CopyFacts.

Section SignedFacts.
Context `{Platform}.


Lemma url_join_nobase b :
  Js.join "" [Js.or VUndefined (VStr ""); Js.or (VStr b) (VStr "")] = b.
Proof.
  destruct b; reflexivity.
Qed.

Lemma signerCopy_get_url r omit :
  List.NoDup (Js.keys r) ->
  Js.get "url" (signerCopy r omit)
  = VStr (Js.join "" [ Js.or (Deepmerge.clone (Js.get "baseURL" r)) (VStr "");
                       Js.or (Deepmerge.clone (Js.get "url" r)) (VStr "") ]).
Proof.
  intros Hnd. unfold signerCopy. cbv zeta.
  destruct omit; rewrite ?(get_delete_ne "data") by discriminate;
    rewrite (get_delete_ne "baseURL") by discriminate;
    rewrite get_set_eq;
    now rewrite !get_merge_empty by first [exact Hnd | reflexivity].
Qed.


Lemma signerCopy_url_nobase r omit path :
  List.NoDup (Js.keys r) ->
  Js.get "baseURL" r = VUndefined ->
  Js.get "url" r = VStr path ->
  Js.get "url" (signerCopy r omit) = VStr path.
Proof.
  intros Hnd Hb Hp. rewrite signerCopy_get_url by exact Hnd.
  rewrite Hb, Hp. cbn [Deepmerge.clone]. now rewrite url_join_nobase.
Qed.

Lemma signerCopy_method r omit :
  List.NoDup (Js.keys r) ->
  Js.get "method" (signerCopy r omit) = Deepmerge.clone (Js.get "method" r).
Proof.
  intros Hnd. unfold signerCopy. cbv zeta.
  destruct omit; rewrite ?(get_delete_ne "data") by discriminate;
    rewrite (get_delete_ne "baseURL") by discriminate;
    rewrite (get_set_ne "url") by discriminate;
    now rewrite get_merge_empty by first [exact Hnd | reflexivity].
Qed.

(** With [omit], the working copy has no [data]. *)
Lemma signerCopy_data_omit r : Js.get "data" (signerCopy r true) = VUndefined.
Proof. unfold signerCopy. cbv zeta. apply get_delete_eq. Qed.

Lemma signerCopy_data_keep r :
  List.NoDup (Js.keys r) ->
  Js.get "data" (signerCopy r false) = Deepmerge.clone (Js.get "data" r).
Proof.
  intros Hnd. unfold signerCopy. cbv zeta.
  rewrite (get_delete_ne "baseURL") by discriminate.
  rewrite (get_set_ne "url") by discriminate.
  now rewrite get_merge_empty by first [exact Hnd | reflexivity].
Qed.

(** Without [data] the signer signs the url's query parameters only. *)
Lemma authorizeData_absent r :
  Js.get "data" r = VUndefined ->
  authorizeData r = OAuth.mergeObject [] (deParamUrl (Js.get "url" r)).
Proof.
  intros Hd. unfold authorizeData. rewrite Hd. cbn [Js.truthy]. cbv zeta iota.
  rewrite get_set_eq. now rewrite (get_set_ne "data") by discriminate.
Qed.

Lemma authorizeData_object r d :
  Js.get "data" r = VObj d ->
  authorizeData r = OAuth.mergeObject d (deParamUrl (Js.get "url" r)).
Proof.
  intros Hd. unfold authorizeData. rewrite Hd. cbn [Js.truthy]. cbv zeta iota.
  now rewrite Hd.
Qed.

Lemma signed_get_ne this s r token omit env k :
  k <> "params" -> Js.get k (signed this s r token omit env) = Js.get k r.
Proof. intros Hk. unfold signed. cbv zeta. apply get_set_ne. congruence. Qed.

Lemma signed_params this s r token omit env :
  Js.get "params" (signed this s r token omit env)
  = VObj (let authorization :=
            authorizeResult (oauth this) (signerCopy r omit) (resolveToken s token) env in
          copied authorization (signedKeys authorization omit) []).
Proof. unfold signed. cbv zeta. apply get_set_eq. Qed.

Lemma signature_is_copied o r token env omit :
  In "oauth_signature" (signedKeys (authorizeResult o r token env) omit).
Proof.
  unfold signedKeys. apply filter_In. split.
  - unfold authorizeResult. cbv zeta. apply in_keys_set.
  - now destruct omit.
Qed.

(** The [oauth_signature] among the parameters of a signed descriptor. *)
Lemma signed_signature this s r token omit env ps :
  Js.get "params" (signed this s r token omit env) = VObj ps ->
  Js.get "oauth_signature" ps
  = VStr (OAuth.getSignature (oauth this)
            (Js.get "method" (signerCopy r omit)) (Js.get "url" (signerCopy r omit))
            (OAuth.tokenSecret (resolveToken s token))
            (OAuth.mergeObject (OAuth.oauthData (oauth this) (resolveToken s token) env)
               (authorizeData (signerCopy r omit)))).
Proof.
  rewrite signed_params. cbv zeta. intros [= <-].
  rewrite copied_get_in by apply signature_is_copied.
  unfold authorizeResult. cbv zeta. apply get_set_eq.
Qed.


Lemma lookup_set_mono k v o x : Js.lookup x o <> None -> Js.lookup x (Js.set k v o) <> None.
Proof.
  intros Hx. destruct (string_dec k x) as [->|Hne].
  - now rewrite lookup_set_eq.
  - now rewrite lookup_set_ne.
Qed.

Lemma lookup_copied_in authorization ks : forall ps k,
  In k ks \/ Js.lookup k ps <> None ->
  Js.lookup k (copied authorization ks ps) <> None.
Proof.
  induction ks as [|k0 ks IH]; intros ps k Hk; cbn [copied fold_left In] in *.
  - tauto.
  - apply IH. destruct Hk as [[->|Hk]|Hk]; auto.
    + right. now rewrite lookup_set_eq.
    + right. now apply lookup_set_mono.
Qed.

Lemma keys_mergeObject_mono o1 o2 x :
  In x (Js.keys o1) -> In x (Js.keys (OAuth.mergeObject o1 o2)).
Proof.
  unfold OAuth.mergeObject. revert o1.
  induction o2 as [|kv o2 IH]; intros o1 Hx; cbn [fold_left]; auto.
  apply IH. now apply keys_set_mono.
Qed.

Lemma oauthKeys_in_authorization o r token env k :
  In k oauthKeys -> In k (Js.keys (authorizeResult o r token env)).
Proof.
  intros Hk. unfold authorizeResult. cbv zeta.
  assert (Hbase : In k (Js.keys (OAuth.oauthData o token env)) \/ k = "oauth_signature").
  { unfold oauthKeys in Hk. cbn [In] in Hk. unfold OAuth.oauthData. cbv zeta.
    destruct (Js.is_undefined _).
    - cbn [Js.keys map fst In]. intuition.
    - destruct Hk as [<-|[<-|[<-|[<-|[<-|[<-|[]]]]]]]; auto;
        left; apply keys_set_mono; cbn [Js.keys map fst In]; intuition. }
  destruct Hbase as [Hb| ->].
  - apply keys_set_mono. now apply keys_mergeObject_mono.
  - apply in_keys_set.
Qed.

(** Every oauth parameter is among the parameters of a signed
    descriptor. *)
Lemma signed_oauth_present this s r token omit env ps k :
  Js.get "params" (signed this s r token omit env) = VObj ps ->
  In k oauthKeys -> Js.lookup k ps <> None.
Proof.
  rewrite signed_params. cbv zeta. intros [= <-] Hk.
  apply lookup_copied_in. left. unfold signedKeys. apply filter_In. split.
  - now apply oauthKeys_in_authorization.
  - unfold oauthKeys in Hk. cbn [In] in Hk.
    destruct Hk as [<-|[<-|[<-|[<-|[<-|[<-|[]]]]]]]; now destruct omit.
Qed.

End SignedFacts.

(* ================================================================== *)
(** * What [signRequest] copies into [params] *)
(* ================================================================== *)

Section AuthorizationFacts.
Context `{Platform}.

Lemma lookup_of_get (o : obj) k v :
  Js.lookup k o <> None -> Js.get k o = v -> Js.lookup k o = Some v.
Proof.
  unfold Js.get. destruct (Js.lookup k o); [now intros _ ->|tauto].
Qed.

(** A copied key holds the authorization's value. *)
Lemma lookup_copied_value authorization ks ps k :
  In k ks -> Js.lookup k (copied authorization ks ps) = Some (Js.get k authorization).
Proof.
  intros Hk. apply lookup_of_get.
  - apply lookup_copied_in. now left.
  - now apply copied_get_in.
Qed.

(** A key that is not copied is as it was. *)
Lemma lookup_copied_notin authorization ks : forall ps k,
  ~ In k ks -> Js.lookup k (copied authorization ks ps) = Js.lookup k ps.
Proof.
  induction ks as [|k0 ks IH]; intros ps k Hk; cbn [copied fold_left In] in *; auto.
  change (fold_left _ ks ?p) with (copied authorization ks p).
  rewrite IH by tauto. apply lookup_set_ne. tauto.
Qed.

(** The keys [signRequest] selects: all of them, or with [omit] those that
    start with "oauth". *)
Lemma in_signedKeys authorization omit k :
  In k (signedKeys authorization omit)
  <-> In k (Js.keys authorization) /\ (omit = false \/ String.prefix "oauth" k = true).
Proof.
  unfold signedKeys. rewrite filter_In.
  destruct omit; cbn [negb orb]; intuition discriminate.
Qed.

Lemma oauthKeys_selected o r token env omit k :
  In k oauthKeys -> In k (signedKeys (authorizeResult o r token env) omit).
Proof.
  intros Hk. apply in_signedKeys. split.
  - now apply oauthKeys_in_authorization.
  - right. unfold oauthKeys in Hk. cbn [In] in Hk.
    destruct Hk as [<-|[<-|[<-|[<-|[<-|[<-|[]]]]]]]; reflexivity.
Qed.

(** A token with a key puts [oauth_token] among the keys of the
    authorization, and among the selected ones. *)
Lemma oauth_token_in_authorization o r key secret env :
  Js.is_undefined key = false ->
  In "oauth_token" (Js.keys (authorizeResult o r (Some (key, secret)) env)).
Proof.
  intros Hkey. unfold authorizeResult. cbv zeta.
  apply keys_set_mono, keys_mergeObject_mono.
  unfold OAuth.oauthData. cbv zeta. rewrite Hkey. apply in_keys_set.
Qed.

Lemma oauth_token_selected o r key secret env omit :
  Js.is_undefined key = false ->
  In "oauth_token" (signedKeys (authorizeResult o r (Some (key, secret)) env) omit).
Proof.
  intros Hkey. apply in_signedKeys. split.
  - now apply oauth_token_in_authorization.
  - now right.
Qed.

(** [signRequest] on a descriptor whose [params] is falsy or an object:
    it returns, and [params] is what was there (or the empty object) with
    the selected keys of the authorization copied in. *)
Lemma signRequestLeaves_object this s r token omit env ps0 :
  (if Js.truthy (Js.get "params" r) then Js.get "params" r else VObj []) = VObj ps0 ->
  signRequestLeaves this s r token omit env
  = (Ok tt,
     let authorization :=
       authorizeResult (oauth this) (signerCopy r omit) (resolveToken s token) env in
     Js.set "params" (VObj (copied authorization (signedKeys authorization omit) ps0)) r).
Proof.
  intros Hp. unfold signRequestLeaves. cbv zeta.
  destruct (Js.truthy (Js.get "params" r)).
  - now rewrite (assignParams_object _ _ _ _ Hp).
  - injection Hp as <-.
    erewrite assignParams_object by apply get_set_eq.
    now rewrite set_set_same.
Qed.

(** Every selected key of the authorization is among the parameters of a
    signed descriptor, with the authorization's value. *)
Lemma signed_copies this s r token omit env ps k :
  Js.get "params" (signed this s r token omit env) = VObj ps ->
  let authorization :=
    authorizeResult (oauth this) (signerCopy r omit) (resolveToken s token) env in
  In k (signedKeys authorization omit) ->
  Js.lookup k ps = Some (Js.get k authorization).
Proof.
  rewrite signed_params. cbv zeta. intros [= <-] Hk.
  now apply lookup_copied_value.
Qed.

(** With the access token of the settings defined, [oauth_token] is among
    the parameters of a descriptor signed with it. *)
Lemma signed_oauth_token this s r omit env ps :
  Js.get "params" (signed this s r TokenUndefined omit env) = VObj ps ->
  Js.is_undefined (Js.get "accessToken" s) = false ->
  Js.lookup "oauth_token" ps <> None.
Proof.
  intros Hps Hkey.
  rewrite (signed_copies _ _ _ _ _ _ _ _ Hps); [discriminate|].
  cbn [resolveToken]. now apply oauth_token_selected.
Qed.

Lemma keys_mergeObject o2 : forall o1 x,
  In x (Js.keys (OAuth.mergeObject o1 o2)) -> In x (Js.keys o1) \/ In x (Js.keys o2).
Proof.
  unfold OAuth.mergeObject.
  induction o2 as [|[k v] o2 IH]; intros o1 x Hx; cbn [fold_left fst snd] in Hx.
  - now left.
  - destruct (IH _ _ Hx) as [Hin|Hin].
    + destruct (keys_set _ _ _ _ Hin) as [->|Hin']; [|now left].
      right. cbn [Js.keys map fst In]. now left.
    + right. cbn [Js.keys map fst In]. now right.
Qed.

(** Signed with no token, a descriptor gets no [oauth_token] unless its own
    data or url brings one. *)
Lemma signed_no_token this s r omit env ps :
  Js.get "params" (signed this s r (TokenBool false) omit env) = VObj ps ->
  ~ In "oauth_token" (Js.keys (authorizeData (signerCopy r omit))) ->
  Js.lookup "oauth_token" ps = None.
Proof.
  rewrite signed_params. cbv zeta. intros [= <-] Hdata.
  rewrite lookup_copied_notin; [reflexivity|].
  rewrite in_signedKeys. intros [Hin _].
  unfold authorizeResult in Hin. cbv zeta in Hin.
  apply keys_set in Hin as [Hin|Hin]; [discriminate|].
  apply keys_mergeObject in Hin as [Hin|Hin]; [|tauto].
  cbn in Hin. intuition discriminate.
Qed.

End AuthorizationFacts.

(* ================================================================== *)
(** * What [signRequest] changes *)
(* ================================================================== *)

Section FrameFacts.
Context `{Platform}.

Lemma signRequestLeaves_frame this s r token omit env k :
  k <> "params" ->
  Js.get k (snd (signRequestLeaves this s r token omit env)) = Js.get k r.
Proof.
  intros Hk. unfold signRequestLeaves. cbv zeta.
  rewrite assignParams_frame by exact Hk.
  destruct (Js.truthy (Js.get "params" r)); auto.
  apply get_set_ne. congruence.
Qed.

Lemma signRequestLeaves_others this s r token omit env :
  Js.delete "params" (snd (signRequestLeaves this s r token omit env))
  = Js.delete "params" r.
Proof.
  unfold signRequestLeaves. cbv zeta. rewrite assignParams_others.
  destruct (Js.truthy (Js.get "params" r)); auto.
  apply delete_set_same.
Qed.

Lemma signRequestLeaves_params this s r token omit env :
  fst (signRequestLeaves this s r token omit env) = Ok tt ->
  exists ps, Js.get "params" (snd (signRequestLeaves this s r token omit env)) = VObj ps.
Proof.
  unfold signRequestLeaves. cbv zeta.
  set (authorization := authorizeResult _ _ _ _).
  set (r1 := if Js.truthy (Js.get "params" r) then r else _).
  pose proof (signature_is_copied (oauth this) (signerCopy r omit)
                (resolveToken s token) env omit) as Hin.
  fold authorization in Hin.
  destruct (signedKeys authorization omit) as [|k ks]; [destruct Hin|].
  destruct (Js.get "params" r1) as [| | | | | |ps] eqn:Hp;
    cbn [assignParams]; rewrite Hp; try discriminate.
  intros _. erewrite assignParams_object by apply get_set_eq.
  cbn [snd]. rewrite get_set_eq. eauto.
Qed.

End FrameFacts.

(** C8. [signRequest] changes one thing in the descriptor it is given:
    [params].  When [params] is absent (or falsy) it is created, when it is
    an object it is kept, and in both cases the call returns and the
    authorization parameters are added to it: every key of the authorization
    -- with [omit], every key of it that starts with "oauth" -- is in
    [params] afterwards with the authorization's value, the six oauth
    parameters and, for a token with a key, [oauth_token] among them; no
    other parameter is added or changed.  Every other property of the
    descriptor -- [method], [url], [baseURL], [headers], [data] -- reads as
    before, and the other properties are the same list, in the same order.
    The signer's working copy is a new object, appended to the store; with
    [omit] it is that copy which loses its [data], the descriptor keeps its
    own.  No other object of the store is touched. *)
Theorem signRequest_mutates_only_params `{Platform}
    (this : ETrade) (request : nat) (token : tokenArg) (omit : bool) (env : Env)
    (st : state) (r s : obj) :
  heap st !! request = Some r ->
  heap st !! settings this = Some s ->
  let out := signRequest this request token omit env st in
  let authorization :=
    authorizeResult (oauth this) (signerCopy r omit) (resolveToken s token) env in
  exists r',
    heap (snd out)
    = (<[request := r']> (heap st) ++ [authorizeLeaves (signerCopy r omit)])%list
    /\ heap (snd out) !! request = Some r'
    /\ (forall k, k <> "params" -> Js.get k r' = Js.get k r)
    /\ Js.delete "params" r' = Js.delete "params" r
    /\ (fst out = Ok tt -> exists ps, Js.get "params" r' = VObj ps)
    /\ (omit = true ->
        Js.get "data" (signerCopy r omit) = VUndefined /\ Js.get "data" r' = Js.get "data" r)
    /\ (forall l, l <> request -> l < length (heap st) ->
        heap (snd out) !! l = heap st !! l)
    /\ _id (snd out) = _id st
    /\ wire (snd out) = wire st
    /\ (forall ps0,
          (Js.truthy (Js.get "params" r) = false /\ ps0 = [])
          \/ Js.get "params" r = VObj ps0 ->
          fst out = Ok tt
          /\ exists ps,
               Js.get "params" r' = VObj ps
               /\ (forall k, In k (Js.keys authorization) ->
                     omit = false \/ String.prefix "oauth" k = true ->
                     Js.lookup k ps = Some (Js.get k authorization))
               /\ (forall k, In k oauthKeys ->
                     Js.lookup k ps = Some (Js.get k authorization))
               /\ (forall key secret,
                     resolveToken s token = Some (key, secret) ->
                     Js.is_undefined key = false ->
                     Js.lookup "oauth_token" ps
                     = Some (Js.get "oauth_token" authorization))
               /\ (forall k,
                     ~ (In k (Js.keys authorization)
                        /\ (omit = false \/ String.prefix "oauth" k = true)) ->
                     Js.lookup k ps = Js.lookup k ps0)).
Proof.
  intros Hr Hs out authorization.
  assert (Hlt : request < length (heap st)) by (eapply lookup_lt_Some; eauto).
  subst out. rewrite (signRequest_run _ _ _ _ _ _ _ _ Hr Hs). cbn [fst snd heap withHeap].
  exists (snd (signRequestLeaves this s r token omit env)).
  split; [reflexivity|].
  split.
  { rewrite lookup_app_l by (rewrite length_insert; exact Hlt).
    now apply list_lookup_insert_eq. }
  split; [intros k Hk; now apply signRequestLeaves_frame|].
  split; [apply signRequestLeaves_others|].
  split; [apply signRequestLeaves_params|].
  split.
  { intros ->. split; [apply signerCopy_data_omit|].
    apply signRequestLeaves_frame. discriminate. }
  split.
  { intros l Hne Hl.
    rewrite lookup_app_l by (rewrite length_insert; exact Hl).
    apply list_lookup_insert_ne. congruence. }
  split; [reflexivity|]. split; [reflexivity|].
  intros ps0 Hp0.
  assert (Hp : (if Js.truthy (Js.get "params" r) then Js.get "params" r else VObj [])
               = VObj ps0).
  { destruct Hp0 as [[-> ->]| ->]; reflexivity. }
  rewrite (signRequestLeaves_object _ _ _ _ _ _ _ Hp). cbv zeta. cbn [fst snd].
  fold authorization.
  split; [reflexivity|].
  eexists. split; [apply get_set_eq|].
  split; [|split; [|split]].
  - intros k Hk Hsel. apply lookup_copied_value. now apply in_signedKeys.
  - intros k Hk. apply lookup_copied_value. now apply oauthKeys_selected.
  - intros key secret Htok Hkey. apply lookup_copied_value.
    subst authorization. rewrite Htok. now apply oauth_token_selected.
  - intros k Hk. apply lookup_copied_notin. now rewrite in_signedKeys.
Qed.

Lemma signRequest_mutates_only_params_witness :
  let body := VObj [("PreviewOrderRequest", VObj [("orderType", VStr "EQ")])] in
  let r := [ ("method", VStr "POST");
             ("baseURL", VStr "https://apisb.etrade.com/v1/");
             ("url", VStr "accounts/abc/orders/preview.json");
             ("data", body) ] in
  let st := {| heap := [Deepmerge.merge defaults Sample.options; r];
               _id := 0; wire := [] |} in
  let out := signRequest Sample.this 1 TokenUndefined true
               (Sample.env (Axios.Resolved (Sample.respond 200 "OK" VNull))) st in
  heap st !! 1 = Some r /\
  heap st !! settings Sample.this = Some (Deepmerge.merge defaults Sample.options) /\
  exists r' ps,
    heap (snd out) !! 1 = Some r' /\ Js.get "data" r' = body
    /\ Js.get "params" r' = VObj ps
    /\ Js.lookup "oauth_consumer_key" ps = Some (VStr "ck").
Proof.
  intros body r st out.
  split; [reflexivity|]. split; [reflexivity|].
  destruct (signRequest_mutates_only_params Sample.this 1 TokenUndefined true
              (Sample.env (Axios.Resolved (Sample.respond 200 "OK" VNull))) st r
              (Deepmerge.merge defaults Sample.options) eq_refl eq_refl)
    as (r' & _ & Hat & Hframe & _ & _ & _ & _ & _ & _ & Hadds).
  destruct (Hadds [] (or_introl (conj eq_refl eq_refl)))
    as (_ & ps & Hps & _ & Hoauth & _).
  exists r', ps. split; [exact Hat|].
  split; [now rewrite Hframe by discriminate|].
  split; [exact Hps|].
  now rewrite (Hoauth "oauth_consumer_key" (or_introl eq_refl)).
Defined.

(* ================================================================== *)
(** * The mode and the base url *)
(* ================================================================== *)

Section ModeFacts.
Context `{Platform}.

Lemma invoked_heap this s c env st :
  exists ext, heap (snd (invoked this s c env st)) = (heap st ++ ext)%list.
Proof.
  unfold invoked.
  destruct (requestLiteral c); [|exists []; cbn; now rewrite app_nil_r].
  destruct (selectedURL s); [|exists []; cbn; now rewrite app_nil_r].
  cbv zeta. destruct (admitted this env); cbn [snd heap withHeap]; eauto.
Qed.

Lemma oauthInvoked_heap this s u name data token env k st :
  exists ext,
    heap (snd (oauthInvoked this s u name data token env k st)) = (heap st ++ ext)%list.
Proof.
  unfold oauthInvoked. cbv zeta.
  destruct (admitted this env); cbn [snd heap withHeap]; eauto.
Qed.

Lemma lookup_extended (h ext : list obj) l o :
  h !! l = Some o -> (h ++ ext)%list !! l = Some o.
Proof.
  intros Hl. rewrite lookup_app_l by (eapply lookup_lt_Some; eauto). exact Hl.
Qed.

End ModeFacts.

(** C6. A trading or market call sends at most one request, and its
    [baseURL] is the production url exactly when the settings' [mode] is
    ['prod'], the sandbox ([dev]) url otherwise; an admitted call whose
    arguments are well-formed does send it.  No method of the client -- API
    or OAuth -- changes the settings object, so the mode stays what the
    constructor stored until the caller assigns to the settings. *)
Theorem mode_selects_base_url `{Platform}
    (this : ETrade) (c : apiCall) (env : Env) (st : state) (s u : obj)
    (prodU devU : string) :
  heap st !! settings this = Some s ->
  Js.get "urls" s = VObj u ->
  Js.get "prod" u = VStr prodU ->
  Js.get "dev" u = VStr devU ->
  let st' := snd (invoke this c env st) in
  let selected := if Js.is_string (Js.get "mode" s) "prod" then prodU else devU in
  (wire st' = wire st
   \/ exists req, wire st' = (wire st ++ [req])%list
                  /\ Js.get "baseURL" req = VStr selected)
  /\ (admitted this env = true ->
      forall lit, requestLiteral c = Ok lit ->
      exists req, wire st' = (wire st ++ [req])%list
                  /\ Js.get "baseURL" req = VStr selected)
  /\ heap st' !! settings this = Some s
  /\ (forall options,
        heap (snd (getAccessToken this options env st)) !! settings this = Some s
        /\ heap (snd (renewAccessToken this options env st)) !! settings this = Some s
        /\ heap (snd (revokeAccessToken this options env st)) !! settings this = Some s)
  /\ heap (snd (requestToken this env st)) !! settings this = Some s.
Proof.
  intros Hs Hu Hprod Hdev st' selected.
  assert (Hsent : forall lit, requestLiteral c = Ok lit ->
            Js.get "baseURL"
              (signed this s (basicRequest s (VStr selected) (Some lit))
                 TokenUndefined (isWrite c) env) = VStr selected).
  { intros lit Hlit. rewrite signed_get_ne by discriminate.
    rewrite basicRequest_baseURL by (apply (lookup_params_literal c); exact Hlit).
    reflexivity. }
  assert (Hsel : selectedURL s = Ok (VStr selected)).
  { rewrite (selectedURL_object _ _ Hu). subst selected.
    destruct (Js.is_string (Js.get "mode" s) "prod"); congruence. }
  split; [|split; [|split; [|split]]].
  - subst st'. rewrite (invoke_run _ _ _ _ _ Hs). unfold invoked.
    destruct (requestLiteral c) as [lit|] eqn:Hlit; [|now left].
    rewrite Hsel. cbv zeta.
    destruct (admitted this env); [|now left].
    right. eexists. split; [reflexivity|]. now apply Hsent.
  - intros Hadm lit Hlit.
    subst st'. rewrite (invoke_run _ _ _ _ _ Hs). unfold invoked.
    rewrite Hlit, Hsel. cbv zeta. rewrite Hadm.
    eexists. split; [reflexivity|]. now apply Hsent.
  - subst st'. rewrite (invoke_run _ _ _ _ _ Hs).
    destruct (invoked_heap this s c env st) as [ext ->].
    now apply lookup_extended.
  - intros options.
    rewrite (getAccessToken_run _ _ _ _ _ _ Hs Hu).
    rewrite (renewAccessToken_run _ _ _ _ _ _ Hs Hu).
    rewrite (revokeAccessToken_run _ _ _ _ _ _ Hs Hu).
    repeat split;
      match goal with
      | |- heap (snd (oauthInvoked ?t ?s ?u ?n ?d ?tok ?e ?k ?st)) !! _ = _ =>
          destruct (oauthInvoked_heap t s u n d tok e k st) as [ext ->];
          now apply lookup_extended
      end.
  - rewrite (requestToken_run _ _ _ _ _ Hs Hu).
    match goal with
    | |- heap (snd (oauthInvoked ?t ?s ?u ?n ?d ?tok ?e ?k ?st)) !! _ = _ =>
        destruct (oauthInvoked_heap t s u n d tok e k st) as [ext ->];
        now apply lookup_extended
    end.
Qed.

Lemma mode_selects_base_url_witness :
  let env := Sample.env (Axios.Resolved (Sample.respond 200 "OK" (VObj []))) in
  let st' := snd (invoke Sample.this ListAccounts env Sample.store) in
  heap Sample.store !! settings Sample.this
  = Some (Deepmerge.merge defaults Sample.options) /\
  (exists req, wire st' = [req]
               /\ Js.get "baseURL" req = VStr "https://apisb.etrade.com/v1/") /\
  heap st' !! settings Sample.this = Some (Deepmerge.merge defaults Sample.options).
Proof.
  intros env st'. split; [reflexivity|].
  destruct (mode_selects_base_url Sample.this ListAccounts env Sample.store
              (Deepmerge.merge defaults Sample.options)
              [ ("oauth", VStr "https://api.etrade.com/oauth/");
                ("prod", VStr "https://api.etrade.com/v1/");
                ("dev", VStr "https://apisb.etrade.com/v1/") ]
              "https://api.etrade.com/v1/" "https://apisb.etrade.com/v1/"
              eq_refl eq_refl eq_refl eq_refl)
    as (_ & Hsend & Hkeep & _).
  split; [|exact Hkeep].
  destruct (Hsend eq_refl _ eq_refl) as (req & Hw & Hb).
  exists req. split; [exact Hw | exact Hb].
Defined.

(* ================================================================== *)
(** * The quote endpoint *)
(* ================================================================== *)

Section QuoteFacts.

Lemma join_strings sep names :
  Js.join sep (map VStr names) = String.concat sep names.
Proof.
  unfold Js.join. rewrite map_map. cbn [Js.toString].
  now rewrite map_id.
Qed.

End QuoteFacts.

(* ================================================================== *)
(** * The write endpoints *)
(* ================================================================== *)

Section WriteFacts.
Context `{Platform}.


End WriteFacts.




(* ================================================================== *)
(** * The request-token endpoint *)
(* ================================================================== *)

Section RequestTokenFacts.

Lemma is_string_true v s : Js.is_string v s = true <-> v = VStr s.
Proof.
  destruct v; cbn [Js.is_string]; split; try discriminate.
  - intros E. apply String.eqb_eq in E. now subst.
  - intros [= ->]. apply String.eqb_refl.
Qed.

End RequestTokenFacts.

(** C3.  [requestToken] sends one request shaped like a POST: it carries a
    payload, [data = {oauth_callback: 'oob'}], which is signed with the rest
    (its [method] field is the dispatcher's default, GET).  It goes to the
    OAuth url of the settings followed by [request_token] whatever the mode
    (the descriptor has no [baseURL]).  It is signed with
    no token: the signed parameters start from the five oauth parameters,
    without [oauth_token], the signing key is the consumer secret, [&],
    and the encoding of the empty string, and no [oauth_token] goes out
    among the query parameters (the url bringing none).  When the transport resolves, the
    call resolves to the string coercions of the parsed [oauth_token] and
    [oauth_token_secret], to [oauth_callback_confirmed] being [true] exactly
    when the parsed field is the string ['true'], and to the authorization
    url made of the settings' [key] and the parsed [oauth_token]. *)
Theorem requestToken_request `{Platform}
    (this : ETrade) (env : Env) (st : state) (s u : obj) (oauthU : string) :
  heap st !! settings this = Some s ->
  Js.get "urls" s = VObj u ->
  Js.get "oauth" u = VStr oauthU ->
  admitted this env = true ->
  exists req ps,
    wire (snd (requestToken this env st)) = (wire st ++ [req])%list
    /\ Js.get "method" req = VStr "GET"
    /\ Js.lookup "baseURL" req = None
    /\ Js.get "url" req = VStr (oauthU ++ "request_token")
    /\ Js.get "data" req = VObj [("oauth_callback", VStr "oob")]
    /\ Js.get "params" req = VObj ps
    /\ Js.get "oauth_signature" ps
       = VStr (hmacSha1Base64
                 (getBaseString (VStr "GET") (VStr (oauthU ++ "request_token"))
                    (OAuth.mergeObject
                       [ ("oauth_consumer_key", OAuth.consumer_key (oauth this));
                         ("oauth_nonce", VStr (nonce env));
                         ("oauth_signature_method", VStr "HMAC-SHA1");
                         ("oauth_timestamp", VNum (timestamp env));
                         ("oauth_version", VStr "1.0") ]
                       (OAuth.mergeObject [("oauth_callback", VStr "oob")]
                          (deParamUrl (VStr (oauthU ++ "request_token"))))))
                 (percentEncode (Js.toString (OAuth.consumer_secret (oauth this)))
                  ++ "&" ++ percentEncode ""))
    /\ (Js.lookup "oauth_token" (deParamUrl (VStr (oauthU ++ "request_token"))) = None ->
        Js.lookup "oauth_token" ps = None)
    /\ (forall resp, transport env = Axios.Resolved resp ->
        let results := parseQueryString (Axios.data resp) in
        let confirmed := Js.get "oauth_callback_confirmed" results in
        fst (requestToken this env st)
        = Ok (VObj
                [ ("oauth_token", VStr (Js.toString (Js.get "oauth_token" results)));
                  ("oauth_token_secret",
                   VStr (Js.toString (Js.get "oauth_token_secret" results)));
                  ("oauth_callback_confirmed", VBool (Js.is_string confirmed "true"));
                  ("url",
                   VStr ("https://us.etrade.com/e/t/etws/authorize?key="
                         ++ Js.toString (Js.get "key" s) ++ "&token="
                         ++ Js.toString (Js.get "oauth_token" results))) ])
        /\ (Js.is_string confirmed "true" = true <-> confirmed = VStr "true")).
Proof.
  intros Hs Hu Ho Hadm.
  rewrite (requestToken_run _ _ _ _ _ Hs Hu). unfold oauthInvoked.
  cbv zeta. rewrite Hadm, Ho. cbn [snd fst wire].
  set (b := if Js.is_string (Js.get "mode" s) "prod" then _ else _).
  set (r := oauthDescriptor s b (VStr oauthU) "request_token"
              (Some (VObj [("oauth_callback", VStr "oob")]))).
  set (req := signed this s r (TokenBool false) false env).
  assert (Hnd : List.NoDup (Js.keys r)).
  { unfold r, oauthDescriptor. cbv zeta.
    apply NoDup_keys_set, NoDup_keys_set, NoDup_keys_delete, NoDup_keys_merge. }
  assert (Hbase : Js.get "baseURL" r = VUndefined) by reflexivity.
  assert (Hurl : Js.get "url" r = VStr (oauthU ++ "request_token")) by reflexivity.
  assert (Hdata : Js.get "data" r = VObj [("oauth_callback", VStr "oob")]) by reflexivity.
  destruct (Js.get "params" req) as [| | | | | |ps] eqn:Hps;
    try (unfold req in Hps; rewrite signed_params in Hps; discriminate).
  exists req, ps.
  split; [reflexivity|].
  split; [unfold req; rewrite signed_get_ne by discriminate; reflexivity|].
  split.
  { unfold req, signed. cbv zeta. rewrite lookup_set_ne by discriminate. reflexivity. }
  split; [unfold req; rewrite signed_get_ne by discriminate; exact Hurl|].
  split; [unfold req; rewrite signed_get_ne by discriminate; exact Hdata|].
  split; [exact Hps|].
  split.
  { rewrite (signed_signature _ _ _ _ _ _ _ Hps).
    rewrite signerCopy_method by exact Hnd.
    rewrite (signerCopy_url_nobase _ _ _ Hnd Hbase Hurl).
    rewrite (authorizeData_object _ [("oauth_callback", VStr "oob")]).
    2:{ rewrite signerCopy_data_keep by exact Hnd. now rewrite Hdata. }
    rewrite (signerCopy_url_nobase _ _ _ Hnd Hbase Hurl).
    reflexivity. }
  split.
  { intros Hnone. apply (signed_no_token _ _ _ _ _ _ Hps).
    rewrite (authorizeData_object _ [("oauth_callback", VStr "oob")]).
    2:{ rewrite signerCopy_data_keep by exact Hnd. now rewrite Hdata. }
    rewrite (signerCopy_url_nobase _ _ _ Hnd Hbase Hurl).
    intros Hin. apply keys_mergeObject in Hin as [Hin|Hin].
    - cbn in Hin. intuition discriminate.
    - now apply lookup_in_keys in Hin. }
  intros resp Htr. split; [|apply is_string_true].
  unfold settle. rewrite Htr. reflexivity.
Qed.

Lemma requestToken_request_witness :
  let body := VStr "oauth_token=abc&oauth_token_secret=def&oauth_callback_confirmed=true" in
  let env := Sample.env (Axios.Resolved (Sample.respond 200 "OK" body)) in
  heap Sample.store !! settings Sample.this
  = Some (Deepmerge.merge defaults Sample.options) /\
  (exists req,
     wire (snd (requestToken Sample.this env Sample.store)) = [req]
     /\ Js.get "method" req = VStr "GET"
     /\ Js.get "url" req = VStr "https://api.etrade.com/oauth/request_token") /\
  fst (requestToken Sample.this env Sample.store)
  = Ok (VObj [ ("oauth_token", VStr "abc");
               ("oauth_token_secret", VStr "def");
               ("oauth_callback_confirmed", VBool true);
               ("url", VStr "https://us.etrade.com/e/t/etws/authorize?key=ck&token=abc") ]).
Proof.
  intros body env. split; [reflexivity|].
  destruct (requestToken_request Sample.this env Sample.store
              (Deepmerge.merge defaults Sample.options)
              [ ("oauth", VStr "https://api.etrade.com/oauth/");
                ("prod", VStr "https://api.etrade.com/v1/");
                ("dev", VStr "https://apisb.etrade.com/v1/") ]
              "https://api.etrade.com/oauth/"
              eq_refl eq_refl eq_refl eq_refl)
    as (req & ps & Hw & Hm & _ & Hu & _ & _ & _ & _ & Hres).
  split.
  - exists req. repeat (split; [assumption|]). exact Hu.
  - exact (proj1 (Hres _ eq_refl)).
Defined.

(* ================================================================== *)
(** * Further properties: arguments, accounting, errors *)
(* ================================================================== *)

Section CallFacts.
Context `{Platform}.

Lemma literal_keys c lit :
  requestLiteral c = Ok lit ->
  Js.lookup "headers" lit = None /\ Js.lookup "proxy" lit = None.
Proof.
  destruct c; cbn [requestLiteral];
    try (intros [= <-]; split; reflexivity).
  - destruct (numberOrJoined alertId); cbn [andThen]; [|discriminate].
    intros [= <-]; split; reflexivity.
  - destruct (stringOrJoined _); cbn [andThen]; [|discriminate].
    intros [= <-]; split; reflexivity.
Qed.

(** The request an accepted API call sends, and the state it leaves. *)
Lemma invoke_accepted this c env st s u lit :
  heap st !! settings this = Some s ->
  Js.get "urls" s = VObj u ->
  requestLiteral c = Ok lit ->
  admitted this env = true ->
  let b := if Js.is_string (Js.get "mode" s) "prod" then Js.get "prod" u
           else Js.get "dev" u in
  let r := basicRequest s b (Some lit) in
  let sent := signed this s r TokenUndefined (isWrite c) env in
  invoke this c env st
  = (andThen (settle env) (unwrap c),
     {| heap := (heap st ++ [sent; authorizeLeaves (signerCopy r (isWrite c))])%list;
        _id := (_id st + 1)%Z;
        wire := (wire st ++ [sent])%list |}).
Proof.
  intros Hs Hu Hlit Hadm. cbv zeta.
  rewrite (invoke_run _ _ _ _ _ Hs). unfold invoked.
  rewrite Hlit, (selectedURL_object _ _ Hu). cbv zeta. now rewrite Hadm.
Qed.

Lemma request_result this l env st :
  admitted this env = true -> fst (request this l env st) = settle env.
Proof.
  intros Hadm. unfold request. unfold admitted in Hadm.
  destruct (atLimit env && Js.truthy (snd (throttle this))); [discriminate|].
  unfold bind, nextId, read, send, settle. cbn [fst snd heap].
  destruct (transport env) as [r|err]; [reflexivity|].
  destruct (Axios.response err) as [r|]; [|reflexivity].
  destruct (normalize r); reflexivity.
Qed.

End CallFacts.

(** X1. [deleteAlert] with an id that is neither a number nor an array, and
    [getQuotes] with symbols that are neither a string nor an array, throw a
    [TypeError] before anything is built: no request is sent and the state
    is as it was. *)
Theorem bad_argument_sends_nothing `{Platform}
    (this : ETrade) (env : Env) (st : state) (alertId : value) (args : obj) :
  ((forall n, alertId <> VNum n) -> (forall l, alertId <> VArr l) ->
   exists what, deleteAlert this alertId env st = (Throw (TypeError what), st))
  /\
  ((forall x, Js.get "symbols" args <> VStr x) ->
   (forall l, Js.get "symbols" args <> VArr l) ->
   exists what, getQuotes this args env st = (Throw (TypeError what), st)).
Proof.
  split.
  - intros Hn Hl. unfold deleteAlert, bind, lift.
    destruct alertId; cbn [numberOrJoined]; eauto.
    + now destruct (Hn n).
    + now destruct (Hl elems).
  - intros Hx Hl. unfold getQuotes. cbv zeta. unfold bind, lift.
    destruct (Js.get "symbols" args); cbn [stringOrJoined]; eauto.
    + now destruct (Hx s).
    + now destruct (Hl elems).
Qed.

Lemma bad_argument_sends_nothing_witness :
  let env := Sample.env (Axios.Resolved (Sample.respond 200 "OK" (VObj []))) in
  (exists what,
     deleteAlert Sample.this (VStr "1000") env Sample.store
     = (Throw (TypeError what), Sample.store))
  /\ (exists what,
        getQuotes Sample.this [("detailFlag", VStr "ALL")] env Sample.store
        = (Throw (TypeError what), Sample.store)).
Proof.
  intros env.
  destruct (bad_argument_sends_nothing Sample.this env Sample.store (VStr "1000")
              [("detailFlag", VStr "ALL")]) as [Hd Hq].
  split.
  - apply Hd; intros; discriminate.
  - apply Hq; intros; discriminate.
Defined.

(** X2. An API call that is dispatched sends exactly one request, the
    descriptor it built and signed, and advances the call counter by one,
    whether the transport resolves or rejects.  It adds two objects to the
    store, that descriptor and the signer's working copy, and leaves every
    object already there, the settings among them, as it was. *)
Theorem api_call_accounting `{Platform}
    (this : ETrade) (c : apiCall) (env : Env) (st : state) (s u lit : obj) :
  heap st !! settings this = Some s ->
  Js.get "urls" s = VObj u ->
  requestLiteral c = Ok lit ->
  admitted this env = true ->
  let out := invoke this c env st in
  exists req copy,
    wire (snd out) = (wire st ++ [req])%list
    /\ heap (snd out) = (heap st ++ [req; copy])%list
    /\ heap (snd out) !! settings this = Some s
    /\ (forall l o, heap st !! l = Some o -> heap (snd out) !! l = Some o)
    /\ _id (snd out) = (_id st + 1)%Z.
Proof.
  intros Hs Hu Hlit Hadm out. subst out.
  rewrite (invoke_accepted _ _ _ _ _ _ _ Hs Hu Hlit Hadm).
  cbn [snd _id wire heap].
  eexists _, _. split; [reflexivity|]. split; [reflexivity|].
  split; [now apply lookup_extended|].
  split; [intros l o Hl; now apply lookup_extended | reflexivity].
Qed.

Lemma api_call_accounting_witness :
  let err := {| Axios.message := "socket hang up"; Axios.response := None |} in
  let env := Sample.env (Axios.Rejected err) in
  let out := invoke Sample.this ListAccounts env Sample.store in
  heap Sample.store !! settings Sample.this
  = Some (Deepmerge.merge defaults Sample.options) /\
  _id (snd out) = 1%Z /\ length (wire (snd out)) = 1 /\ length (heap (snd out)) = 3.
Proof.
  intros err env out. split; [reflexivity|].
  destruct (api_call_accounting Sample.this ListAccounts env Sample.store
              (Deepmerge.merge defaults Sample.options)
              [ ("oauth", VStr "https://api.etrade.com/oauth/");
                ("prod", VStr "https://api.etrade.com/v1/");
                ("dev", VStr "https://apisb.etrade.com/v1/") ]
              _ eq_refl eq_refl eq_refl eq_refl)
    as (req & copy & Hw & Hh & _ & _ & Hid).
  split; [exact Hid|].
  split; [fold out in Hw; now rewrite Hw | fold out in Hh; now rewrite Hh].
Defined.

(** X3. No API method catches or rewrites a failure: when the transport
    rejects, the method rejects with exactly the error [request] throws --
    the transport's own error when there is no response. *)
Theorem api_call_propagates_errors `{Platform}
    (this : ETrade) (c : apiCall) (env : Env) (st : state) (s u lit : obj)
    (err : Axios.Error) :
  heap st !! settings this = Some s ->
  Js.get "urls" s = VObj u ->
  requestLiteral c = Ok lit ->
  admitted this env = true ->
  transport env = Axios.Rejected err ->
  (forall l st', fst (invoke this c env st) = fst (request this l env st'))
  /\ (exists e, fst (invoke this c env st) = Throw e)
  /\ (Axios.response err = None ->
      fst (invoke this c env st) = Throw (TransportError err)).
Proof.
  intros Hs Hu Hlit Hadm Htr.
  rewrite (invoke_accepted _ _ _ _ _ _ _ Hs Hu Hlit Hadm). cbn [fst].
  assert (Hset : exists e, settle env = Throw e).
  { unfold settle. rewrite Htr. destruct (Axios.response err) as [r|]; eauto.
    destruct (normalize r); eauto. }
  destruct Hset as [e He].
  split; [|split].
  - intros l st'. rewrite (request_result _ _ _ _ Hadm). now rewrite He.
  - exists e. now rewrite He.
  - intros Hnone. unfold settle. now rewrite Htr, Hnone.
Qed.

Lemma api_call_propagates_errors_witness :
  let body := VObj [("Error", VObj [("code", VNum 1032);
                                    ("message", VStr "Invalid symbol")])] in
  let err := {| Axios.message := "Request failed with status code 400";
                Axios.response := Some (Sample.respond 400 "Bad Request" body) |} in
  let env := Sample.env (Axios.Rejected err) in
  heap Sample.store !! settings Sample.this
  = Some (Deepmerge.merge defaults Sample.options) /\
  fst (invoke Sample.this (LookupProduct (VStr "TSLA")) env Sample.store)
  = Throw (ETradeError (VStr "Invalid symbol") (VNum 1032) body).
Proof.
  intros body err env. split; [reflexivity|].
  rewrite (proj1 (api_call_propagates_errors Sample.this (LookupProduct (VStr "TSLA"))
                    env Sample.store (Deepmerge.merge defaults Sample.options)
                    [ ("oauth", VStr "https://api.etrade.com/oauth/");
                      ("prod", VStr "https://api.etrade.com/v1/");
                      ("dev", VStr "https://apisb.etrade.com/v1/") ]
                    _ err eq_refl eq_refl eq_refl eq_refl eq_refl) 0 Sample.store).
  reflexivity.
Defined.

(** X4. Every request an API method sends carries the client's User-Agent
    header and the settings' [proxy]; its method is PUT for [cancelOrder],
    [changePreviewedOrder] and [placeChangedOrder], POST for [placeOrder]
    and [previewOrder], DELETE for [deleteAlert], and the default GET for
    the other fourteen. *)
Theorem api_request_defaults `{Platform}
    (this : ETrade) (c : apiCall) (env : Env) (st : state) (s u lit : obj) :
  heap st !! settings this = Some s ->
  Js.get "urls" s = VObj u ->
  requestLiteral c = Ok lit ->
  admitted this env = true ->
  exists req,
    wire (snd (invoke this c env st)) = (wire st ++ [req])%list
    /\ Js.get "headers" req = VObj [("User-Agent", VStr userAgent)]
    /\ Js.get "proxy" req = Deepmerge.clone (Js.get "proxy" s)
    /\ Js.get "method" req
       = VStr match c with
              | CancelOrder _ | ChangePreviewedOrder _ | PlaceChangedOrder _ => "PUT"
              | PlaceOrder _ | PreviewOrder _ => "POST"
              | DeleteAlert _ => "DELETE"
              | _ => "GET"
              end.
Proof.
  intros Hs Hu Hlit Hadm.
  rewrite (invoke_accepted _ _ _ _ _ _ _ Hs Hu Hlit Hadm). cbn [snd wire].
  eexists. split; [reflexivity|].
  destruct (literal_keys c lit Hlit) as [Hh Hp].
  rewrite !signed_get_ne by discriminate. unfold basicRequest.
  split; [now rewrite get_merge_notin by exact Hh|].
  split; [now rewrite get_merge_notin by exact Hp|].
  destruct c; cbn [requestLiteral] in Hlit;
    try (injection Hlit as <-; reflexivity).
  - destruct (numberOrJoined alertId); cbn [andThen] in Hlit; [|discriminate].
    injection Hlit as <-. reflexivity.
  - destruct (stringOrJoined _); cbn [andThen] in Hlit; [|discriminate].
    injection Hlit as <-. reflexivity.
Qed.

Lemma api_request_defaults_witness :
  let env := Sample.env (Axios.Resolved (Sample.respond 200 "OK" (VObj []))) in
  heap Sample.store !! settings Sample.this
  = Some (Deepmerge.merge defaults Sample.options) /\
  exists req,
    wire (snd (invoke Sample.this (DeleteAlert (VArr [VNum 6; VNum 7])) env Sample.store))
    = [req]
    /\ Js.get "headers" req
       = VObj [("User-Agent", VStr "node-e-trade/v2.0.0 nodejs/v18.0.0")]
    /\ Js.get "proxy" req = VBool false
    /\ Js.get "method" req = VStr "DELETE".
Proof.
  intros env. split; [reflexivity|].
  exact (api_request_defaults Sample.this (DeleteAlert (VArr [VNum 6; VNum 7])) env
           Sample.store (Deepmerge.merge defaults Sample.options)
           [ ("oauth", VStr "https://api.etrade.com/oauth/");
             ("prod", VStr "https://api.etrade.com/v1/");
             ("dev", VStr "https://apisb.etrade.com/v1/") ]
           _ eq_refl eq_refl eq_refl eq_refl).
Defined.

(** X5. Two API calls made one after the other and both dispatched share
    nothing but the call counter: the second sends the request and returns
    the result it would have sent and returned had it been made first.  The
    two requests go out in call order and the counter ends two higher. *)
Theorem consecutive_calls_are_independent `{Platform}
    (this : ETrade) (c1 c2 : apiCall) (env1 env2 : Env) (st : state)
    (s u lit1 lit2 : obj) :
  heap st !! settings this = Some s ->
  Js.get "urls" s = VObj u ->
  requestLiteral c1 = Ok lit1 ->
  requestLiteral c2 = Ok lit2 ->
  admitted this env1 = true ->
  admitted this env2 = true ->
  let out1 := invoke this c1 env1 st in
  let out2 := invoke this c2 env2 (snd out1) in
  exists r1 r2,
    wire (snd out1) = (wire st ++ [r1])%list
    /\ wire (snd out2) = (wire st ++ [r1; r2])%list
    /\ wire (snd (invoke this c2 env2 st)) = (wire st ++ [r2])%list
    /\ fst out2 = fst (invoke this c2 env2 st)
    /\ _id (snd out2) = (_id st + 2)%Z.
Proof.
  intros Hs Hu Hl1 Hl2 Ha1 Ha2 out1 out2. subst out2 out1.
  rewrite (invoke_accepted _ c1 _ _ _ _ _ Hs Hu Hl1 Ha1). cbn [snd].
  erewrite (invoke_accepted _ c2 _ _ s u lit2)
    by first [ cbn [heap]; apply lookup_extended; exact Hs | eassumption ].
  rewrite (invoke_accepted _ c2 _ st _ _ _ Hs Hu Hl2 Ha2).
  cbn [fst snd wire _id].
  eexists _, _. split; [reflexivity|].
  split; [now rewrite <- app_assoc|].
  split; [reflexivity|]. split; [reflexivity|]. lia.
Qed.

Lemma consecutive_calls_are_independent_witness :
  let env := Sample.env (Axios.Resolved (Sample.respond 200 "OK" (VObj []))) in
  let out1 := invoke Sample.this ListAccounts env Sample.store in
  let out2 := invoke Sample.this (LookupProduct (VStr "TSLA")) env (snd out1) in
  heap Sample.store !! settings Sample.this
  = Some (Deepmerge.merge defaults Sample.options) /\
  exists r1 r2,
    wire (snd out2) = [r1; r2]
    /\ wire (snd (invoke Sample.this (LookupProduct (VStr "TSLA")) env Sample.store))
       = [r2]
    /\ _id (snd out2) = 2%Z.
Proof.
  intros env out1 out2. split; [reflexivity|].
  destruct (consecutive_calls_are_independent Sample.this ListAccounts
              (LookupProduct (VStr "TSLA")) env env Sample.store
              (Deepmerge.merge defaults Sample.options)
              [ ("oauth", VStr "https://api.etrade.com/oauth/");
                ("prod", VStr "https://api.etrade.com/v1/");
                ("dev", VStr "https://apisb.etrade.com/v1/") ]
              _ _ eq_refl eq_refl eq_refl eq_refl eq_refl eq_refl)
    as (r1 & r2 & _ & Hw2 & Hw & _ & Hid).
  exists r1, r2. split; [exact Hw2|]. split; [exact Hw | exact Hid].
Defined.

(** X7. When the descriptor already has query parameters, [signRequest]
    returns normally and adds to them.  Every key of the authorization --
    with [omit], every key of it that starts with "oauth" -- is there
    afterwards with the authorization's value: the six oauth parameters
    always, and [oauth_token] whenever the token signed with has a key.  A
    parameter whose name the authorization does not use is kept as it was,
    and with [omit] so is every parameter whose name does not start with
    "oauth". *)
Theorem signRequest_keeps_other_params `{Platform}
    (this : ETrade) (request : nat) (token : tokenArg) (omit : bool) (env : Env)
    (st : state) (r s ps : obj) :
  heap st !! request = Some r ->
  heap st !! settings this = Some s ->
  Js.get "params" r = VObj ps ->
  let out := signRequest this request token omit env st in
  let authorization :=
    authorizeResult (oauth this) (signerCopy r omit) (resolveToken s token) env in
  fst out = Ok tt
  /\ exists r' ps',
       heap (snd out) !! request = Some r'
       /\ Js.get "params" r' = VObj ps'
       /\ (forall k, In k oauthKeys -> Js.lookup k ps' = Some (Js.get k authorization))
       /\ (forall k, ~ In k (Js.keys authorization) -> Js.lookup k ps' = Js.lookup k ps)
       /\ (omit = true ->
           forall k, String.prefix "oauth" k = false -> Js.lookup k ps' = Js.lookup k ps)
       /\ (forall k, In k (Js.keys authorization) ->
             omit = false \/ String.prefix "oauth" k = true ->
             Js.lookup k ps' = Some (Js.get k authorization))
       /\ (forall key secret,
             resolveToken s token = Some (key, secret) ->
             Js.is_undefined key = false ->
             In "oauth_token" (Js.keys authorization)
             /\ Js.lookup "oauth_token" ps' = Some (Js.get "oauth_token" authorization)).
Proof.
  intros Hr Hs Hp out authorization.
  assert (Hlt : request < length (heap st)) by (eapply lookup_lt_Some; eauto).
  subst out. rewrite (signRequest_run _ _ _ _ _ _ _ _ Hr Hs).
  assert (Hp' : (if Js.truthy (Js.get "params" r) then Js.get "params" r else VObj [])
                = VObj ps) by now rewrite Hp.
  rewrite (signRequestLeaves_object _ _ _ _ _ _ _ Hp'). cbv zeta.
  fold authorization. cbn [fst snd heap withHeap].
  split; [reflexivity|].
  eexists _, _.
  split.
  { rewrite lookup_app_l by (rewrite length_insert; exact Hlt).
    now apply list_lookup_insert_eq. }
  split; [apply get_set_eq|].
  split; [|split; [|split; [|split]]].
  - intros k Hk. apply lookup_copied_value. now apply oauthKeys_selected.
  - intros k Hk. apply lookup_copied_notin. rewrite in_signedKeys. tauto.
  - intros -> k Hk. apply lookup_copied_notin. rewrite in_signedKeys.
    intros [_ [Hf|Hf]]; congruence.
  - intros k Hk Hsel. apply lookup_copied_value. now apply in_signedKeys.
  - intros key secret Htok Hkey. subst authorization. rewrite Htok. split.
    + now apply oauth_token_in_authorization.
    + apply lookup_copied_value. now apply oauth_token_selected.
Qed.

Lemma signRequest_keeps_other_params_witness :
  let r := [ ("method", VStr "GET");
             ("baseURL", VStr "https://apisb.etrade.com/v1/");
             ("url", VStr "accounts/list.json");
             ("params", VObj [("page", VNum 2)]) ] in
  let st := {| heap := [Deepmerge.merge defaults Sample.options; r];
               _id := 0; wire := [] |} in
  let out := signRequest Sample.this 1 TokenUndefined true
               (Sample.env (Axios.Resolved (Sample.respond 200 "OK" VNull))) st in
  heap st !! 1 = Some r /\
  fst out = Ok tt /\
  exists r' ps', heap (snd out) !! 1 = Some r' /\ Js.get "params" r' = VObj ps'
                 /\ Js.lookup "page" ps' = Some (VNum 2)
                 /\ Js.lookup "oauth_token" ps' = Some (VStr "").
Proof.
  intros r st out. split; [reflexivity|].
  destruct (signRequest_keeps_other_params Sample.this 1 TokenUndefined true
              (Sample.env (Axios.Resolved (Sample.respond 200 "OK" VNull))) st r
              (Deepmerge.merge defaults Sample.options) [("page", VNum 2)]
              eq_refl eq_refl eq_refl)
    as (Hok & r' & ps' & Hat & Hp & _ & _ & Hkeep & _ & Htok).
  split; [exact Hok|]. exists r', ps'.
  split; [exact Hat|]. split; [exact Hp|].
  split; [exact (Hkeep eq_refl "page" eq_refl)|].
  exact (proj2 (Htok _ _ eq_refl eq_refl)).
Defined.

(** X8. [getBasicRequest] merges what the caller passes over its own
    defaults field by field: a [method] the caller gives replaces the
    default, and headers the caller gives are added to the User-Agent header
    rather than replacing the header map. *)
Theorem getBasicRequest_merges_request_options `{Platform}
    (this : ETrade) (requestOptions : obj) (st : state) (s u h : obj) (m : string) :
  heap st !! settings this = Some s ->
  Js.get "urls" s = VObj u ->
  List.NoDup (Js.keys requestOptions) ->
  List.NoDup (Js.keys h) ->
  Js.lookup "method" requestOptions = Some (VStr m) ->
  Js.lookup "headers" requestOptions = Some (VObj h) ->
  Js.lookup "User-Agent" h = None ->
  exists r hs,
    getBasicRequest this (Some requestOptions) st
    = (Ok (length (heap st)), withHeap st (heap st ++ [r])%list)
    /\ Js.get "method" r = VStr m
    /\ Js.get "headers" r = VObj hs
    /\ Js.get "User-Agent" hs = VStr userAgent
    /\ (forall k v, Js.lookup k h = Some v ->
          Deepmerge.isPrototypeKey k = false ->
          Js.get k hs = Deepmerge.clone v).
Proof.
  intros Hs Hu Hnd Hndh Hm Hh Hua.
  rewrite (getBasicRequest_run _ _ _ _ Hs), (selectedURL_object _ _ Hu).
  eexists _, (Deepmerge.merge [("User-Agent", VStr userAgent)] h).
  split; [reflexivity|]. unfold basicRequest. cbn [orEmpty].
  split.
  { now rewrite (get_merge_in "method" (VStr m))
      by first [exact Hnd | exact Hm | reflexivity]. }
  split.
  { now rewrite (get_merge_in "headers" (VObj h))
      by first [exact Hnd | exact Hh | reflexivity]. }
  split.
  { now rewrite get_merge_notin by exact Hua. }
  intros k v Hk Hproto.
  rewrite (get_merge_in k v) by
    first [ exact Hndh | exact Hk
          | cbn [Deepmerge.propertyIsUnsafe]; now rewrite Hproto ].
  cbn [Deepmerge.propertyIsOnObject]. rewrite Hproto, orb_false_r.
  destruct (Js.has k [("User-Agent", VStr userAgent)]) eqn:Hhas; [|reflexivity].
  assert (k = "User-Agent") as ->.
  { unfold Js.has in Hhas. cbn [Js.lookup] in Hhas.
    destruct (String.eqb k "User-Agent") eqn:E; [|discriminate].
    now apply String.eqb_eq. }
  congruence.
Qed.

Lemma getBasicRequest_merges_request_options_witness :
  let requestOptions := [ ("method", VStr "POST");
                          ("headers", VObj [("Accept", VStr "application/json")]) ] in
  heap Sample.store !! settings Sample.this
  = Some (Deepmerge.merge defaults Sample.options) /\
  List.NoDup (Js.keys requestOptions) /\
  exists r hs,
    getBasicRequest Sample.this (Some requestOptions) Sample.store
    = (Ok 1, withHeap Sample.store (heap Sample.store ++ [r])%list)
    /\ Js.get "method" r = VStr "POST"
    /\ Js.get "headers" r = VObj hs
    /\ Js.get "User-Agent" hs = VStr "node-e-trade/v2.0.0 nodejs/v18.0.0"
    /\ Js.get "Accept" hs = VStr "application/json".
Proof.
  intros requestOptions. split; [reflexivity|].
  assert (Hnd : List.NoDup (Js.keys requestOptions)).
  { repeat constructor; cbn; intuition discriminate. }
  assert (Hndh : List.NoDup (Js.keys [("Accept", VStr "application/json")])).
  { repeat constructor; cbn; intuition discriminate. }
  split; [exact Hnd|].
  destruct (getBasicRequest_merges_request_options Sample.this requestOptions
              Sample.store (Deepmerge.merge defaults Sample.options)
              [ ("oauth", VStr "https://api.etrade.com/oauth/");
                ("prod", VStr "https://api.etrade.com/v1/");
                ("dev", VStr "https://apisb.etrade.com/v1/") ]
              [("Accept", VStr "application/json")] "POST"
              eq_refl eq_refl Hnd Hndh eq_refl eq_refl eq_refl)
    as (r & hs & Hrun & Hm & Hh & Hua & Hrest).
  exists r, hs. repeat (split; [assumption|]).
  exact (Hrest "Accept" _ eq_refl eq_refl).
Defined.

(** X9. A caller who overrides only some of the base urls keeps the
    defaults of the others: the [urls] of the stored settings is the default
    table with the caller's entries written over it. *)
Theorem constructor_merges_urls (options : option obj) (st : state) (urls : obj) :
  List.NoDup (Js.keys (orEmpty options)) ->
  List.NoDup (Js.keys urls) ->
  Js.lookup "urls" (orEmpty options) = Some (VObj urls) ->
  exists this s us,
    constructor options st = (Ok this, withHeap st (heap st ++ [s])%list)
    /\ Js.get "urls" s = VObj us
    /\ (forall k d,
          In (k, d) [ ("oauth", "https://api.etrade.com/oauth/");
                      ("prod", "https://api.etrade.com/v1/");
                      ("dev", "https://apisb.etrade.com/v1/") ] ->
          Js.lookup k urls = None -> Js.get k us = VStr d)
    /\ (forall k x,
          Js.lookup k urls = Some (VStr x) ->
          Deepmerge.isPrototypeKey k = false -> Js.get k us = VStr x).
Proof.
  intros Hnd Hndu Hl.
  eexists _, (Deepmerge.merge defaults (orEmpty options)),
    (Deepmerge.merge [ ("oauth", VStr "https://api.etrade.com/oauth/");
                       ("prod", VStr "https://api.etrade.com/v1/");
                       ("dev", VStr "https://apisb.etrade.com/v1/") ] urls).
  split; [apply constructor_run|].
  split.
  { now rewrite (get_merge_in "urls" (VObj urls))
      by first [exact Hnd | exact Hl | reflexivity]. }
  split.
  - intros k d Hin Hk. cbn [In] in Hin.
    rewrite get_merge_notin by exact Hk.
    destruct Hin as [[= <- <-]|[[= <- <-]|[[= <- <-]|[]]]]; reflexivity.
  - intros k x Hk Hproto.
    rewrite (get_merge_in k (VStr x)) by
      first [ exact Hndu | exact Hk
            | cbn [Deepmerge.propertyIsUnsafe]; now rewrite Hproto ].
    now rewrite andb_false_r.
Qed.

Lemma constructor_merges_urls_witness :
  let options := Some [("urls", VObj [("dev", VStr "http://localhost:8080/")])] in
  exists this s us,
    constructor options Sample.boot
    = (Ok this, withHeap Sample.boot (heap Sample.boot ++ [s])%list)
    /\ Js.get "urls" s = VObj us
    /\ Js.get "dev" us = VStr "http://localhost:8080/"
    /\ Js.get "prod" us = VStr "https://api.etrade.com/v1/"
    /\ Js.get "oauth" us = VStr "https://api.etrade.com/oauth/".
Proof.
  intros options.
  assert (Hnd : List.NoDup (Js.keys (orEmpty options))).
  { repeat constructor; cbn; intuition discriminate. }
  assert (Hndu : List.NoDup (Js.keys [("dev", VStr "http://localhost:8080/")])).
  { repeat constructor; cbn; intuition discriminate. }
  destruct (constructor_merges_urls options Sample.boot
              [("dev", VStr "http://localhost:8080/")] Hnd Hndu eq_refl)
    as (this & s & us & Hrun & Hu & Hkeep & Hgiven).
  exists this, s, us. split; [exact Hrun|]. split; [exact Hu|].
  split; [|split].
  - exact (Hgiven "dev" _ eq_refl eq_refl).
  - exact (Hkeep "prod" _ (or_intror (or_introl eq_refl)) eq_refl).
  - exact (Hkeep "oauth" _ (or_introl eq_refl) eq_refl).
Defined.

(* ================================================================== *)
(** * Plain data is copied as it is *)
(* ================================================================== *)

Section PlainFacts.

Lemma existsb_eqb_lookup k (o : obj) :
  existsb (String.eqb k) (map fst o) = false -> Js.lookup k o = None.
Proof.
  induction o as [|[k' v'] o IH]; cbn [map fst existsb Js.lookup]; auto.
  intros Hex. apply orb_false_iff in Hex as [Hk Ho].
  rewrite Hk. now apply IH.
Qed.

Lemma set_fresh k v (o : obj) :
  Js.lookup k o = None -> Js.set k v o = (o ++ [(k, v)])%list.
Proof.
  induction o as [|[k' v'] o IH]; cbn [Js.lookup Js.set app]; auto.
  destruct (String.eqb k k'); [discriminate|].
  intros Hl. now rewrite IH.
Qed.

Lemma lookup_snoc_other k k' v (o : obj) :
  String.eqb k k' = false ->
  Js.lookup k (o ++ [(k', v)])%list = Js.lookup k o.
Proof.
  intros Hne. induction o as [|[k0 v0] o IH]; cbn [app Js.lookup].
  - now rewrite Hne.
  - destruct (String.eqb k k0); auto.
Qed.

(** Copying property by property rebuilds a list of distinct, unshadowed
    properties whose values copy to themselves. *)
Lemma fold_clone_rebuilds (s : obj) : forall dest : obj,
  (forall kv, In kv s ->
     Deepmerge.isPrototypeKey (fst kv) = false
     /\ Deepmerge.clone (snd kv) = snd kv
     /\ Js.lookup (fst kv) dest = None) ->
  Deepmerge.distinct (map fst s) = true ->
  fold_left (fun dest kv =>
               if Deepmerge.isPrototypeKey (fst kv) then dest
               else Js.set (fst kv) (Deepmerge.clone (snd kv)) dest) s dest
  = (dest ++ s)%list.
Proof.
  induction s as [|[k v] s IH]; intros dest Hall Hd; cbn [fold_left].
  - now rewrite app_nil_r.
  - destruct (Hall (k, v) (or_introl eq_refl)) as (Hproto & Hclone & Hfresh).
    cbn [fst snd] in *. rewrite Hproto, Hclone.
    rewrite set_fresh by exact Hfresh.
    cbn [map fst Deepmerge.distinct] in Hd.
    apply andb_true_iff in Hd as [Hk Hd].
    apply negb_true_iff in Hk.
    rewrite IH.
    + now rewrite <- app_assoc.
    + intros kv Hin. destruct (Hall kv (or_intror Hin)) as (Hp' & Hc' & Hf').
      split; [exact Hp'|]. split; [exact Hc'|].
      rewrite lookup_snoc_other; [exact Hf'|].
      destruct (String.eqb (fst kv) k) eqn:E; [|reflexivity].
      apply String.eqb_eq in E. subst k.
      assert (Hex : existsb (String.eqb (fst kv)) (map fst s) = true).
      { apply existsb_exists. exists (fst kv). split.
        - now apply in_map.
        - apply String.eqb_refl. }
      congruence.
    + exact Hd.
Qed.

(** [deepmerge]'s copy of plain data is the data. *)
Lemma clone_plain : forall v, Deepmerge.plain v = true -> Deepmerge.clone v = v.
Proof.
  fix IH 1. intros [| | | | |l|s] Hp; try reflexivity.
  - cbn [Deepmerge.clone]. f_equal. cbn [Deepmerge.plain] in Hp.
    induction l as [|a l IHl]; [reflexivity|].
    cbn [forallb map] in *. apply andb_true_iff in Hp as [Ha Hl].
    f_equal; [apply IH; exact Ha | apply IHl; exact Hl].
  - cbn [Deepmerge.clone]. f_equal. cbn [Deepmerge.plain] in Hp.
    apply andb_true_iff in Hp as [Hd Hall].
    rewrite fold_clone_rebuilds; [reflexivity| |exact Hd].
    clear Hd. induction s as [|[k v] s IHs]; [intros kv []|].
    cbn [forallb fst snd] in Hall.
    apply andb_true_iff in Hall as [Hkv Hall].
    apply andb_true_iff in Hkv as [Hk Hv]. apply negb_true_iff in Hk.
    intros kv [<-|Hin].
    + cbn [fst snd]. split; [exact Hk|]. split; [apply IH; exact Hv|reflexivity].
    + now apply IHs.
Qed.

End PlainFacts.

(* ================================================================== *)
(** * Further properties: what the methods put in [data] *)
(* ================================================================== *)

Section DataFacts.
Context `{Platform}.

Lemma lookup_mergeEntry_ne k target dest kv :
  fst kv <> k ->
  Js.lookup k (Deepmerge.mergeEntry target dest kv) = Js.lookup k dest.
Proof.
  intros Hne. unfold Deepmerge.mergeEntry. cbv zeta.
  destruct (Deepmerge.propertyIsUnsafe target (fst kv)); auto.
  destruct (_ && _); now rewrite lookup_set_ne.
Qed.

Lemma lookup_fold_mergeEntry_notin k target source : forall dest,
  Js.lookup k source = None ->
  Js.lookup k (fold_left (Deepmerge.mergeEntry target) source dest) = Js.lookup k dest.
Proof.
  induction source as [|[k' v'] source IH]; intros dest Hk;
    cbn [fold_left Js.lookup] in *; auto.
  destruct (String.eqb k k') eqn:E; [discriminate|].
  rewrite IH by exact Hk.
  apply lookup_mergeEntry_ne. cbn [fst].
  intros ->. now rewrite String.eqb_refl in E.
Qed.

(** The copy [merge({}, d)] has exactly the properties of [d], cloned. *)
Lemma lookup_merge_empty k (d : obj) :
  List.NoDup (Js.keys d) ->
  Deepmerge.isPrototypeKey k = false ->
  Js.lookup k (Deepmerge.merge [] d) = option_map Deepmerge.clone (Js.lookup k d).
Proof.
  intros Hnd Hk. rewrite merge_unfold. cbn [Deepmerge.cloneProps fold_left].
  assert (Hgen : forall dest : obj,
            Js.lookup k dest = None ->
            Js.lookup k (fold_left (Deepmerge.mergeEntry (VObj [])) d dest)
            = option_map Deepmerge.clone (Js.lookup k d)).
  { induction d as [|[k' v'] d IH]; intros dest Hdest;
      cbn [fold_left Js.lookup option_map Js.keys map fst] in *; [exact Hdest|].
    apply List.NoDup_cons_iff in Hnd as [Hnotin Hnd].
    destruct (String.eqb k k') eqn:E.
    - apply String.eqb_eq in E. subst k'.
      rewrite lookup_fold_mergeEntry_notin by (apply lookup_notin_keys; exact Hnotin).
      unfold Deepmerge.mergeEntry. cbn [fst snd]. cbv zeta.
      cbn [Deepmerge.propertyIsUnsafe Deepmerge.propertyIsOnObject Js.has Js.lookup].
      rewrite Hk. cbn [andb orb]. apply lookup_set_eq.
    - apply IH; [exact Hnd|].
      rewrite lookup_mergeEntry_ne; [exact Hdest|]. cbn [fst].
      intros ->. now rewrite String.eqb_refl in E. }
  now apply Hgen.
Qed.

(** Cloning an object is merging it into the empty object. *)
Lemma clone_object (d : obj) : Deepmerge.clone (VObj d) = VObj (Deepmerge.merge [] d).
Proof.
  rewrite merge_unfold. cbn [Deepmerge.clone Deepmerge.cloneProps fold_left].
  f_equal.
  assert (Hgen : forall dest : obj,
            fold_left (fun dest kv =>
                         if Deepmerge.isPrototypeKey (fst kv) then dest
                         else Js.set (fst kv) (Deepmerge.clone (snd kv)) dest) d dest
            = fold_left (Deepmerge.mergeEntry (VObj [])) d dest).
  { induction d as [|[k v] d IH]; intros dest; cbn [fold_left]; [reflexivity|].
    rewrite IH. f_equal. unfold Deepmerge.mergeEntry. cbn [fst snd]. cbv zeta.
    cbn [Deepmerge.propertyIsUnsafe Deepmerge.propertyIsOnObject Js.has Js.lookup].
    destruct (Deepmerge.isPrototypeKey k); reflexivity. }
  apply Hgen.
Qed.

(** The [data] of a descriptor built from a literal that has one. *)
Lemma basicRequest_data s b (url : string) (d : obj) :
  Js.get "data" (basicRequest s b (Some [("url", VStr url); ("data", VObj d)]))
  = VObj (Deepmerge.merge [] d).
Proof. rewrite <- clone_object. reflexivity. Qed.

Lemma lookup_setIfTruthy_ne k k' v (d : obj) :
  k' <> k -> Js.lookup k (setIfTruthy k' v d) = Js.lookup k d.
Proof.
  intros Hne. unfold setIfTruthy.
  destruct (Js.truthy v); [now apply lookup_set_ne | reflexivity].
Qed.

Lemma lookup_setIfTruthy_eq k v (d : obj) :
  Js.lookup k (setIfTruthy k v d)
  = if Js.truthy v then Some v else Js.lookup k d.
Proof.
  unfold setIfTruthy. destruct (Js.truthy v); [apply lookup_set_eq | reflexivity].
Qed.

Lemma lookup_setIfDefined_ne k k' v (d : obj) :
  k' <> k -> Js.lookup k (setIfDefined k' v d) = Js.lookup k d.
Proof.
  intros Hne. unfold setIfDefined.
  destruct (Js.is_undefined v); [reflexivity | now apply lookup_set_ne].
Qed.

Lemma lookup_setIfDefined_eq k v (d : obj) :
  Js.lookup k (setIfDefined k v d)
  = if Js.is_undefined v then Js.lookup k d else Some v.
Proof.
  unfold setIfDefined. destruct (Js.is_undefined v); [reflexivity | apply lookup_set_eq].
Qed.

Lemma NoDup_keys_setIfTruthy k v (d : obj) :
  List.NoDup (Js.keys d) -> List.NoDup (Js.keys (setIfTruthy k v d)).
Proof.
  intros Hnd. unfold setIfTruthy. destruct (Js.truthy v); [now apply NoDup_keys_set | exact Hnd].
Qed.

Lemma NoDup_keys_setIfDefined k v (d : obj) :
  List.NoDup (Js.keys d) -> List.NoDup (Js.keys (setIfDefined k v d)).
Proof.
  intros Hnd. unfold setIfDefined.
  destruct (Js.is_undefined v); [exact Hnd | now apply NoDup_keys_set].
Qed.

End DataFacts.

(* ================================================================== *)
(** * The request of [getQuotes] *)
(* ================================================================== *)

(** C7, as the code has it.  [getQuotes] sends one GET request to the
    selected base url with the path [market/quote/<symbols>.json], where a
    string is embedded as it is and an array of strings joined by commas.
    The oauth parameters are among its query parameters ([oauth_token] too,
    the settings having an access token), and its [data] is not absent: it
    holds the flags [requireEarningsDate], [overrideSymbolCount] and
    [skipMiniOptionsCheck], [detailFlag] exactly when it is given and truthy,
    and nothing else. *)
Theorem getQuotes_request `{Platform}
    (this : ETrade) (args : obj) (env : Env) (st : state) (s u : obj)
    (base : string) (symbols : value) (joined : string) :
  heap st !! settings this = Some s ->
  Js.get "urls" s = VObj u ->
  (if Js.is_string (Js.get "mode" s) "prod" then Js.get "prod" u else Js.get "dev" u)
  = VStr base ->
  admitted this env = true ->
  Js.get "symbols" args = symbols ->
  (symbols = VStr joined
   \/ exists names, symbols = VArr (map VStr names) /\ joined = String.concat "," names) ->
  exists req ps flags,
    wire (snd (getQuotes this args env st)) = (wire st ++ [req])%list
    /\ Js.get "method" req = VStr "GET"
    /\ Js.get "baseURL" req = VStr base
    /\ Js.get "url" req = VStr ("market/quote/" ++ joined ++ ".json")
    /\ Js.get "params" req = VObj ps
    /\ (forall k, In k oauthKeys -> Js.lookup k ps <> None)
    /\ Js.get "data" req = VObj flags
    /\ Js.get "requireEarningsDate" flags
       = Deepmerge.clone (argOr args "requireEarningsDate" (VBool false))
    /\ Js.get "overrideSymbolCount" flags
       = Deepmerge.clone (argOr args "overrideSymbolCount" (VBool false))
    /\ Js.get "skipMiniOptionsCheck" flags
       = Deepmerge.clone (argOr args "skipMiniOptionsCheck" (VBool false))
    /\ Js.lookup "detailFlag" flags
       = (if Js.truthy (Js.get "detailFlag" args)
          then Some (Deepmerge.clone (Js.get "detailFlag" args)) else None)
    /\ (forall k, ~ In k [ "requireEarningsDate"; "overrideSymbolCount";
                           "skipMiniOptionsCheck"; "detailFlag" ] ->
        Js.lookup k flags = None)
    /\ (Js.is_undefined (Js.get "accessToken" s) = false ->
        Js.lookup "oauth_token" ps <> None).
Proof.
  intros Hs Hu Hbase Hadm Hsym Hshape.
  assert (Hjoin : stringOrJoined (Js.get "symbols" args) = Ok joined).
  { rewrite Hsym. destruct Hshape as [->|(names & -> & ->)]; cbn [stringOrJoined].
    - reflexivity.
    - now rewrite join_strings. }
  change (getQuotes this args env st) with (invoke this (GetQuotes args) env st).
  rewrite (invoke_run _ _ _ _ _ Hs). unfold invoked.
  cbn [requestLiteral]. rewrite Hjoin. cbn [andThen].
  rewrite (selectedURL_object _ _ Hu), Hbase. cbv zeta. rewrite Hadm.
  cbn [snd wire isWrite].
  set (d := setIfTruthy "detailFlag" _ _).
  set (lit := [("url", _); ("data", _)]).
  set (req := signed this s (basicRequest s (VStr base) (Some lit)) TokenUndefined false env).
  destruct (Js.get "params" req) as [| | | | | |ps] eqn:Hps;
    try (unfold req in Hps; rewrite signed_params in Hps; discriminate).
  assert (Hnd : List.NoDup (Js.keys d)).
  { apply NoDup_keys_setIfTruthy. repeat constructor; cbn; intuition discriminate. }
  assert (Hflag : forall k v,
            k <> "detailFlag" ->
            Deepmerge.isPrototypeKey k = false ->
            Js.lookup k [ ("requireEarningsDate",
                           argOr args "requireEarningsDate" (VBool false));
                          ("overrideSymbolCount",
                           argOr args "overrideSymbolCount" (VBool false));
                          ("skipMiniOptionsCheck",
                           argOr args "skipMiniOptionsCheck" (VBool false)) ] = Some v ->
            Js.get k (Deepmerge.merge [] d) = Deepmerge.clone v).
  { intros k v Hne Hproto Hl. unfold Js.get.
    rewrite lookup_merge_empty by assumption.
    unfold d. rewrite lookup_setIfTruthy_ne by congruence. now rewrite Hl. }
  exists req, ps, (Deepmerge.merge [] d).
  split; [reflexivity|].
  split; [unfold req; rewrite signed_get_ne by discriminate; reflexivity|].
  split; [unfold req; rewrite signed_get_ne by discriminate; reflexivity|].
  split; [unfold req; rewrite signed_get_ne by discriminate; reflexivity|].
  split; [exact Hps|].
  split; [intros k Hk; now apply (signed_oauth_present _ _ _ _ _ _ _ _ Hps)|].
  split; [unfold req; rewrite signed_get_ne by discriminate; apply basicRequest_data|].
  split; [apply Hflag; [discriminate | reflexivity | reflexivity]|].
  split; [apply Hflag; [discriminate | reflexivity | reflexivity]|].
  split; [apply Hflag; [discriminate | reflexivity | reflexivity]|].
  split.
  { rewrite lookup_merge_empty by first [exact Hnd | reflexivity].
    unfold d. rewrite lookup_setIfTruthy_eq.
    now destruct (Js.truthy (Js.get "detailFlag" args)). }
  split.
  { intros k Hk. rewrite merge_unfold.
    rewrite lookup_fold_mergeEntry_notin; [reflexivity|].
    cbn [In] in Hk. unfold d.
    rewrite lookup_setIfTruthy_ne by (intros <-; apply Hk; tauto).
    cbn [Js.lookup].
    repeat match goal with
           | |- context [String.eqb k ?x] =>
               destruct (String.eqb_spec k x) as [->|_]; [exfalso; apply Hk; tauto|]
           end.
    reflexivity. }
  intros Htok. now apply (signed_oauth_token _ _ _ _ _ _ Hps).
Qed.

(** Symbols ["TSLA", "GOOG"] on a client constructed with mode ['dev']. *)
Lemma getQuotes_request_witness :
  let env := Sample.env (Axios.Resolved (Sample.respond 200 "OK" (VObj []))) in
  heap Sample.store !! settings Sample.this
  = Some (Deepmerge.merge defaults Sample.options) /\
  exists req ps,
    wire (snd (getQuotes Sample.this [("symbols", VArr [VStr "TSLA"; VStr "GOOG"])]
                 env Sample.store)) = [req]
    /\ Js.get "method" req = VStr "GET"
    /\ Js.get "baseURL" req = VStr "https://apisb.etrade.com/v1/"
    /\ Js.get "url" req = VStr "market/quote/TSLA,GOOG.json"
    /\ Js.get "params" req = VObj ps
    /\ Js.lookup "oauth_signature" ps <> None.
Proof.
  intros env. split; [reflexivity|].
  destruct (getQuotes_request Sample.this [("symbols", VArr [VStr "TSLA"; VStr "GOOG"])]
              env Sample.store (Deepmerge.merge defaults Sample.options)
              [ ("oauth", VStr "https://api.etrade.com/oauth/");
                ("prod", VStr "https://api.etrade.com/v1/");
                ("dev", VStr "https://apisb.etrade.com/v1/") ]
              "https://apisb.etrade.com/v1/"
              (VArr [VStr "TSLA"; VStr "GOOG"]) "TSLA,GOOG"
              eq_refl eq_refl eq_refl eq_refl eq_refl
              (or_intror (ex_intro _ ["TSLA"; "GOOG"] (conj eq_refl eq_refl))))
    as (req & ps & flags & Hw & Hm & Hb & Hu & Hp & Ho & _).
  exists req, ps. repeat (split; [assumption|]).
  apply Ho. cbn. tauto.
Defined.

(** C7 as stated fails: the descriptor [getQuotes] hands to the transport
    for ["TSLA", "GOOG"] on a sandbox client is a GET to
    [market/quote/TSLA,GOOG.json], but its [data] is not absent. *)
Lemma getQuotes_descriptor_has_data :
  let env := Sample.env (Axios.Resolved (Sample.respond 200 "OK" (VObj []))) in
  let run := (this <- constructor (Some Sample.options) ;;
              getQuotes this [("symbols", VArr [VStr "TSLA"; VStr "GOOG"])] env)
               Sample.boot in
  exists req,
    wire (snd run) = [req]
    /\ Js.get "method" req = VStr "GET"
    /\ Js.get "url" req = VStr "market/quote/TSLA,GOOG.json"
    /\ Js.get "data" req
       = VObj [ ("requireEarningsDate", VBool false);
                ("overrideSymbolCount", VBool false);
                ("skipMiniOptionsCheck", VBool false) ]
    /\ Js.get "data" req <> VUndefined.
Proof.
  intros env run.
  eexists. split; [vm_compute; reflexivity|].
  repeat split; try reflexivity. discriminate.
Qed.

(** X10. [listOrders] sends the filters the caller gave and nothing else:
    each of the nine optional filters is in the request's [data] exactly
    when its value is truthy (so [count: 0] or an empty string is left out),
    and [accountIdKey] goes into the path only. *)
Theorem listOrders_sends_only_truthy_filters `{Platform}
    (this : ETrade) (args : obj) (env : Env) (st : state) (s u : obj) :
  heap st !! settings this = Some s ->
  Js.get "urls" s = VObj u ->
  admitted this env = true ->
  let filters := [ "marker"; "count"; "status"; "fromDate"; "toDate"; "symbol";
                   "securityType"; "transactionType"; "marketSession" ] in
  exists req d,
    wire (snd (listOrders this args env st)) = (wire st ++ [req])%list
    /\ Js.get "url" req
       = VStr ("accounts/" ++ Js.toString (Js.get "accountIdKey" args) ++ "/orders.json")
    /\ Js.get "data" req = VObj d
    /\ (forall k, In k filters ->
          Js.lookup k d = if Js.truthy (Js.get k args)
                          then Some (Deepmerge.clone (Js.get k args)) else None)
    /\ (forall k, ~ In k filters -> Js.lookup k d = None).
Proof.
  intros Hs Hu Hadm filters.
  change (listOrders this args env st) with (invoke this (ListOrders args) env st).
  epose proof (invoke_accepted this (ListOrders args) env st s u _ Hs Hu eq_refl Hadm)
    as Hrun.
  cbv zeta in Hrun. rewrite Hrun. clear Hrun. cbn [snd wire isWrite].
  eexists _, _. split; [reflexivity|].
  rewrite !signed_get_ne by discriminate.
  split; [reflexivity|].
  split; [apply basicRequest_data|].
  split.
  - intros k Hk.
    rewrite lookup_merge_empty.
    2:{ repeat apply NoDup_keys_setIfTruthy. constructor. }
    2:{ cbn [In] in Hk.
        destruct Hk as [<-|[<-|[<-|[<-|[<-|[<-|[<-|[<-|[<-|[]]]]]]]]]]; reflexivity. }
    cbn [In] in Hk.
    destruct Hk as [<-|[<-|[<-|[<-|[<-|[<-|[<-|[<-|[<-|[]]]]]]]]]];
      rewrite ?lookup_setIfTruthy_ne by discriminate;
      rewrite lookup_setIfTruthy_eq;
      (destruct (Js.truthy _); [reflexivity|]);
      rewrite ?lookup_setIfTruthy_ne by discriminate; reflexivity.
  - intros k Hk. rewrite merge_unfold.
    rewrite lookup_fold_mergeEntry_notin; [reflexivity|].
    cbn [In] in Hk.
    rewrite !lookup_setIfTruthy_ne
      by (intros <-; apply Hk; repeat ((left; reflexivity) || right)).
    reflexivity.
Qed.

Lemma listOrders_sends_only_truthy_filters_witness :
  let env := Sample.env (Axios.Resolved (Sample.respond 200 "OK" (VObj []))) in
  let args := [ ("accountIdKey", VStr "abc"); ("count", VNum 0);
                ("status", VStr "OPEN") ] in
  heap Sample.store !! settings Sample.this
  = Some (Deepmerge.merge defaults Sample.options) /\
  exists req d,
    wire (snd (listOrders Sample.this args env Sample.store)) = [req]
    /\ Js.get "url" req = VStr "accounts/abc/orders.json"
    /\ Js.get "data" req = VObj d
    /\ Js.lookup "status" d = Some (VStr "OPEN")
    /\ Js.lookup "count" d = None
    /\ Js.lookup "accountIdKey" d = None.
Proof.
  intros env args. split; [reflexivity|].
  destruct (listOrders_sends_only_truthy_filters Sample.this args env Sample.store
              (Deepmerge.merge defaults Sample.options)
              [ ("oauth", VStr "https://api.etrade.com/oauth/");
                ("prod", VStr "https://api.etrade.com/v1/");
                ("dev", VStr "https://apisb.etrade.com/v1/") ]
              eq_refl eq_refl eq_refl)
    as (req & d & Hw & Hurl & Hd & Hin & Hout).
  exists req, d. split; [exact Hw|]. split; [exact Hurl|]. split; [exact Hd|].
  split; [|split].
  - apply (Hin "status"). cbn. tauto.
  - apply (Hin "count"). cbn. tauto.
  - apply Hout. cbn. intuition discriminate.
Defined.

(** X11. The [data] of [getOptionChains]: [symbol] is always sent; the five
    flags take their defaults when the caller leaves them [undefined] and
    the caller's value otherwise (an explicit [false] or [null] is kept);
    the expiry fields are sent only when truthy; [strikePriceNear] and
    [noOfStrikes] are sent whenever they are not [undefined], zero
    included. *)
Theorem getOptionChains_optional_fields `{Platform}
    (this : ETrade) (args : obj) (env : Env) (st : state) (s u : obj) :
  heap st !! settings this = Some s ->
  Js.get "urls" s = VObj u ->
  admitted this env = true ->
  exists req d,
    wire (snd (getOptionChains this args env st)) = (wire st ++ [req])%list
    /\ Js.get "url" req = VStr "market/optionchains.json"
    /\ Js.get "data" req = VObj d
    /\ Js.lookup "symbol" d = Some (Deepmerge.clone (Js.get "symbol" args))
    /\ (forall k dflt,
          In (k, dflt) [ ("includeWeekly", VBool false); ("skipAdjusted", VBool true);
                         ("optionCategory", VStr "STANDARD");
                         ("chainType", VStr "CALLPUT"); ("priceType", VStr "ATNM") ] ->
          Js.lookup k d
          = Some (Deepmerge.clone
                    (if Js.is_undefined (Js.get k args) then dflt else Js.get k args)))
    /\ (forall k, In k ["expiryYear"; "expiryMonth"; "expiryDay"] ->
          Js.lookup k d = if Js.truthy (Js.get k args)
                          then Some (Deepmerge.clone (Js.get k args)) else None)
    /\ (forall k, In k ["strikePriceNear"; "noOfStrikes"] ->
          Js.lookup k d = if Js.is_undefined (Js.get k args)
                          then None else Some (Deepmerge.clone (Js.get k args))).
Proof.
  intros Hs Hu Hadm.
  change (getOptionChains this args env st)
    with (invoke this (GetOptionChains args) env st).
  epose proof (invoke_accepted this (GetOptionChains args) env st s u _ Hs Hu eq_refl Hadm)
    as Hrun.
  cbv zeta in Hrun. rewrite Hrun. clear Hrun. cbn [snd wire isWrite].
  eexists _, _. split; [reflexivity|].
  rewrite !signed_get_ne by discriminate.
  split; [reflexivity|].
  split; [apply basicRequest_data|].
  assert (Hnd : forall a b c d e (base : obj),
            List.NoDup (Js.keys base) ->
            List.NoDup (Js.keys
              (setIfDefined "noOfStrikes" a (setIfDefined "strikePriceNear" b
                 (setIfTruthy "expiryDay" c (setIfTruthy "expiryMonth" d
                    (setIfTruthy "expiryYear" e base))))))).
  { intros. repeat apply NoDup_keys_setIfDefined. now repeat apply NoDup_keys_setIfTruthy. }
  assert (Hbase : List.NoDup (Js.keys
            [ ("symbol", Js.get "symbol" args);
              ("includeWeekly", argOr args "includeWeekly" (VBool false));
              ("skipAdjusted", argOr args "skipAdjusted" (VBool true));
              ("optionCategory", argOr args "optionCategory" (VStr "STANDARD"));
              ("chainType", argOr args "chainType" (VStr "CALLPUT"));
              ("priceType", argOr args "priceType" (VStr "ATNM")) ])).
  { repeat constructor; cbn; intuition discriminate. }
  split; [|split; [|split]].
  - rewrite lookup_merge_empty by first [apply Hnd; exact Hbase | reflexivity].
    rewrite !lookup_setIfDefined_ne by discriminate.
    rewrite !lookup_setIfTruthy_ne by discriminate. reflexivity.
  - intros k dflt Hk. cbn [In] in Hk.
    destruct Hk as [[= <- <-]|[[= <- <-]|[[= <- <-]|[[= <- <-]|[[= <- <-]|[]]]]]];
      rewrite lookup_merge_empty by first [apply Hnd; exact Hbase | reflexivity];
      rewrite !lookup_setIfDefined_ne by discriminate;
      rewrite !lookup_setIfTruthy_ne by discriminate; reflexivity.
  - intros k Hk. cbn [In] in Hk.
    destruct Hk as [<-|[<-|[<-|[]]]];
      rewrite lookup_merge_empty by first [apply Hnd; exact Hbase | reflexivity];
      rewrite !lookup_setIfDefined_ne by discriminate;
      rewrite ?lookup_setIfTruthy_ne by discriminate;
      rewrite lookup_setIfTruthy_eq;
      (destruct (Js.truthy _); [reflexivity|]);
      rewrite ?lookup_setIfTruthy_ne by discriminate; reflexivity.
  - intros k Hk. cbn [In] in Hk.
    destruct Hk as [<-|[<-|[]]];
      rewrite lookup_merge_empty by first [apply Hnd; exact Hbase | reflexivity];
      rewrite ?lookup_setIfDefined_ne by discriminate;
      rewrite lookup_setIfDefined_eq;
      (destruct (Js.is_undefined _); [|reflexivity]);
      rewrite ?lookup_setIfDefined_ne by discriminate;
      rewrite !lookup_setIfTruthy_ne by discriminate; reflexivity.
Qed.

Lemma getOptionChains_optional_fields_witness :
  let env := Sample.env (Axios.Resolved (Sample.respond 200 "OK" (VObj []))) in
  let args := [ ("symbol", VStr "TSLA"); ("expiryYear", VNum 0);
                ("strikePriceNear", VNum 0); ("skipAdjusted", VBool false) ] in
  heap Sample.store !! settings Sample.this
  = Some (Deepmerge.merge defaults Sample.options) /\
  exists req d,
    wire (snd (getOptionChains Sample.this args env Sample.store)) = [req]
    /\ Js.get "data" req = VObj d
    /\ Js.lookup "symbol" d = Some (VStr "TSLA")
    /\ Js.lookup "skipAdjusted" d = Some (VBool false)
    /\ Js.lookup "chainType" d = Some (VStr "CALLPUT")
    /\ Js.lookup "expiryYear" d = None
    /\ Js.lookup "strikePriceNear" d = Some (VNum 0)
    /\ Js.lookup "noOfStrikes" d = None.
Proof.
  intros env args. split; [reflexivity|].
  destruct (getOptionChains_optional_fields Sample.this args env Sample.store
              (Deepmerge.merge defaults Sample.options)
              [ ("oauth", VStr "https://api.etrade.com/oauth/");
                ("prod", VStr "https://api.etrade.com/v1/");
                ("dev", VStr "https://apisb.etrade.com/v1/") ]
              eq_refl eq_refl eq_refl)
    as (req & d & Hw & _ & Hd & Hsym & Hflag & Hexp & Hstrike).
  exists req, d. split; [exact Hw|]. split; [exact Hd|]. split; [exact Hsym|].
  split; [apply (Hflag "skipAdjusted" (VBool true)); cbn; tauto|].
  split; [apply (Hflag "chainType" (VStr "CALLPUT")); cbn; tauto|].
  split; [apply (Hexp "expiryYear"); cbn; tauto|].
  split; [apply (Hstrike "strikePriceNear"); cbn; tauto|].
  apply (Hstrike "noOfStrikes"); cbn; tauto.
Defined.

(** X12. [placeOrder] sends the order as the caller gave it: for plain
    arguments the request's [data] is [{PlaceOrderRequest: {orderType,
    clientOrderId, Order, PreviewIds}}] with the caller's values unchanged,
    so the preview ids returned by [previewOrder] go out exactly as they were
    passed in. *)
Theorem placeOrder_sends_body_as_given `{Platform}
    (this : ETrade) (args : obj) (env : Env) (st : state) (s u : obj) :
  heap st !! settings this = Some s ->
  Js.get "urls" s = VObj u ->
  admitted this env = true ->
  Deepmerge.plain (Js.get "orderType" args) = true ->
  Deepmerge.plain (Js.get "clientOrderId" args) = true ->
  Deepmerge.plain (Js.get "order" args) = true ->
  Deepmerge.plain (Js.get "previewIds" args) = true ->
  exists req,
    wire (snd (placeOrder this args env st)) = (wire st ++ [req])%list
    /\ Js.get "method" req = VStr "POST"
    /\ Js.get "url" req
       = VStr ("accounts/" ++ Js.toString (Js.get "accountIdKey" args)
               ++ "/orders/place.json")
    /\ Js.get "data" req
       = VObj [("PlaceOrderRequest",
                VObj [ ("orderType", Js.get "orderType" args);
                       ("clientOrderId", Js.get "clientOrderId" args);
                       ("Order", Js.get "order" args);
                       ("PreviewIds", Js.get "previewIds" args) ])].
Proof.
  intros Hs Hu Hadm H1 H2 H3 H4.
  change (placeOrder this args env st) with (invoke this (PlaceOrder args) env st).
  epose proof (invoke_accepted this (PlaceOrder args) env st s u _ Hs Hu eq_refl Hadm)
    as Hrun.
  cbv zeta in Hrun. rewrite Hrun. clear Hrun. cbn [snd wire isWrite].
  eexists. split; [reflexivity|].
  rewrite !signed_get_ne by discriminate.
  split; [reflexivity|]. split; [reflexivity|].
  match goal with
  | |- _ = ?body => transitivity (Deepmerge.clone body); [reflexivity|]
  end.
  apply clone_plain.
  revert H1 H2 H3 H4.
  generalize (Js.get "orderType" args), (Js.get "clientOrderId" args),
    (Js.get "order" args), (Js.get "previewIds" args).
  intros a b c d Ha Hb Hc Hd.
  cbn [Deepmerge.plain Deepmerge.distinct map fst snd forallb existsb].
  rewrite Ha, Hb, Hc, Hd. reflexivity.
Qed.

Lemma placeOrder_sends_body_as_given_witness :
  let env := Sample.env (Axios.Resolved (Sample.respond 200 "OK" (VObj []))) in
  let previewIds := VArr [VObj [("previewId", VNum 1627181131)]] in
  let args := [ ("accountIdKey", VStr "abc"); ("orderType", VStr "EQ");
                ("clientOrderId", VNum 1589230557234);
                ("order", VArr [VObj [("limitPrice", VNum 50)]]);
                ("previewIds", previewIds) ] in
  heap Sample.store !! settings Sample.this
  = Some (Deepmerge.merge defaults Sample.options) /\
  exists req body por,
    wire (snd (placeOrder Sample.this args env Sample.store)) = [req]
    /\ Js.get "data" req = VObj body
    /\ Js.get "PlaceOrderRequest" body = VObj por
    /\ Js.get "PreviewIds" por = previewIds.
Proof.
  intros env previewIds args. split; [reflexivity|].
  destruct (placeOrder_sends_body_as_given Sample.this args env Sample.store
              (Deepmerge.merge defaults Sample.options)
              [ ("oauth", VStr "https://api.etrade.com/oauth/");
                ("prod", VStr "https://api.etrade.com/v1/");
                ("dev", VStr "https://apisb.etrade.com/v1/") ]
              eq_refl eq_refl eq_refl eq_refl eq_refl eq_refl eq_refl)
    as (req & Hw & _ & _ & Hd).
  exists req. eexists _, _. split; [exact Hw|]. split; [exact Hd|].
  split; reflexivity.
Defined.

(** X13. Every API call is signed with the consumer secret the constructor
    handed to the signer and with the access secret found in the settings
    when the call is made (empty while it is falsy): the signing key is
    [encode(consumer secret) & encode(access secret)].  Assigning
    [settings.accessSecret] after authorization therefore takes effect on
    the next call, while assigning [settings.secret] does not. *)
Theorem api_calls_sign_with_current_access_secret `{Platform}
    (this : ETrade) (c : apiCall) (env : Env) (st : state) (s u lit : obj) :
  heap st !! settings this = Some s ->
  Js.get "urls" s = VObj u ->
  requestLiteral c = Ok lit ->
  admitted this env = true ->
  exists req ps base_string,
    wire (snd (invoke this c env st)) = (wire st ++ [req])%list
    /\ Js.get "params" req = VObj ps
    /\ Js.get "oauth_signature" ps
       = VStr (hmacSha1Base64 base_string
                 (percentEncode (Js.toString (OAuth.consumer_secret (oauth this)))
                  ++ "&"
                  ++ percentEncode
                       (Js.toString (Js.or (Js.get "accessSecret" s) (VStr ""))))).
Proof.
  intros Hs Hu Hlit Hadm.
  rewrite (invoke_accepted _ _ _ _ _ _ _ Hs Hu Hlit Hadm). cbn [snd wire].
  match goal with
  | |- context [(wire st ++ [?sent])%list] => set (req := sent)
  end.
  destruct (Js.get "params" req) as [| | | | | |ps] eqn:Hps;
    try (unfold req in Hps; rewrite signed_params in Hps; discriminate).
  exists req, ps. eexists. split; [reflexivity|]. split; [exact Hps|].
  rewrite (signed_signature _ _ _ _ _ _ _ Hps).
  unfold OAuth.getSignature, OAuth.getSigningKey. reflexivity.
Qed.

Lemma api_calls_sign_with_current_access_secret_witness :
  let env := Sample.env (Axios.Resolved (Sample.respond 200 "OK" (VObj []))) in
  let s := [ ("mode", VStr "dev"); ("secret", VStr "changed");
             ("accessToken", VStr "at"); ("accessSecret", VStr "as");
             ("urls", VObj [("dev", VStr "https://apisb.etrade.com/v1/")]) ] in
  let st := {| heap := [s]; _id := 0; wire := [] |} in
  heap st !! settings Sample.this = Some s /\
  exists req ps base_string,
    wire (snd (invoke Sample.this ListAccounts env st)) = [req]
    /\ Js.get "params" req = VObj ps
    /\ Js.get "oauth_signature" ps = VStr (Sample.hmac base_string "cs&as").
Proof.
  intros env s st. split; [reflexivity|].
  exact (api_calls_sign_with_current_access_secret Sample.this ListAccounts env st s
           [("dev", VStr "https://apisb.etrade.com/v1/")] _
           eq_refl eq_refl eq_refl eq_refl).
Defined.

(* ================================================================== *)
(** * Further properties: the token methods *)
(* ================================================================== *)

(** X14. [getAccessToken] sends one GET request to the OAuth url followed
    by [access_token], whatever the mode, with [data = {oauth_verifier:
    code}].  It is signed with the request token the caller passes, not with
    the access token of the settings: the signed parameters include the
    verifier, and the signing key ends in the caller's token secret. *)
Theorem getAccessToken_request `{Platform}
    (this : ETrade) (options : obj) (env : Env) (st : state) (s u : obj)
    (oauthU code : string) :
  heap st !! settings this = Some s ->
  Js.get "urls" s = VObj u ->
  Js.get "oauth" u = VStr oauthU ->
  Js.get "code" options = VStr code ->
  admitted this env = true ->
  exists req ps,
    wire (snd (getAccessToken this options env st)) = (wire st ++ [req])%list
    /\ Js.get "method" req = VStr "GET"
    /\ Js.lookup "baseURL" req = None
    /\ Js.get "url" req = VStr (oauthU ++ "access_token")
    /\ Js.get "data" req = VObj [("oauth_verifier", VStr code)]
    /\ Js.get "params" req = VObj ps
    /\ (forall k, In k oauthKeys -> Js.lookup k ps <> None)
    /\ Js.get "oauth_signature" ps
       = VStr (hmacSha1Base64
                 (getBaseString (VStr "GET") (VStr (oauthU ++ "access_token"))
                    (OAuth.mergeObject
                       (OAuth.oauthData (oauth this)
                          (Some (Js.get "key" options, Js.get "secret" options)) env)
                       (OAuth.mergeObject [("oauth_verifier", VStr code)]
                          (deParamUrl (VStr (oauthU ++ "access_token"))))))
                 (percentEncode (Js.toString (OAuth.consumer_secret (oauth this)))
                  ++ "&"
                  ++ percentEncode
                       (Js.toString (Js.or (Js.get "secret" options) (VStr ""))))).
Proof.
  intros Hs Hu Ho Hcode Hadm.
  rewrite (getAccessToken_run _ _ _ _ _ _ Hs Hu). unfold oauthInvoked.
  cbv zeta. rewrite Hadm, Ho, Hcode. cbn [snd fst wire].
  set (b := if Js.is_string (Js.get "mode" s) "prod" then _ else _).
  set (r := oauthDescriptor s b (VStr oauthU) "access_token"
              (Some (VObj [("oauth_verifier", VStr code)]))).
  set (token := TokenPair (Js.get "key" options) (Js.get "secret" options)).
  set (req := signed this s r token false env).
  assert (Hnd : List.NoDup (Js.keys r)).
  { unfold r, oauthDescriptor. cbv zeta.
    apply NoDup_keys_set, NoDup_keys_set, NoDup_keys_delete, NoDup_keys_merge. }
  assert (Hbase : Js.get "baseURL" r = VUndefined) by reflexivity.
  assert (Hurl : Js.get "url" r = VStr (oauthU ++ "access_token")) by reflexivity.
  assert (Hdata : Js.get "data" r = VObj [("oauth_verifier", VStr code)]) by reflexivity.
  destruct (Js.get "params" req) as [| | | | | |ps] eqn:Hps;
    try (unfold req in Hps; rewrite signed_params in Hps; discriminate).
  exists req, ps.
  split; [reflexivity|].
  split; [unfold req; rewrite signed_get_ne by discriminate; reflexivity|].
  split.
  { unfold req, signed. cbv zeta. rewrite lookup_set_ne by discriminate. reflexivity. }
  split; [unfold req; rewrite signed_get_ne by discriminate; exact Hurl|].
  split; [unfold req; rewrite signed_get_ne by discriminate; exact Hdata|].
  split; [exact Hps|].
  split; [intros k Hk; now apply (signed_oauth_present _ _ _ _ _ _ _ _ Hps)|].
  rewrite (signed_signature _ _ _ _ _ _ _ Hps).
  rewrite signerCopy_method by exact Hnd.
  rewrite (signerCopy_url_nobase _ _ _ Hnd Hbase Hurl).
  rewrite (authorizeData_object _ [("oauth_verifier", VStr code)]).
  2:{ rewrite signerCopy_data_keep by exact Hnd. now rewrite Hdata. }
  rewrite (signerCopy_url_nobase _ _ _ Hnd Hbase Hurl).
  reflexivity.
Qed.

Lemma getAccessToken_request_witness :
  let env := Sample.env (Axios.Resolved (Sample.respond 200 "OK" (VStr ""))) in
  let options := [("key", VStr "rk"); ("secret", VStr "rs"); ("code", VStr "12345")] in
  heap Sample.store !! settings Sample.this
  = Some (Deepmerge.merge defaults Sample.options) /\
  exists req,
    wire (snd (getAccessToken Sample.this options env Sample.store)) = [req]
    /\ Js.get "url" req = VStr "https://api.etrade.com/oauth/access_token"
    /\ Js.get "data" req = VObj [("oauth_verifier", VStr "12345")].
Proof.
  intros env options. split; [reflexivity|].
  destruct (getAccessToken_request Sample.this options env Sample.store
              (Deepmerge.merge defaults Sample.options)
              [ ("oauth", VStr "https://api.etrade.com/oauth/");
                ("prod", VStr "https://api.etrade.com/v1/");
                ("dev", VStr "https://apisb.etrade.com/v1/") ]
              "https://api.etrade.com/oauth/" "12345"
              eq_refl eq_refl eq_refl eq_refl eq_refl)
    as (req & ps & Hw & _ & _ & Hurl & Hd & _).
  exists req. split; [exact Hw|]. split; [exact Hurl | exact Hd].
Defined.

Section TokenMaintenance.
Context `{Platform}.

(** What an OAuth method that signs the bare descriptor sends and
    returns. *)
Lemma oauth_bare_call this s u name key secret env st oauthU :
  Js.get "oauth" u = VStr oauthU ->
  admitted this env = true ->
  let out := oauthInvoked this s u name None (TokenPair key secret) env Ok st in
  exists req ps,
    wire (snd out) = (wire st ++ [req])%list
    /\ Js.get "method" req = VStr "GET"
    /\ Js.lookup "baseURL" req = None
    /\ Js.get "url" req = VStr (oauthU ++ name)
    /\ Js.lookup "data" req = None
    /\ Js.get "params" req = VObj ps
    /\ Js.get "oauth_signature" ps
       = VStr (hmacSha1Base64
                 (getBaseString (VStr "GET") (VStr (oauthU ++ name))
                    (OAuth.mergeObject
                       (OAuth.oauthData (oauth this) (Some (key, secret)) env)
                       (OAuth.mergeObject [] (deParamUrl (VStr (oauthU ++ name))))))
                 (percentEncode (Js.toString (OAuth.consumer_secret (oauth this)))
                  ++ "&" ++ percentEncode (Js.toString (Js.or secret (VStr "")))))
    /\ (forall resp, transport env = Axios.Resolved resp ->
        fst out = Ok (Axios.data resp)).
Proof.
  intros Ho Hadm out. subst out. unfold oauthInvoked.
  cbv zeta. rewrite Hadm, Ho. cbn [snd fst wire].
  set (b := if Js.is_string (Js.get "mode" s) "prod" then _ else _).
  set (r := oauthDescriptor s b (VStr oauthU) name None).
  set (req := signed this s r (TokenPair key secret) false env).
  assert (Hnd : List.NoDup (Js.keys r)).
  { unfold r, oauthDescriptor. cbv zeta.
    apply NoDup_keys_set, NoDup_keys_delete, NoDup_keys_merge. }
  assert (Hbase : Js.get "baseURL" r = VUndefined) by reflexivity.
  assert (Hurl : Js.get "url" r = VStr (oauthU ++ name)) by reflexivity.
  assert (Hdata : Js.get "data" r = VUndefined) by reflexivity.
  destruct (Js.get "params" req) as [| | | | | |ps] eqn:Hps;
    try (unfold req in Hps; rewrite signed_params in Hps; discriminate).
  exists req, ps.
  split; [reflexivity|].
  split; [unfold req; rewrite signed_get_ne by discriminate; reflexivity|].
  split.
  { unfold req, signed. cbv zeta. rewrite lookup_set_ne by discriminate. reflexivity. }
  split; [unfold req; rewrite signed_get_ne by discriminate; exact Hurl|].
  split.
  { unfold req, signed. cbv zeta. rewrite lookup_set_ne by discriminate. reflexivity. }
  split; [exact Hps|].
  split.
  { rewrite (signed_signature _ _ _ _ _ _ _ Hps).
    rewrite signerCopy_method by exact Hnd.
    rewrite (signerCopy_url_nobase _ _ _ Hnd Hbase Hurl).
    rewrite authorizeData_absent.
    2:{ rewrite signerCopy_data_keep by exact Hnd. now rewrite Hdata. }
    rewrite (signerCopy_url_nobase _ _ _ Hnd Hbase Hurl).
    reflexivity. }
  intros resp Htr. unfold settle. now rewrite Htr.
Qed.

End TokenMaintenance.

(** X15. [renewAccessToken] and [revokeAccessToken] each send one GET
    request to the OAuth url followed by [renew_access_token] or
    [revoke_access_token], whatever the mode and with no [data], signed with
    the token pair the caller passes; each resolves to the response body as
    the transport delivered it. *)
Theorem token_maintenance_requests `{Platform}
    (this : ETrade) (options : obj) (env : Env) (st : state) (s u : obj)
    (oauthU : string) :
  heap st !! settings this = Some s ->
  Js.get "urls" s = VObj u ->
  Js.get "oauth" u = VStr oauthU ->
  admitted this env = true ->
  let sends out name :=
    exists req ps,
      wire (snd out) = (wire st ++ [req])%list
      /\ Js.get "method" req = VStr "GET"
      /\ Js.lookup "baseURL" req = None
      /\ Js.get "url" req = VStr (oauthU ++ name)
      /\ Js.lookup "data" req = None
      /\ Js.get "params" req = VObj ps
      /\ Js.get "oauth_signature" ps
         = VStr (hmacSha1Base64
                   (getBaseString (VStr "GET") (VStr (oauthU ++ name))
                      (OAuth.mergeObject
                         (OAuth.oauthData (oauth this)
                            (Some (Js.get "key" options, Js.get "secret" options)) env)
                         (OAuth.mergeObject [] (deParamUrl (VStr (oauthU ++ name))))))
                   (percentEncode (Js.toString (OAuth.consumer_secret (oauth this)))
                    ++ "&"
                    ++ percentEncode
                         (Js.toString (Js.or (Js.get "secret" options) (VStr "")))))
      /\ (forall resp, transport env = Axios.Resolved resp ->
          fst out = Ok (Axios.data resp)) in
  sends (renewAccessToken this options env st) "renew_access_token"
  /\ sends (revokeAccessToken this options env st) "revoke_access_token".
Proof.
  intros Hs Hu Ho Hadm sends. subst sends. cbv beta. split.
  - rewrite (renewAccessToken_run _ _ _ _ _ _ Hs Hu).
    now apply oauth_bare_call.
  - rewrite (revokeAccessToken_run _ _ _ _ _ _ Hs Hu).
    now apply oauth_bare_call.
Qed.

Lemma token_maintenance_requests_witness :
  let env := Sample.env (Axios.Resolved (Sample.respond 200 "OK"
                                           (VStr "Access Token has been renewed"))) in
  let options := [("key", VStr "at"); ("secret", VStr "as")] in
  heap Sample.store !! settings Sample.this
  = Some (Deepmerge.merge defaults Sample.options) /\
  (exists req,
     wire (snd (renewAccessToken Sample.this options env Sample.store)) = [req]
     /\ Js.get "url" req = VStr "https://api.etrade.com/oauth/renew_access_token") /\
  fst (revokeAccessToken Sample.this options env Sample.store)
  = Ok (VStr "Access Token has been renewed").
Proof.
  intros env options. split; [reflexivity|].
  destruct (token_maintenance_requests Sample.this options env Sample.store
              (Deepmerge.merge defaults Sample.options)
              [ ("oauth", VStr "https://api.etrade.com/oauth/");
                ("prod", VStr "https://api.etrade.com/v1/");
                ("dev", VStr "https://apisb.etrade.com/v1/") ]
              "https://api.etrade.com/oauth/"
              eq_refl eq_refl eq_refl eq_refl)
    as ((req & ps & Hw & _ & _ & Hurl & _) & (req' & ps' & _ & _ & _ & _ & _ & _ & _ & Hres)).
  split.
  - exists req. split; [exact Hw | exact Hurl].
  - exact (Hres _ eq_refl).
Defined.

(* ================================================================== *)
(** * Further properties: results cut to their first element, and
      [deleteAlert] *)
(* ================================================================== *)

Section JoinFacts.

Lemma join_numbers sep ns :
  Js.join sep (map VNum ns) = String.concat sep (map Js.string_of_Z ns).
Proof. unfold Js.join. now rewrite map_map. Qed.

End JoinFacts.



(** X17. [deleteAlert] sends one DELETE request to the selected base url
    with the path [user/alerts/<ids>.json], where an integer id within the
    safe range of a JavaScript number (magnitude at most 2^53 - 1) is written
    in decimal and an array of such ids joined by commas.  The descriptor
    has no [data]; the oauth parameters are among its query parameters, and
    so is [oauth_token], the settings having an access token. *)
Theorem deleteAlert_request `{Platform}
    (this : ETrade) (alertId : value) (env : Env) (st : state) (s u : obj)
    (ids : string) :
  heap st !! settings this = Some s ->
  Js.get "urls" s = VObj u ->
  admitted this env = true ->
  ((exists n, (Z.abs n <= 9007199254740991)%Z
              /\ alertId = VNum n /\ ids = Js.string_of_Z n)
   \/ exists ns, Forall (fun n => (Z.abs n <= 9007199254740991)%Z) ns
                 /\ alertId = VArr (map VNum ns)
                 /\ ids = String.concat "," (map Js.string_of_Z ns)) ->
  exists req ps,
    wire (snd (deleteAlert this alertId env st)) = (wire st ++ [req])%list
    /\ Js.get "method" req = VStr "DELETE"
    /\ Js.get "baseURL" req
       = Deepmerge.clone (if Js.is_string (Js.get "mode" s) "prod"
                          then Js.get "prod" u else Js.get "dev" u)
    /\ Js.get "url" req = VStr ("user/alerts/" ++ ids ++ ".json")
    /\ Js.lookup "data" req = None
    /\ Js.get "params" req = VObj ps
    /\ (forall k, In k oauthKeys -> Js.lookup k ps <> None)
    /\ (Js.is_undefined (Js.get "accessToken" s) = false ->
        Js.lookup "oauth_token" ps <> None).
Proof.
  intros Hs Hu Hadm Hshape.
  change (deleteAlert this alertId env st) with (invoke this (DeleteAlert alertId) env st).
  assert (Hlit : requestLiteral (DeleteAlert alertId)
                 = Ok [ ("method", VStr "DELETE");
                        ("url", VStr ("user/alerts/" ++ ids ++ ".json")) ]).
  { destruct Hshape as [(n & _ & -> & ->)|(ns & _ & -> & ->)];
      cbn [requestLiteral numberOrJoined andThen].
    - reflexivity.
    - now rewrite join_numbers. }
  epose proof (invoke_accepted this (DeleteAlert alertId) env st s u _ Hs Hu Hlit Hadm)
    as Hrun.
  cbv zeta in Hrun. rewrite Hrun. clear Hrun. cbn [snd wire isWrite].
  match goal with
  | |- context [(wire st ++ [?x])%list] => set (req := x)
  end.
  destruct (Js.get "params" req) as [| | | | | |ps] eqn:Hps;
    try (unfold req in Hps; rewrite signed_params in Hps; discriminate).
  exists req, ps.
  split; [reflexivity|].
  split; [unfold req; rewrite signed_get_ne by discriminate; reflexivity|].
  split; [unfold req; rewrite signed_get_ne by discriminate; reflexivity|].
  split; [unfold req; rewrite signed_get_ne by discriminate; reflexivity|].
  split.
  { unfold req, signed. cbv zeta. rewrite lookup_set_ne by discriminate. reflexivity. }
  split; [exact Hps|].
  split; [intros k Hk; now apply (signed_oauth_present _ _ _ _ _ _ _ _ Hps)|].
  intros Htok. now apply (signed_oauth_token _ _ _ _ _ _ Hps).
Qed.

Lemma deleteAlert_request_witness :
  let env := Sample.env (Axios.Resolved (Sample.respond 200 "OK" (VObj []))) in
  heap Sample.store !! settings Sample.this
  = Some (Deepmerge.merge defaults Sample.options) /\
  Forall (fun n => (Z.abs n <= 9007199254740991)%Z) [1001%Z; 1002%Z] /\
  exists req,
    wire (snd (deleteAlert Sample.this (VArr [VNum 1001; VNum 1002]) env Sample.store))
    = [req]
    /\ Js.get "method" req = VStr "DELETE"
    /\ Js.get "url" req = VStr "user/alerts/1001,1002.json".
Proof.
  intros env. split; [reflexivity|].
  assert (Hsafe : Forall (fun n => (Z.abs n <= 9007199254740991)%Z) [1001%Z; 1002%Z]).
  { repeat constructor; cbn; discriminate. }
  split; [exact Hsafe|].
  destruct (deleteAlert_request Sample.this (VArr [VNum 1001; VNum 1002]) env Sample.store
              (Deepmerge.merge defaults Sample.options)
              [ ("oauth", VStr "https://api.etrade.com/oauth/");
                ("prod", VStr "https://api.etrade.com/v1/");
                ("dev", VStr "https://apisb.etrade.com/v1/") ]
              "1001,1002"
              eq_refl eq_refl eq_refl
              (or_intror (ex_intro _ [1001%Z; 1002%Z] (conj Hsafe (conj eq_refl eq_refl)))))
    as (req & ps & Hw & Hm & _ & Hurl & _).
  exists req. split; [exact Hw|]. split; [exact Hm | exact Hurl].
Defined.
